(** * LawyerPortal: the intake map page and the settings tabs

    A shallow embedding of the script blocks of the intake map page
    (state volume tracking: [createOrder], [applyMapColors],
    [applyStateLabels], [handleMouseMove] and the map load on mount) and
    of the settings tabs (expertise, capacity), with the properties the
    specification states about them; then the rest of those scripts (the
    totals, the tooltip handlers, the route-leave guard) and the scripts of
    the fulfillment board and of the retainers page, with properties read
    off the code.

    Conventions of the embedding.
    - A reactive [ref] is a field of the page record; a function of the
      script that assigns refs is a function from page to page.
    - A TypeScript [number] that the user types (the order form) is a
      [number]: NaN, an infinity or a finite value, the finite values being
      exact rationals. The counters of a region and of an order are integers
      in the data of the page and change only by adding [Math.round] of a
      finite value, so they are [Z]. Geometry (client rectangles, bounding
      boxes, pointer positions) is exact rational arithmetic: rounding to
      binary64 is outside the model.
    - A string is a [string] of bytes, the UTF-8 text of the JavaScript
      string. [trim] strips the white space and the line terminators of
      ECMAScript, all of them. [toUpperCase] and [toLowerCase] map the
      letters of ASCII: a property that depends on the case mapping of a
      text is stated for ASCII text.
    - The sums of counters are those of [Z]; binary64 adds integers exactly
      up to 2^53, and a property that states the value of a sum assumes the
      counters not negative and the sum within that range. *)

From Stdlib Require Import ZArith QArith Qround Qminmax Lqa Lia Bool Ascii String List.
From stdpp Require Import base option list strings gmap fin_maps.

Local Open Scope string_scope.
Local Open Scope Z_scope.

(** ** JavaScript values used by the page *)

Module JS.

Inductive number : Type :=
| NaN : number
| Infinity (negative : bool) : number
| Finite (q : Q) : number.

(** [Number.isFinite] *)
Definition Number_isFinite (x : number) : bool :=
  match x with
  | Finite _ => true
  | _ => false
  end.

(** [x <= y]: false as soon as one side is NaN. *)
Definition leb (x y : number) : bool :=
  match x, y with
  | NaN, _ | _, NaN => false
  | Infinity true, _ => true
  | _, Infinity false => true
  | Infinity false, _ => false
  | _, Infinity true => false
  | Finite a, Finite b => Qle_bool a b
  end.

(** [x < y] *)
Definition ltb (x y : number) : bool :=
  match x, y with
  | NaN, _ | _, NaN => false
  | Infinity true, Infinity true => false
  | Infinity true, _ => true
  | Infinity false, _ => false
  | Finite _, Infinity b => negb b
  | Finite a, Finite b => Qle_bool a b && negb (Qeq_bool a b)
  end.

(** [x === y] on numbers: NaN differs from itself. *)
Definition strict_eqb (x y : number) : bool :=
  match x, y with
  | Finite a, Finite b => Qeq_bool a b
  | Infinity a, Infinity b => Bool.eqb a b
  | _, _ => false
  end.

Definition of_Z (z : Z) : number := Finite (inject_Z z).

(** [Math.round]: the nearest integer, a tie going up. JavaScript leaves
    NaN and the infinities as they are; the page rounds a value only
    after [Number.isFinite] accepted it, and stores the result in an
    integer counter, so the integer is read on finite arguments (it is 0
    elsewhere). *)
Definition Math_round (x : number) : Z :=
  match x with
  | Finite q => Qfloor (q + (1 # 2))
  | _ => 0
  end.

(** A string is the UTF-8 text of the JavaScript string. The white space
    and the line terminators of ECMAScript, which [String.prototype.trim]
    strips, each as its UTF-8 bytes: U+0009 to U+000D, U+0020, U+00A0,
    U+1680, U+2000 to U+200A, U+2028, U+2029, U+202F, U+205F, U+3000 and
    U+FEFF. *)
Definition whiteSpace : list (list ascii) :=
  List.map (List.map ascii_of_nat)
    [ [9]; [10]; [11]; [12]; [13]; [32]; [194; 160]; [225; 154; 128];
      [226; 128; 128]; [226; 128; 129]; [226; 128; 130]; [226; 128; 131];
      [226; 128; 132]; [226; 128; 133]; [226; 128; 134]; [226; 128; 135];
      [226; 128; 136]; [226; 128; 137]; [226; 128; 138]; [226; 128; 168];
      [226; 128; 169]; [226; 128; 175]; [226; 129; 159]; [227; 128; 128];
      [239; 187; 191] ]%nat.

(** What is left of [s] after the bytes [w], when [s] starts with them. *)
Fixpoint stripPrefix (w s : list ascii) : option (list ascii) :=
  match w, s with
  | [], _ => Some s
  | a :: w', b :: s' => if Ascii.eqb a b then stripPrefix w' s' else None
  | _ :: _, [] => None
  end.

(** What is left of [s] after its first character, when that character is
    one of [ws]. *)
Fixpoint skipOne (ws : list (list ascii)) (s : list ascii)
  : option (list ascii) :=
  match ws with
  | [] => None
  | w :: ws' =>
      match stripPrefix w s with
      | Some rest => Some rest
      | None => skipOne ws' s
      end
  end.

(** [s] without the characters of [ws] it starts with; [fuel] bounds the
    number of characters skipped, and the length of [s] is enough. *)
Fixpoint skipAll (ws : list (list ascii)) (fuel : nat) (s : list ascii)
  : list ascii :=
  match fuel with
  | O => s
  | S fuel' =>
      match skipOne ws s with
      | Some rest => skipAll ws fuel' rest
      | None => s
      end
  end.

Definition trimStart (s : string) : string :=
  let l := list_ascii_of_string s in
  string_of_list_ascii (skipAll whiteSpace (List.length l) l).

(** The end of the text is trimmed as the start of the text read
    backwards. *)
Definition trimEnd (s : string) : string :=
  let l := List.rev (list_ascii_of_string s) in
  string_of_list_ascii
    (List.rev (skipAll (List.map (@List.rev ascii) whiteSpace)
                       (List.length l) l)).

Definition trim (s : string) : string := trimEnd (trimStart s).

(** Text of ASCII characters only. *)
Definition isAscii (s : string) : bool :=
  forallb (λ c, (nat_of_ascii c <? 128)%nat) (list_ascii_of_string s).

(** The letters A to Z and a to z. *)
Definition isLetter (c : ascii) : bool :=
  let n := nat_of_ascii c in
  ((65 <=? n) && (n <=? 90))%nat || ((97 <=? n) && (n <=? 122))%nat.

(** [toUpperCase] and [toLowerCase] map the letters of ASCII and leave
    every other byte as it is: they are those of JavaScript on ASCII text,
    and on any text as far as the emptiness of the result goes. A property
    that depends on the case mapping of a text is stated for ASCII text
    ([isAscii]). *)
Definition upperChar (c : ascii) : ascii :=
  let n := nat_of_ascii c in
  if ((97 <=? n) && (n <=? 122))%nat then ascii_of_nat (n - 32) else c.

Fixpoint toUpperCase (s : string) : string :=
  match s with
  | String c s' => String (upperChar c) (toUpperCase s')
  | EmptyString => EmptyString
  end.

(** Truthiness of a string: the empty string is falsy. *)
Definition truthy (s : string) : bool :=
  match s with
  | EmptyString => false
  | String _ _ => true
  end.

(** [a || b] on nullable strings. *)
Definition or_else (a b : option string) : option string :=
  match a with
  | Some s => if truthy s then a else b
  | None => b
  end.

Definition lowerChar (c : ascii) : ascii :=
  let n := nat_of_ascii c in
  if ((65 <=? n) && (n <=? 90))%nat then ascii_of_nat (n + 32) else c.

Fixpoint toLowerCase (s : string) : string :=
  match s with
  | String c s' => String (lowerChar c) (toLowerCase s')
  | EmptyString => EmptyString
  end.

(** [s.startsWith(q)] *)
Fixpoint startsWith (s q : string) : bool :=
  match q, s with
  | EmptyString, _ => true
  | String a q', String b s' => Ascii.eqb a b && startsWith s' q'
  | String _ _, EmptyString => false
  end.

(** [s.includes(q)] *)
Fixpoint includes (s q : string) : bool :=
  startsWith s q
  || match s with
     | String _ s' => includes s' q
     | EmptyString => false
     end.

(** [l.join(sep)] *)
Fixpoint join (sep : string) (l : list string) : string :=
  match l with
  | [] => EmptyString
  | [x] => x
  | x :: rest => x +:+ sep +:+ join sep rest
  end.

End JS.

(** ** The intake map page: data *)

Inductive StateStatus : Type := active | low | inactive.

(** The status filter of the page: ['all' | StateStatus]. *)
Inductive StatusFilter : Type :=
| all : StatusFilter
| only (s : StateStatus) : StatusFilter.

Global Instance StateStatus_eq_dec : EqDecision StateStatus.
Proof. solve_decision. Defined.

Global Instance StatusFilter_eq_dec : EqDecision StatusFilter.
Proof. solve_decision. Defined.

Module StateIntake.
Record t : Type := mk {
  code : string;
  name : string;
  currentVolume : Z;
  targetVolume : Z;
  salesNext30Days : Z;
  status : StateStatus;
  fulfilled : Z;
  pending : Z
}.
End StateIntake.

Module IntakeOrder.
Record t : Type := mk {
  id : string;
  stateCode : string;
  volume : Z;
  salesForecast : Z;
  days : Z;
  createdAt : string
}.
End IntakeOrder.

Module OrderForm.
Record t : Type := mk {
  stateCode : string;
  volume : JS.number;
  salesForecast : JS.number;
  days : JS.number
}.
End OrderForm.

(** [getBBox()] of a path. *)
Module BBox.
Record t : Type := mk { x : Q; y : Q; width : Q; height : Q }.
End BBox.

(** [getBoundingClientRect()] of the map container. *)
Module ClientRect.
Record t : Type := mk { left : Q; top : Q; width : Q; height : Q }.
End ClientRect.

(** A declaration of an inline style: its value and whether it was set
    with priority ['important']. *)
Module Decl.
Record t : Type := mk { value : string; important : bool }.
End Decl.

Module Style.
Record t : Type := mk {
  fill : Decl.t;
  stroke : Decl.t;
  strokeWidth : Decl.t;
  cursor : string;
  opacity : string
}.
End Style.

(** An element selected by [path[data-id]]: its two attributes, the result
    of [getBBox()] ([None] when the call throws) and its inline style. *)
Module Shape.
Record t : Type := mk {
  dataId : string;
  idAttr : option string;
  bbox : option BBox.t;
  style : Style.t
}.
End Shape.

(** A [<text>] element of the label group. [x], [y] and [fontSize] are the
    numbers that the script writes with [String(cx)], [String(cy)] and
    [`${fontSize}px`]. *)
Module TextEl.
Record t : Type := mk {
  textContent : string;
  x : Q;
  y : Q;
  textAnchor : string;
  dominantBaseline : string;
  fontSize : Q;
  fontWeight : string;
  fill : string;
  paintOrder : string;
  stroke : string;
  strokeWidth : string
}.
End TextEl.

(** The elements of the injected document, in document order: the paths
    that carry [data-id], groups of labels, and anything else. *)
Inductive Node : Type :=
| PathEl (p : Shape.t)
| GroupEl (id : string) (pointerEvents : string) (children : list TextEl.t)
| OtherEl (id : option string).

Module MapRoot.
Record t : Type := mk {
  rect : ClientRect.t;
  innerHTML : string;
  svg : option (list Node);
  listening : bool
}.
End MapRoot.

Module Tooltip.
Record t : Type := mk {
  open : bool;
  x : Q;
  y : Q;
  (** the region shown, as its position in [mockStates]: the script keeps
      a reference to the region object *)
  state : option nat
}.
End Tooltip.

(** [offsetWidth] and [offsetHeight] of the tooltip element. *)
Module TooltipEl.
Record t : Type := mk { offsetWidth : Z; offsetHeight : Z }.
End TooltipEl.

(** The refs of the page. *)
Module Page.
Record t : Type := mk {
  orders : list IntakeOrder.t;
  mockStates : list StateIntake.t;
  createOrderOpen : bool;
  orderForm : OrderForm.t;
  selectedStatus : StatusFilter;
  mapRoot : option MapRoot.t;
  tooltip : Tooltip.t;
  tooltipEl : option TooltipEl.t
}.

Definition with_orders (v : list IntakeOrder.t) (p : t) : t :=
  mk v (mockStates p) (createOrderOpen p) (orderForm p) (selectedStatus p)
     (mapRoot p) (tooltip p) (tooltipEl p).
Definition with_mockStates (v : list StateIntake.t) (p : t) : t :=
  mk (orders p) v (createOrderOpen p) (orderForm p) (selectedStatus p)
     (mapRoot p) (tooltip p) (tooltipEl p).
Definition with_createOrderOpen (v : bool) (p : t) : t :=
  mk (orders p) (mockStates p) v (orderForm p) (selectedStatus p)
     (mapRoot p) (tooltip p) (tooltipEl p).
Definition with_orderForm (v : OrderForm.t) (p : t) : t :=
  mk (orders p) (mockStates p) (createOrderOpen p) v (selectedStatus p)
     (mapRoot p) (tooltip p) (tooltipEl p).
Definition with_mapRoot (v : option MapRoot.t) (p : t) : t :=
  mk (orders p) (mockStates p) (createOrderOpen p) (orderForm p)
     (selectedStatus p) v (tooltip p) (tooltipEl p).
Definition with_tooltip (v : Tooltip.t) (p : t) : t :=
  mk (orders p) (mockStates p) (createOrderOpen p) (orderForm p)
     (selectedStatus p) (mapRoot p) v (tooltipEl p).
End Page.

(** ** The intake map page: the script *)

Module IntakeMap.

Import JS.

Definition resetOrderForm (st : Page.t) : Page.t :=
  Page.with_orderForm (OrderForm.mk "" (of_Z 1) (of_Z 5) (of_Z 30)) st.

Definition openCreateOrder (st : Page.t) : Page.t :=
  Page.with_createOrderOpen true st.

Definition handleCreateOrderOpenUpdate (v : bool) (st : Page.t) : Page.t :=
  Page.with_createOrderOpen v st.

(** The regions the page starts with. *)
Definition initialStates : list StateIntake.t :=
  [ StateIntake.mk "CA" "California" 45 50 5 active 40 5;
    StateIntake.mk "TX" "Texas" 38 40 4 active 35 3;
    StateIntake.mk "FL" "Florida" 22 30 3 low 20 2;
    StateIntake.mk "NY" "New York" 35 40 5 active 32 3;
    StateIntake.mk "PA" "Pennsylvania" 18 25 2 low 16 2;
    StateIntake.mk "IL" "Illinois" 28 30 3 active 25 3;
    StateIntake.mk "OH" "Ohio" 15 20 2 low 13 2;
    StateIntake.mk "GA" "Georgia" 20 25 3 low 18 2;
    StateIntake.mk "NC" "North Carolina" 12 15 1 low 11 1;
    StateIntake.mk "MI" "Michigan" 8 15 1 low 7 1;
    StateIntake.mk "WA" "Washington" 25 30 4 active 22 3;
    StateIntake.mk "AZ" "Arizona" 16 20 2 low 14 2;
    StateIntake.mk "MA" "Massachusetts" 19 25 3 low 17 2;
    StateIntake.mk "TN" "Tennessee" 10 15 1 low 9 1;
    StateIntake.mk "CO" "Colorado" 14 20 2 low 12 2;
    StateIntake.mk "OR" "Oregon" 11 15 1 low 10 1;
    StateIntake.mk "NV" "Nevada" 9 12 1 low 8 1;
    StateIntake.mk "VA" "Virginia" 13 18 2 low 11 2;
    StateIntake.mk "MN" "Minnesota" 7 12 1 low 6 1;
    StateIntake.mk "WI" "Wisconsin" 6 10 1 low 5 1 ].

(** The values of [orderDaysOptions]. *)
Definition orderDaysOptions : list Z := [7; 14; 30; 60].

Definition filteredStates (st : Page.t) : list StateIntake.t :=
  match Page.selectedStatus st with
  | all => Page.mockStates st
  | only f => filter (λ s, StateIntake.status s = f) (Page.mockStates st)
  end.

(** [stateByCode]: a [Map] filled by [forEach], a later region replacing
    an earlier one of the same code. *)
Definition stateByCode (st : Page.t) : gmap string StateIntake.t :=
  foldl (λ m s, <[StateIntake.code s := s]> m) ∅ (Page.mockStates st).

Definition getStatusColor (status : StateStatus) : string :=
  match status with
  | active => "#22c55e"
  | low => "#eab308"
  | inactive => "#ef4444"
  end.

Definition getStatusLabel (status : StateStatus) : string :=
  match status with
  | active => "Active"
  | low => "Low Volume"
  | inactive => "Inactive"
  end.

(** [p.getAttribute('data-id') || p.getAttribute('id')], and [None] where
    the callback returns on [!code]. *)
Definition shapeCode (p : Shape.t) : option string :=
  match or_else (Some (Shape.dataId p)) (Shape.idAttr p) with
  | Some c => if truthy c then Some c else None
  | None => None
  end.

Definition nodeId (n : Node) : option string :=
  match n with
  | PathEl p => Shape.idAttr p
  | GroupEl i _ _ => Some i
  | OtherEl i => i
  end.

(** [svg.querySelectorAll('path[data-id]')] *)
Definition pathsOf (nodes : list Node) : list Shape.t :=
  omap (λ n, match n with PathEl p => Some p | _ => None end) nodes.

(** [old = svg.querySelector('#state-labels'); if (old) old.remove()]:
    the first element of that id leaves the document. *)
Fixpoint removeLabels (nodes : list Node) : list Node :=
  match nodes with
  | [] => []
  | n :: rest =>
      if bool_decide (nodeId n = Some "state-labels") then rest
      else n :: removeLabels rest
  end.

(** The callback of [paths.forEach] in [applyStateLabels]: the text
    element appended for a path, if any. *)
Definition labelFor (st : Page.t) (p : Shape.t) : option TextEl.t :=
  match shapeCode p with
  | None => None
  | Some code =>
      match Shape.bbox p with
      | None => None
      | Some bbox =>
          let cx := (BBox.x bbox + BBox.width bbox / 2)%Q in
          let cy := (BBox.y bbox + BBox.height bbox / 2)%Q in
          let isVisible :=
            match Page.selectedStatus st with
            | all => true
            | _ => existsb (λ s, String.eqb (StateIntake.code s) code)
                           (filteredStates st)
            end in
          if negb isVisible then None
          else
            let fontSize :=
              Qmax 6 (Qmin (BBox.width bbox) (BBox.height bbox) / 3) in
            Some (TextEl.mk code cx cy "middle" "middle" fontSize "700"
                            "#ffffff" "stroke" "rgba(0,0,0,0.5)" "1")
      end
  end.

Definition applyStateLabels (st : Page.t) : Page.t :=
  match Page.mapRoot st with
  | None => st
  | Some root =>
      match MapRoot.svg root with
      | None => st
      | Some nodes =>
          let nodes := removeLabels nodes in
          let g := GroupEl "state-labels" "none"
                           (omap (labelFor st) (pathsOf nodes)) in
          Page.with_mapRoot
            (Some (MapRoot.mk (MapRoot.rect root) (MapRoot.innerHTML root)
                              (Some (nodes ++ [g])%list) (MapRoot.listening root)))
            st
      end
  end.

(** [visibleSet] of [applyMapColors], the codes of [filteredStates]. *)
Definition visibleSet (st : Page.t) : gset string :=
  list_to_set (StateIntake.code <$> filteredStates st).

(** The callback of [paths.forEach] in [applyMapColors]. *)
Definition paintPath (st : Page.t) (visibleSet : gset string) (p : Shape.t)
  : Shape.t :=
  match shapeCode p with
  | None => p
  | Some code =>
      let state := stateByCode st !! code in
      let isVisible :=
        match Page.selectedStatus st with
        | all => true
        | _ => bool_decide (code ∈ visibleSet)
        end in
      let fill :=
        match state with
        | Some s => if isVisible then getStatusColor (StateIntake.status s)
                    else "#e5e7eb"
        | None => "#e5e7eb"
        end in
      let stroke := "#0b0b0b" in
      Shape.mk (Shape.dataId p) (Shape.idAttr p) (Shape.bbox p)
        (Style.mk (Decl.mk fill true) (Decl.mk stroke true)
                  (Decl.mk "0.8" true)
                  (match state with Some _ => "pointer" | None => "default" end)
                  (if isVisible then "1" else "0.15"))
  end.

Definition paintNode (st : Page.t) (visibleSet : gset string) (n : Node)
  : Node :=
  match n with
  | PathEl p => PathEl (paintPath st visibleSet p)
  | _ => n
  end.

Definition applyMapColors (st : Page.t) : Page.t :=
  match Page.mapRoot st with
  | None => st
  | Some root =>
      match MapRoot.svg root with
      | None => st
      | Some nodes =>
          let visibleSet := visibleSet st in
          let nodes := paintNode st visibleSet <$> nodes in
          applyStateLabels
            (Page.with_mapRoot
               (Some (MapRoot.mk (MapRoot.rect root) (MapRoot.innerHTML root)
                                 (Some nodes) (MapRoot.listening root)))
               st)
      end
  end.

(** [createOrder]. [rnd] is the string [Math.random().toString(16)] and
    [now] the string [new Date().toISOString()] of the call. The fields
    of the form are typed: [String(x || '')] and [Number(x)] leave them as
    they are. The code is upper-cased by [toUpperCase], which is that of
    JavaScript for a code in ASCII; the counters are added in [Z], as the
    page adds them while they stay within 2^53. *)
Definition createOrder (rnd now : string) (st : Page.t) : Page.t :=
  let stateCode := toUpperCase (trim (OrderForm.stateCode (Page.orderForm st))) in
  let volume := OrderForm.volume (Page.orderForm st) in
  let salesForecast := OrderForm.salesForecast (Page.orderForm st) in
  let days := OrderForm.days (Page.orderForm st) in
  if negb (truthy stateCode) || negb (Number_isFinite volume)
     || leb volume (of_Z 0) then st
  else if negb (Number_isFinite salesForecast)
          || ltb salesForecast (of_Z 0) then st
  else if negb (Number_isFinite days) || leb days (of_Z 0) then st
  else
    let order :=
      IntakeOrder.mk ("O-" +:+ toUpperCase (substring 2 8 rnd)) stateCode
        (Math_round volume) (Math_round salesForecast) (Math_round days)
        now in
    let st := Page.with_orders (order :: Page.orders st) st in
    let st :=
      match list_find (λ s, StateIntake.code s = stateCode)
                      (Page.mockStates st) with
      | Some (idx, s) =>
          let currentVolume := StateIntake.currentVolume s + Math_round volume in
          let pending := StateIntake.pending s + Math_round volume in
          let salesNext30Days :=
            if strict_eqb days (of_Z 30)
            then StateIntake.salesNext30Days s + Math_round salesForecast
            else StateIntake.salesNext30Days s in
          let status :=
            if currentVolume >=? StateIntake.targetVolume s then active
            else low in
          Page.with_mockStates
            (<[idx := StateIntake.mk (StateIntake.code s) (StateIntake.name s)
                        currentVolume (StateIntake.targetVolume s)
                        salesNext30Days status (StateIntake.fulfilled s)
                        pending]> (Page.mockStates st))
            st
      | None => st
      end in
    let st := Page.with_createOrderOpen false st in
    let st := resetOrderForm st in
    applyMapColors st.

Definition handleStateLeave (st : Page.t) : Page.t :=
  Page.with_tooltip
    (Tooltip.mk false (Tooltip.x (Page.tooltip st))
                (Tooltip.y (Page.tooltip st)) None)
    st.

(** [handleMouseMove], on the [clientX] and [clientY] of the event. *)
Definition handleMouseMove (clientX clientY : Q) (st : Page.t) : Page.t :=
  if negb (Tooltip.open (Page.tooltip st)) then st
  else
    match Page.mapRoot st with
    | None => st
    | Some root =>
        let rect := MapRoot.rect root in
        let offset := 6%Q in
        let rawX := (clientX - ClientRect.left rect + offset)%Q in
        let rawY := (clientY - ClientRect.top rect + offset)%Q in
        let w :=
          match Page.tooltipEl st with
          | Some el => inject_Z (TooltipEl.offsetWidth el)
          | None => 0%Q
          end in
        let h :=
          match Page.tooltipEl st with
          | Some el => inject_Z (TooltipEl.offsetHeight el)
          | None => 0%Q
          end in
        let maxX := Qmax 0 (ClientRect.width rect - w - 4) in
        let maxY := Qmax 0 (ClientRect.height rect - h - 4) in
        Page.with_tooltip
          (Tooltip.mk (Tooltip.open (Page.tooltip st))
                      (Qmax 4 (Qmin rawX maxX)) (Qmax 4 (Qmin rawY maxY))
                      (Tooltip.state (Page.tooltip st)))
          st
    end.

(** [bindSvgEvents]: the listeners are on the paths and on the svg of the
    document; the model records that they are attached. *)
Definition bindSvgEvents (st : Page.t) : Page.t :=
  match Page.mapRoot st with
  | None => st
  | Some root =>
      match MapRoot.svg root with
      | None => st
      | Some nodes =>
          Page.with_mapRoot
            (Some (MapRoot.mk (MapRoot.rect root) (MapRoot.innerHTML root)
                              (Some nodes) true))
            st
      end
  end.

(** What [fetch(US_SVG_URL)] does: it rejects, or resolves to a response
    with its [ok] flag and the outcome of [res.text()] ([None] when that
    promise rejects). *)
Inductive FetchResult : Type :=
| Rejected
| Response (ok : bool) (text : option string).

(** [localStorage] at the key [US_SVG_CACHE_KEY]: the stored item and
    whether [getItem] and [setItem] throw (storage disabled, quota). *)
Module LocalStorage.
Record t : Type := mk {
  item : option string;
  getItemThrows : bool;
  setItemThrows : bool
}.
End LocalStorage.

(** [try { localStorage.setItem(KEY, v) } catch { }] *)
Definition trySetItem (v : string) (ls : LocalStorage.t) : LocalStorage.t :=
  if LocalStorage.setItemThrows ls then ls
  else LocalStorage.mk (Some v) (LocalStorage.getItemThrows ls)
                       (LocalStorage.setItemThrows ls).

(** [try { return localStorage.getItem(KEY) } catch { return null }] *)
Definition tryGetItem (ls : LocalStorage.t) : option string :=
  if LocalStorage.getItemThrows ls then None else LocalStorage.item ls.

(** The text the [try] block obtains, [None] when it throws before the
    text is there: [fetch] rejects, [res.ok] is false, or [res.text()]
    rejects. *)
Definition fetchedText (r : FetchResult) : option string :=
  match r with
  | Response true (Some svgText) => Some svgText
  | _ => None
  end.

Section Load.

(** The elements that [root.querySelector('svg')] and the selectors of
    the script find once a text is assigned to [innerHTML]. *)
Variable parseSvg : string → option (list Node).

(** The bundled document, [us.svg?raw]. *)
Variable usSvgFallbackRaw : string.

(** [mapRoot.value.innerHTML = text]: the elements are new, none has a
    listener. *)
Definition setInnerHTML (text : string) (st : Page.t) : Page.t :=
  match Page.mapRoot st with
  | None => st
  | Some root =>
      Page.with_mapRoot
        (Some (MapRoot.mk (MapRoot.rect root) text (parseSvg text) false))
        st
  end.

(** [cached || usSvgFallbackRaw] *)
Definition cachedOrFallback (cached : option string) : string :=
  match cached with
  | Some c => if truthy c then c else usSvgFallbackRaw
  | None => usSvgFallbackRaw
  end.

(** [run], the body of [onMounted]. *)
Definition run (r : FetchResult) (ls : LocalStorage.t) (st : Page.t)
  : Page.t * LocalStorage.t :=
  match Page.mapRoot st with
  | None => (st, ls)
  | Some _ =>
      match fetchedText r with
      | Some svgText =>
          let ls := trySetItem svgText ls in
          (applyMapColors (bindSvgEvents (setInnerHTML svgText st)), ls)
      | None =>
          let cached := tryGetItem ls in
          (applyMapColors
             (bindSvgEvents (setInnerHTML (cachedOrFallback cached) st)),
           ls)
      end
  end.

(** The document that [run] leaves in the container. *)
Definition injected (st : Page.t) : option string :=
  MapRoot.innerHTML <$> Page.mapRoot st.

End Load.

(** The four totals of the cards, each a [reduce] over the regions. The
    sums are those of [Z], which are the sums of the page as long as the
    counters are not negative and the total is at most 2^53. *)
Definition totalVolume (st : Page.t) : Z :=
  foldl (λ sum s, sum + StateIntake.currentVolume s) 0 (Page.mockStates st).

Definition totalTarget (st : Page.t) : Z :=
  foldl (λ sum s, sum + StateIntake.targetVolume s) 0 (Page.mockStates st).

Definition totalFulfilled (st : Page.t) : Z :=
  foldl (λ sum s, sum + StateIntake.fulfilled s) 0 (Page.mockStates st).

Definition totalPending (st : Page.t) : Z :=
  foldl (λ sum s, sum + StateIntake.pending s) 0 (Page.mockStates st).

(** The [:disabled] expression of the Create button of the template:
    [!String(orderForm.stateCode || '').trim() || Number(orderForm.volume) <= 0]. *)
Definition createDisabled (st : Page.t) : bool :=
  negb (truthy (trim (OrderForm.stateCode (Page.orderForm st))))
  || leb (OrderForm.volume (Page.orderForm st)) (of_Z 0).

(** [stateByCode] holds the region objects themselves; this is the same
    [Map] read as references, the position in [mockStates] of the object
    kept for each code. *)
Definition stateRefByCode (st : Page.t) : gmap string nat :=
  foldl (λ m r, <[StateIntake.code r.2 := r.1]> m) ∅
        (imap (λ i s, (i, s)) (Page.mockStates st)).

(** [handleStateEnter], on the target of the event ([None] when it is
    null). The tooltip keeps a reference to the region object. *)
Definition handleStateEnter (target : option Shape.t) (st : Page.t) : Page.t :=
  match target with
  | None => st
  | Some target =>
      match shapeCode target with
      | None => st
      | Some code =>
          match stateRefByCode st !! code with
          | None => st
          | Some state =>
              Page.with_tooltip
                (Tooltip.mk true (Tooltip.x (Page.tooltip st))
                            (Tooltip.y (Page.tooltip st)) (Some state))
                st
          end
      end
  end.

(** [unbindSvgEvents]: the listeners leave the paths and the svg. *)
Definition unbindSvgEvents (st : Page.t) : Page.t :=
  match Page.mapRoot st with
  | None => st
  | Some root =>
      match MapRoot.svg root with
      | None => st
      | Some nodes =>
          Page.with_mapRoot
            (Some (MapRoot.mk (MapRoot.rect root) (MapRoot.innerHTML root)
                              (Some nodes) false))
            st
      end
  end.

End IntakeMap.

(** ** The profile draft shared by the settings tabs *)

Module AttorneyProfile.

(** A value of a profile field: a text, a number or a list of texts. *)
Inductive Value : Type :=
| VString (s : string)
| VNumber (z : Z)
| VList (l : list string).

Global Instance Value_eq_dec : EqDecision Value.
Proof. solve_decision. Defined.

(** A profile record: its fields by name. *)
Abbreviation Profile := (gmap string Value).

(** Modelled from the spec: the composable [useAttorneyProfile]
    (composables/useAttorneyProfile) is not part of the sources at hand.
    Its refs are [state], the baseline (the last loaded or persisted
    profile), [draft], the working copy the forms are bound to, and
    [isEditing], the state of the machine (Idle or Editing). *)
Record t : Type := mk {
  state : Profile;
  draft : Profile;
  isEditing : bool
}.

(** Modelled from the spec: the persistence backend of the missing
    composable, one record per owner identity. *)
Abbreviation Backend := (gmap string (gmap string Value)).

(** Modelled from the spec: [isDirty] of the missing composable, true iff
    any field of the draft differs from the baseline. *)
Definition isDirty (m : t) : bool := bool_decide (draft m ≠ state m).

(** Modelled from the spec: [startEditing] of the missing composable,
    Idle to Editing, and no change when already Editing. *)
Definition startEditing (m : t) : t := mk (state m) (draft m) true.

(** Modelled from the spec: [cancelEditing] of the missing composable,
    Editing to Idle, the draft reset to the last loaded baseline. *)
Definition cancelEditing (m : t) : t := mk (state m) (state m) false.

(** Modelled from the spec: the part of the draft that a commit of the
    missing composable sends, the fields named in the list. *)
Definition payload (fieldList : list string) (d : Profile) : Profile :=
  filter (λ kv, kv.1 ∈ fieldList) d.

(** Modelled from the spec: the partial-field update-by-owner of the
    backend, which the missing composable calls; the fields of the
    payload replace those of the owner's record, the others stay. *)
Definition updateByOwner (ownerId : string) (fields : Profile) (b : Backend)
  : Backend :=
  alter (λ record, fields ∪ record) ownerId b.

(** Modelled from the spec: [commitEditing(ownerId, fieldList)] of the
    missing composable. It is valid only in Editing. [remoteOk] tells
    whether the backend accepts the update. On success the backend holds
    the named fields of the draft, the baseline adopts them and the
    machine is Idle; on failure the machine and the backend are as
    before and the error goes to the caller ([false]). *)
Definition commitEditing (remoteOk : bool) (ownerId : string)
    (fieldList : list string) (m : t) (b : Backend) : t * Backend * bool :=
  if negb (isEditing m) then (m, b, false)
  else if negb remoteOk then (m, b, false)
  else
    let persisted := payload fieldList (draft m) ∪ state m in
    (mk persisted persisted false,
     updateByOwner ownerId (payload fieldList (draft m)) b,
     true).

End AttorneyProfile.

(** ** The settings tabs *)

Module Toast.
Record t : Type := mk {
  title : string;
  description : string;
  icon : string;
  color : string
}.
End Toast.

Module SettingsTab.

Import AttorneyProfile.

(** The refs of a tab and the toasts it has added. *)
Record t : Type := mk {
  saving : bool;
  toasts : list Toast.t
}.

(** What a rejected [commitEditing] throws: an [Error] with its message,
    or anything else. *)
Inductive Thrown : Type :=
| ErrorObject (message : string)
| OtherThrown.

(** [err instanceof Error ? err.message : 'Unable to update profile'] *)
Definition messageOf (err : Thrown) : string :=
  match err with
  | ErrorObject message => message
  | OtherThrown => "Unable to update profile"
  end.

Section Tab.

(** The field list the tab passes to [commitEditing] and the text of
    its success toast. *)
Variable fieldList : list string.
Variable successDescription : string.

(** Modelled from the spec: [loadProfile(ownerId)] of the missing
    composable; the spec leaves open what it does to the machine, so
    the tab is modelled over any such function. *)
Variable loadProfile : string → AttorneyProfile.t → AttorneyProfile.t.

(** [onMounted] of the tab. [userId] is [auth.state.value.user?.id ?? '']
    once [auth.init()] is done. *)
Definition onMounted (userId : string) (m : AttorneyProfile.t)
  : AttorneyProfile.t :=
  let m := if JS.truthy userId then loadProfile userId m else m in
  if isEditing m && negb (isDirty m) then cancelEditing m else m.

(** [onSubmit] of the tab. [err] is what [commitEditing] throws when it
    rejects. *)
Definition onSubmit (remoteOk : bool) (err : Thrown)
    (userId : string) (tab : t) (m : AttorneyProfile.t) (b : Backend)
  : t * AttorneyProfile.t * Backend :=
  if negb (JS.truthy userId) then (tab, m, b)
  else
    match commitEditing remoteOk userId fieldList m b with
    | (m', b', true) =>
        (mk false
            (toasts tab ++
               [Toast.mk "Success" successDescription "i-lucide-check"
                         "success"])%list,
         m', b')
    | (m', b', false) =>
        (mk false
            (toasts tab ++
               [Toast.mk "Error" (messageOf err) "i-lucide-x" "error"])%list,
         m', b')
    end.

End Tab.

End SettingsTab.

(** The expertise tab (pages/settings/expertise). *)
Module ExpertiseTab.

Definition fieldList : list string :=
  [ "licensedStates"; "primaryCity"; "countiesCovered"; "federalCourts";
    "primaryPracticeFocus"; "injuryCategories"; "exclusionaryCriteria";
    "minimumCaseValue" ].

Definition onMounted := SettingsTab.onMounted.

Definition onSubmit :=
  SettingsTab.onSubmit fieldList
    "Your expertise and jurisdiction settings have been updated.".

End ExpertiseTab.

(** The capacity tab (pages/settings/capacity.vue). *)
Module CapacityTab.

Definition fieldList : list string :=
  [ "availabilityStatus"; "firmSize"; "caseManagementSoftware";
    "insuranceCarriers"; "litigationStyle"; "largestSettlement";
    "avgTimeToClose" ].

Definition onMounted := SettingsTab.onMounted.

Definition onSubmit :=
  SettingsTab.onSubmit fieldList
    "Your capacity and performance settings have been updated.".

End CapacityTab.

(** ** The route-leave guard of the settings tabs *)

Module LeaveGuard.

(** What a guard tells the router for a navigation: [next()] or
    [next(false)]. *)
Inductive NextCall : Type := Proceed | Abort.

Global Instance NextCall_eq_dec : EqDecision NextCall.
Proof. solve_decision. Defined.

(** The refs of the guard. [pendingNav] holds the closure [() => next()] of
    a navigation, here the navigation whose [next] it calls. *)
Record t : Type := mk {
  unsavedOpen : bool;
  pendingNav : option nat
}.

(** What happens to the guard: the router asks it about a navigation, or
    the user answers the dialog with "discard" or with "stay". *)
Inductive Event : Type :=
| Leave (nav : nat)
| Discard
| Stay.

(** The navigations that a sequence of events asks about. *)
Definition attempts (events : list Event) : list nat :=
  omap (λ e, match e with Leave nav => Some nav | _ => None end) events.

Section Guard.

(** The composable [useAttorneyProfile] is not among the sources: the
    guard is modelled over any draft machine that offers what the tab
    reads and calls. *)
Variable M : Type.
Variable isEditing : M → bool.
Variable isDirty : M → bool.
Variable cancelEditing : M → M.

(** What the handlers of the guard act on: its refs, the draft machine and
    the calls made so far to the [next] of each navigation. *)
Record World : Type := mkWorld {
  guard : t;
  machine : M;
  calls : list (nat * NextCall)
}.

Definition confirmLeave (w : World) : World :=
  mkWorld (mk true (pendingNav (guard w))) (machine w) (calls w).

Definition handleConfirmDiscard (w : World) : World :=
  let m := cancelEditing (machine w) in
  let go := pendingNav (guard w) in
  mkWorld (mk false None) m
          (calls w ++ match go with
                      | Some nav => [(nav, Proceed)]
                      | None => []
                      end)%list.

Definition handleStay (w : World) : World :=
  mkWorld (mk false None) (machine w) (calls w).

(** The guard registered with [onBeforeRouteLeave], for the navigation
    [nav]. *)
Definition onBeforeRouteLeave (nav : nat) (w : World) : World :=
  if isEditing (machine w) && isDirty (machine w) then
    let w := mkWorld (mk (unsavedOpen (guard w)) (Some nav)) (machine w)
                     (calls w) in
    let w := confirmLeave w in
    mkWorld (guard w) (machine w) (calls w ++ [(nav, Abort)])%list
  else
    mkWorld (guard w) (machine w) (calls w ++ [(nav, Proceed)])%list.

(** The handler that an event runs, and a sequence of events. *)
Definition step (w : World) (e : Event) : World :=
  match e with
  | Leave nav => onBeforeRouteLeave nav w
  | Discard => handleConfirmDiscard w
  | Stay => handleStay w
  end.

Definition runEvents (events : list Event) (w : World) : World :=
  foldl step w events.

(** What the events keep true, [seen] being the navigations asked about so
    far: the calls are about those navigations, the pending navigation is
    one of them and was not let through, and no navigation was let through
    twice. *)
Definition invariant (seen : list nat) (w : World) : Prop :=
  (∀ n c, (n, c) ∈ calls w → n ∈ seen)
  ∧ (∀ n, pendingNav (guard w) = Some n → n ∈ seen ∧ (n, Proceed) ∉ calls w)
  ∧ NoDup (filter (λ c, c.2 = Proceed) (calls w)).

End Guard.

End LeaveGuard.

(** ** The fulfillment board *)

Module Fulfillment.

Import JS.

Inductive StageKey : Type :=
  returned_back | dropped_retainers | signed_retainers.

Global Instance StageKey_eq_dec : EqDecision StageKey.
Proof. solve_decision. Defined.

Global Instance StageKey_countable : Countable StageKey.
Proof.
  refine (inj_countable'
            (λ k, match k with
                  | returned_back => 0%nat
                  | dropped_retainers => 1%nat
                  | signed_retainers => 2%nat
                  end)
            (λ n, match n with
                  | O => returned_back
                  | S O => dropped_retainers
                  | _ => signed_retainers
                  end) _).
  by intros [].
Defined.

Definition STAGES : list (StageKey * string) :=
  [ (returned_back, "Returned Back");
    (dropped_retainers, "Dropped Retainers");
    (signed_retainers, "Signed Retainers") ].

Module FulfillmentOrder.
Record t : Type := mk {
  id : string;
  date : string;
  clientName : string;
  phone : string;
  state : string;
  caseValue : Z;
  stage : StageKey;
  reason : option string;
  signedDate : option string
}.
End FulfillmentOrder.

(** The stage filter of the board: ['all' | StageKey]. *)
Inductive StageFilter : Type :=
| allStages : StageFilter
| onlyStage (k : StageKey) : StageFilter.

(** The refs of the board. *)
Record t : Type := mk {
  loading : bool;
  query : string;
  selectedStage : StageFilter;
  mockOrders : list FulfillmentOrder.t
}.

(** [STAGES.find(s => s.key === k)?.label ?? ''] *)
Definition stageLabel (k : StageKey) : string :=
  match List.find (λ s, bool_decide (s.1 = k)) STAGES with
  | Some s => s.2
  | None => ""
  end.

(** The callback of the filter of [filteredOrders], [q] being the query
    trimmed and in lower case. *)
Definition keeps (selected : StageFilter) (q : string)
    (o : FulfillmentOrder.t) : bool :=
  if match selected with
     | allStages => false
     | onlyStage k => negb (bool_decide (FulfillmentOrder.stage o = k))
     end
  then false
  else if negb (truthy q) then true
  else
    let stageLabel := stageLabel (FulfillmentOrder.stage o) in
    let haystack :=
      toLowerCase
        (join " " [ FulfillmentOrder.id o; FulfillmentOrder.clientName o;
                    FulfillmentOrder.phone o; FulfillmentOrder.state o;
                    stageLabel ]) in
    includes haystack q.

Definition filteredOrders (pg : t) : list FulfillmentOrder.t :=
  let q := toLowerCase (trim (query pg)) in
  List.filter (keeps (selectedStage pg) q) (mockOrders pg).

(** [ordersByStage]: a [Map] with an empty array for every stage, then
    every filtered order pushed on the array of its stage. *)
Definition ordersByStage (pg : t) : gmap StageKey (list FulfillmentOrder.t) :=
  let grouped := foldl (λ g s, <[s.1 := []]> g) ∅ STAGES in
  foldl (λ g o,
           match g !! FulfillmentOrder.stage o with
           | Some arr => <[FulfillmentOrder.stage o := (arr ++ [o])%list]> g
           | None => g
           end)
        grouped (filteredOrders pg).

Definition totalOrders (pg : t) : nat := length (mockOrders pg).

Definition signedCount (pg : t) : nat :=
  length (List.filter
            (λ o, bool_decide (FulfillmentOrder.stage o = signed_retainers))
            (mockOrders pg)).

Definition droppedCount (pg : t) : nat :=
  length (List.filter
            (λ o, bool_decide (FulfillmentOrder.stage o = dropped_retainers))
            (mockOrders pg)).

Definition returnedCount (pg : t) : nat :=
  length (List.filter
            (λ o, bool_decide (FulfillmentOrder.stage o = returned_back))
            (mockOrders pg)).

Definition getStageColor (stage : StageKey) : string :=
  match stage with
  | signed_retainers => "success"
  | dropped_retainers => "error"
  | returned_back => "warning"
  end.

End Fulfillment.

(** ** The retainers page *)

Module Retainers.

Import JS.

Module DailyDealFlow.
Record t : Type := mk {
  id : string;
  submission_id : string;
  insured_name : option string;
  client_phone_number : option string;
  lead_vendor : option string;
  date : option string;
  status : option string;
  agent : option string;
  carrier : option string;
  created_at : option string
}.
End DailyDealFlow.

(** [x ?? ''] *)
Definition orEmpty (x : option string) : string := default "" x.

(** Truthiness of a nullable string. *)
Definition truthyOpt (x : option string) : bool :=
  match x with
  | Some s => truthy s
  | None => false
  end.

(** The callback of the filter of [filteredRows], [q] being the query
    trimmed and in lower case. *)
Definition matches (q : string) (r : DailyDealFlow.t) : bool :=
  let haystack :=
    toLowerCase
      (join " " [ DailyDealFlow.submission_id r;
                  orEmpty (DailyDealFlow.insured_name r);
                  orEmpty (DailyDealFlow.client_phone_number r);
                  orEmpty (DailyDealFlow.lead_vendor r);
                  orEmpty (DailyDealFlow.status r);
                  orEmpty (DailyDealFlow.agent r);
                  orEmpty (DailyDealFlow.carrier r) ]) in
  includes haystack q.

Definition filteredRows (query : string) (rows : list DailyDealFlow.t)
  : list DailyDealFlow.t :=
  let q := toLowerCase (trim query) in
  if negb (truthy q) then rows else List.filter (matches q) rows.


Definition statusColor (value : option string) : string :=
  let normalized := toLowerCase (orEmpty value) in
  if includes normalized "pending" then "warning"
  else if includes normalized "approved" || includes normalized "paid"
          || includes normalized "complete" then "success"
  else if includes normalized "rejected" || includes normalized "failed"
          || includes normalized "cancel" then "error"
  else "neutral".

(** A value that is thrown: an [Error] with its message, or anything
    else. *)
Inductive Thrown : Type :=
| ErrorObject (message : string)
| OtherThrown.

(** [auth.state.value] once [auth.init()] is done: [user?.id] and
    [profile?.role]. *)
Module AuthState.
Record t : Type := mk {
  userId : option string;
  role : option string
}.
End AuthState.

(** The backend, as the page queries it: the [center_id] of the row of
    [app_users] for a user id and the [lead_vendor] of the row of
    [centers] for a center ([None] when [maybeSingle] gives no row, the
    inner [None] for a null column), and the [data] and [error] that the
    query on [daily_deal_flow] gives for a list of equality filters. *)
Module Supabase.
Record t : Type := mk {
  appUsers : string → option (option string);
  centers : string → option (option string);
  dailyDealFlow :
    list (string * string) → option (list DailyDealFlow.t) * option Thrown
}.
End Supabase.

(** The refs of the page. *)
Record t : Type := mk {
  loading : bool;
  error : option string;
  query : string;
  rows : list DailyDealFlow.t
}.

(** The equality filters that [load] puts on the query, by role. *)
Definition filtersFor (auth : AuthState.t) (db : Supabase.t)
  : list (string * string) :=
  let userId := AuthState.userId auth in
  let userRole := AuthState.role auth in
  if bool_decide (userRole = Some "lawyer") && truthyOpt userId then
    [("assigned_attorney_id", orEmpty userId)]
  else if negb (truthyOpt userRole) then
    match Supabase.appUsers db (if truthyOpt userId then orEmpty userId else "")
    with
    | Some center_id =>
        if truthyOpt center_id then
          match Supabase.centers db (orEmpty center_id) with
          | Some lead_vendor =>
              if truthyOpt lead_vendor
              then [("lead_vendor", orEmpty lead_vendor)]
              else []
          | None => []
          end
        else []
    | None => []
    end
  else [].

(** [e instanceof Error ? e.message : 'Failed to load retainers'] *)
Definition messageOf (e : Thrown) : string :=
  match e with
  | ErrorObject message => message
  | OtherThrown => "Failed to load retainers"
  end.

(** [load]. [initThrows] is what [auth.init()] rejects with, if it does;
    [auth] is the state it leaves otherwise. The queries resolve: the
    backend client reports a failure in the [error] of its answer. The
    refs are given as [load] leaves them ([loading] is true and [error]
    null while it runs). *)
Definition load (initThrows : option Thrown) (auth : AuthState.t)
    (db : Supabase.t) (pg : t) : t :=
  match initThrows with
  | Some e => mk false (Some (messageOf e)) (query pg) (rows pg)
  | None =>
      match Supabase.dailyDealFlow db (filtersFor auth db) with
      | (_, Some supaError) =>
          mk false (Some (messageOf supaError)) (query pg) (rows pg)
      | (data, None) => mk false None (query pg) (default [] data)
      end
  end.

(** [openRow]: the path pushed on the router. *)
Definition openRow (row : DailyDealFlow.t) : string :=
  "/retainers/" +:+ DailyDealFlow.id row.

End Retainers.

(** ** The vocabulary of the specification *)

Module Spec.

Import JS.

(** A finite number greater than zero. *)
Definition isPositive (x : number) : Prop :=
  ∃ q, x = Finite q ∧ (0 < q)%Q.

(** A finite number that is not negative. *)
Definition isNonNegative (x : number) : Prop :=
  ∃ q, x = Finite q ∧ (0 <= q)%Q.

(** A number that is not finite, or is at most zero. *)
Definition notPositive (x : number) : Prop :=
  (∀ q, x ≠ Finite q) ∨ (∃ q, x = Finite q ∧ (q <= 0)%Q).

(** A number that is not finite, or is below zero. *)
Definition negativeOrNotFinite (x : number) : Prop :=
  (∀ q, x ≠ Finite q) ∨ (∃ q, x = Finite q ∧ (q < 0)%Q).

(** A number equal to the integer [z]. *)
Definition equals (x : number) (z : Z) : Prop :=
  ∃ q, x = Finite q ∧ (q == inject_Z z)%Q.

(** The input that the validation of [createOrder] accepts: a region code
    that is not empty once trimmed, a finite volume above zero, a finite
    sales forecast that is not negative, a finite window above zero. *)
Definition validInput (f : OrderForm.t) : Prop :=
  trim (OrderForm.stateCode f) ≠ ""
  ∧ isPositive (OrderForm.volume f)
  ∧ isNonNegative (OrderForm.salesForecast f)
  ∧ isPositive (OrderForm.days f).

(** The input that the validation rejects. *)
Definition invalidInput (f : OrderForm.t) : Prop :=
  trim (OrderForm.stateCode f) = ""
  ∨ notPositive (OrderForm.volume f)
  ∨ negativeOrNotFinite (OrderForm.salesForecast f)
  ∨ notPositive (OrderForm.days f).

(** The region code that an order carries: the code of the form, trimmed
    and in upper case. *)
Definition submittedCode (st : Page.t) : string :=
  toUpperCase (trim (OrderForm.stateCode (Page.orderForm st))).

(** The region that an order is counted on: the first region of the list
    whose code is the submitted one. *)
Definition selected (st : Page.t) (i : nat) (s : StateIntake.t) : Prop :=
  Page.mockStates st !! i = Some s
  ∧ StateIntake.code s = submittedCode st
  ∧ ∀ k t, (k < i)%nat → Page.mockStates st !! k = Some t →
           StateIntake.code t ≠ submittedCode st.

(** The codes of the regions are unique (the data model of the page). *)
Definition uniqueCodes (st : Page.t) : Prop :=
  NoDup (StateIntake.code <$> Page.mockStates st).

(** The status that the volumes of a region call for. *)
Definition statusOfVolumes (s : StateIntake.t) : StateStatus :=
  if StateIntake.targetVolume s <=? StateIntake.currentVolume s
  then active else low.

(** A shape is visible under a filter: the filter is "all", or a region
    of the shape's code has the status of the filter. *)
Definition visible (st : Page.t) (code : string) : Prop :=
  match Page.selectedStatus st with
  | all => True
  | only f =>
      ∃ s, s ∈ Page.mockStates st ∧ StateIntake.code s = code
           ∧ StateIntake.status s = f
  end.

(** The code of a shape maps to the region [s]. *)
Definition regionOf (st : Page.t) (code : string) (s : StateIntake.t) : Prop :=
  s ∈ Page.mockStates st ∧ StateIntake.code s = code.

(** The code of a shape maps to no region. *)
Definition unknown (st : Page.t) (code : string) : Prop :=
  ∀ s, s ∈ Page.mockStates st → StateIntake.code s ≠ code.

Definition digitOf (c : ascii) : option Z :=
  let n := nat_of_ascii c in
  if ((48 <=? n) && (n <=? 57))%nat then Some (Z.of_nat (n - 48)) else None.

(** The digits of a CSS number, with at most one point: the digits read
    as an integer, and the power of ten of the fractional digits. *)
Fixpoint cssDigits (s : string) (acc : Z) (scale : positive) (frac : bool)
  : option (Z * positive) :=
  match s with
  | EmptyString => Some (acc, scale)
  | String c s' =>
      if Ascii.eqb c "."%char then
        if frac then None else cssDigits s' acc scale true
      else
        match digitOf c with
        | Some d =>
            cssDigits s' (10 * acc + d)
                      (if frac then (10 * scale)%positive else scale) frac
        | None => None
        end
  end.

(** The number that a CSS value such as ["0.15"] denotes. *)
Definition cssNumber (s : string) : option Q :=
  match s with
  | EmptyString => None
  | _ => (λ p, Qmake p.1 p.2) <$> cssDigits s 0 1 false
  end.

(** The region that [createOrder] writes in place of [s]. *)
Definition counted (st : Page.t) (s : StateIntake.t) : StateIntake.t :=
  let v := Math_round (OrderForm.volume (Page.orderForm st)) in
  StateIntake.mk (StateIntake.code s) (StateIntake.name s)
    (StateIntake.currentVolume s + v) (StateIntake.targetVolume s)
    (if strict_eqb (OrderForm.days (Page.orderForm st)) (of_Z 30)
     then StateIntake.salesNext30Days s
          + Math_round (OrderForm.salesForecast (Page.orderForm st))
     else StateIntake.salesNext30Days s)
    (if StateIntake.currentVolume s + v >=? StateIntake.targetVolume s
     then active else low)
    (StateIntake.fulfilled s) (StateIntake.pending s + v).

(** The measured width and height of the tooltip: those of its element,
    and 0 while the element is not rendered. *)
Definition tooltipWidth (st : Page.t) : Q :=
  match Page.tooltipEl st with
  | Some el => inject_Z (TooltipEl.offsetWidth el)
  | None => 0
  end.

Definition tooltipHeight (st : Page.t) : Q :=
  match Page.tooltipEl st with
  | Some el => inject_Z (TooltipEl.offsetHeight el)
  | None => 0
  end.

(** The remote fetch fails: a network error, a status that is not a
    success, or a body that cannot be read. *)
Definition fetchFailed (r : IntakeMap.FetchResult) : Prop :=
  r = IntakeMap.Rejected
  ∨ (∃ body, r = IntakeMap.Response false body)
  ∨ r = IntakeMap.Response true None.

(** The value that the backend holds for a field of the record of an
    owner, if any. *)
Definition backendField (b : gmap string (gmap string AttorneyProfile.Value))
    (owner field : string) : option AttorneyProfile.Value :=
  b !! owner ≫= (λ record, record !! field).

(** The draft machine once the tab has loaded the profile: [loadProfile]
    runs when a user is signed in. *)
Definition loaded
    (loadProfile : string → AttorneyProfile.t → AttorneyProfile.t)
    (userId : string) (m : AttorneyProfile.t) : AttorneyProfile.t :=
  if truthy userId then loadProfile userId m else m.

(** The label group that a labeling pass appends. *)
Definition isLabelGroup (n : Node) : Prop :=
  IntakeMap.nodeId n = Some "state-labels".

(** The page once [createOrder] has recorded an accepted order and counted
    it on the region it selects, the form closed and reset, before the
    coloring pass. *)
Definition recorded (rnd now : string) (st : Page.t) : Page.t :=
  let order :=
    IntakeOrder.mk ("O-" +:+ toUpperCase (substring 2 8 rnd)) (submittedCode st)
      (Math_round (OrderForm.volume (Page.orderForm st)))
      (Math_round (OrderForm.salesForecast (Page.orderForm st)))
      (Math_round (OrderForm.days (Page.orderForm st))) now in
  Page.mk (order :: Page.orders st)
    (match list_find (λ s, StateIntake.code s = submittedCode st)
                     (Page.mockStates st) with
     | Some (idx, s) => <[idx := counted st s]> (Page.mockStates st)
     | None => Page.mockStates st
     end)
    false (OrderForm.mk "" (of_Z 1) (of_Z 5) (of_Z 30))
    (Page.selectedStatus st) (Page.mapRoot st) (Page.tooltip st)
    (Page.tooltipEl st).

(** An order of the board whose searched texts are ASCII. *)
Definition asciiOrder (o : Fulfillment.FulfillmentOrder.t) : Prop :=
  isAscii (Fulfillment.FulfillmentOrder.id o) = true
  ∧ isAscii (Fulfillment.FulfillmentOrder.clientName o) = true
  ∧ isAscii (Fulfillment.FulfillmentOrder.phone o) = true
  ∧ isAscii (Fulfillment.FulfillmentOrder.state o) = true.

(** A row of the retainers page whose searched texts are ASCII. *)
Definition asciiRow (r : Retainers.DailyDealFlow.t) : Prop :=
  Forall (λ text, isAscii text = true)
    [ Retainers.DailyDealFlow.submission_id r;
      Retainers.orEmpty (Retainers.DailyDealFlow.insured_name r);
      Retainers.orEmpty (Retainers.DailyDealFlow.client_phone_number r);
      Retainers.orEmpty (Retainers.DailyDealFlow.lead_vendor r);
      Retainers.orEmpty (Retainers.DailyDealFlow.status r);
      Retainers.orEmpty (Retainers.DailyDealFlow.agent r);
      Retainers.orEmpty (Retainers.DailyDealFlow.carrier r) ].

(** The user id that [load] looks the center up with: [userId || '']. *)
Definition centerKey (auth : Retainers.AuthState.t) : string :=
  if Retainers.truthyOpt (Retainers.AuthState.userId auth)
  then Retainers.orEmpty (Retainers.AuthState.userId auth) else "".

(** The counters that [createOrder] adds to are not negative (the data
    model of the page). *)
Definition countersNotNegative (st : Page.t) : Prop :=
  Forall (λ s, 0 <= StateIntake.currentVolume s ∧ 0 <= StateIntake.pending s)
         (Page.mockStates st).

(** A sum that binary64 computes exactly: a sum of integers that are not
    negative is the sum in [Z] as long as it is at most 2^53. *)
Definition exactSum (z : Z) : Prop := z <= 2 ^ 53.

(** What a coloring pass may not change of a path: its attributes and its
    bounding box. *)
Definition shapeFrame (p : Shape.t) : string * option string * option BBox.t :=
  (Shape.dataId p, Shape.idAttr p, Shape.bbox p).

End Spec.

(** ** Sample pages *)

Module Samples.

Import JS.

(** The page as it is mounted, the creation form open with [f] typed in,
    before a document is in the map container. *)
Definition pageWith (f : OrderForm.t) : Page.t :=
  Page.mk [] IntakeMap.initialStates true f all None
          (Tooltip.mk false 0 0 None) None.

(** Five orders for California over the 30-day window, two sales
    expected; the code is typed in lower case with blanks around. *)
Definition caOrder : OrderForm.t :=
  OrderForm.mk " ca " (of_Z 5) (of_Z 2) (of_Z 30).

(** A window of 45 days, which no option of the select offers. *)
Definition oddWindow : OrderForm.t :=
  OrderForm.mk "CA" (of_Z 1) (of_Z 0) (of_Z 45).

(** A negative forecast for Florida. *)
Definition negativeForecast : OrderForm.t :=
  OrderForm.mk "FL" (of_Z 3) (Finite (-1 # 1)) (of_Z 7).

(** Nine orders for Florida over the 7-day window. *)
Definition flOrder : OrderForm.t :=
  OrderForm.mk "FL" (of_Z 9) (of_Z 4) (of_Z 7).

(** A path of the map document before any pass: no inline style. *)
Definition plainPath (code : string) (bbox : option BBox.t) : Shape.t :=
  Shape.mk code None bbox
           (Style.mk (Decl.mk "" false) (Decl.mk "" false) (Decl.mk "" false)
                     "" "").

(** A small map document: Florida and California, which are regions of
    the page, the District of Columbia, which is not, and Hawaii, whose
    bounding box cannot be computed. *)
Definition smallMap : list Node :=
  [ OtherEl (Some "frame");
    PathEl (plainPath "FL" (Some (BBox.mk 700 400 60 90)));
    PathEl (plainPath "CA" (Some (BBox.mk 20 150 90 210)));
    PathEl (plainPath "DC" (Some (BBox.mk 760 220 6 6)));
    PathEl (plainPath "HI" None) ].

(** The page with [smallMap] in the map container, under a filter. *)
Definition mapPage (f : StatusFilter) : Page.t :=
  Page.mk [] IntakeMap.initialStates false
          (OrderForm.mk "" (of_Z 1) (of_Z 5) (of_Z 30)) f
          (Some (MapRoot.mk (ClientRect.mk 10 80 960 520) "<svg>"
                            (Some smallMap) true))
          (Tooltip.mk false 0 0 None) None.

(** The page with an empty map container of the given client rectangle,
    the tooltip open and measured. *)
Definition tooltipPage (rect : ClientRect.t) (el : TooltipEl.t) : Page.t :=
  Page.mk [] IntakeMap.initialStates false
          (OrderForm.mk "" (of_Z 1) (of_Z 5) (of_Z 30)) all
          (Some (MapRoot.mk rect "" None false))
          (Tooltip.mk true 0 0 (Some 0%nat)) (Some el).

(** The page at mount: an empty map container, nothing fetched yet. *)
Definition mountedPage : Page.t :=
  Page.mk [] IntakeMap.initialStates false
          (OrderForm.mk "" (of_Z 1) (of_Z 5) (of_Z 30)) all
          (Some (MapRoot.mk (ClientRect.mk 10 80 960 520) "" None false))
          (Tooltip.mk false 0 0 None) None.

(** A parser for the sample documents: any text gives [smallMap]. *)
Definition parseSmall (text : string) : option (list Node) :=
  if JS.truthy text then Some smallMap else None.

(** A profile with fields of both tabs. *)
Definition austinProfile : gmap string AttorneyProfile.Value :=
  {[ "primaryCity" := AttorneyProfile.VString "Austin";
     "availabilityStatus" := AttorneyProfile.VString "accepting" ]}.

(** A draft in which the city and the availability are both edited. *)
Definition editedDraft : gmap string AttorneyProfile.Value :=
  {[ "primaryCity" := AttorneyProfile.VString "Dallas";
     "availabilityStatus" := AttorneyProfile.VString "on_leave" ]}.

(** A backend with the record of one owner. *)
Definition oneOwner : gmap string (gmap string AttorneyProfile.Value) :=
  {[ "user-1" := austinProfile ]}.

(** A window of 30 days and a quarter: not the 30-day option, though it
    rounds to 30. *)
Definition nearThirty : OrderForm.t :=
  OrderForm.mk "FL" (of_Z 2) (of_Z 6) (Finite (121 # 4)).

(** An order for Puerto Rico, which is no region of the page. *)
Definition prOrder : OrderForm.t :=
  OrderForm.mk "pr" (of_Z 3) (of_Z 1) (of_Z 30).

(** A code of blanks that are not ASCII: a no-break space (U+00A0), an
    ideographic space (U+3000) and a space. *)
Definition blankCode : string :=
  string_of_list_ascii
    (List.map ascii_of_nat [194; 160; 227; 128; 128; 32]%nat).

Definition blankOrder : OrderForm.t :=
  OrderForm.mk blankCode (of_Z 4) (of_Z 1) (of_Z 30).

(** [mapPage] with an order form typed in. *)
Definition mapPageWith (f : OrderForm.t) : Page.t :=
  Page.mk [] IntakeMap.initialStates true f all
          (Some (MapRoot.mk (ClientRect.mk 10 80 960 520) "<svg>"
                            (Some smallMap) true))
          (Tooltip.mk false 0 0 None) None.

(** A draft machine that is being edited, with a change not saved. *)
Definition dirtyMachine : AttorneyProfile.t :=
  AttorneyProfile.mk austinProfile editedDraft true.

(** Two leads of the retainers page. *)
Definition leadOfAda : Retainers.DailyDealFlow.t :=
  Retainers.DailyDealFlow.mk "r-1" "SUB-1" (Some "Ada Park") None
    (Some "North Leads") (Some "2024-01-15T09:30:00Z")
    (Some "Pending Approval") (Some "J. Doe") None (Some "2024-01-15").

Definition leadOfBen : Retainers.DailyDealFlow.t :=
  Retainers.DailyDealFlow.mk "r-2" "SUB-2" (Some "Ben Ode") None
    (Some "South Leads") (Some "2024-01-16") (Some "Rejected") None None None.

(** A backend in which the lead of Ada is assigned to the attorney
    "user-1": the query filtered on that attorney gives that lead, every
    other query gives both leads. *)
Definition retainersDb : Retainers.Supabase.t :=
  Retainers.Supabase.mk (λ _, None) (λ _, None)
    (λ filters,
       if bool_decide (filters = [("assigned_attorney_id", "user-1")])
       then (Some [leadOfAda], None)
       else (Some [leadOfAda; leadOfBen], None)).

(** A backend with two users without a role: "user-2" belongs to the
    center "center-9", whose lead vendor is North Leads; "user-3" belongs
    to the center "center-4", which names no vendor. *)
Definition centerDb : Retainers.Supabase.t :=
  Retainers.Supabase.mk
    (λ userId,
       if String.eqb userId "user-2" then Some (Some "center-9")
       else if String.eqb userId "user-3" then Some (Some "center-4")
       else None)
    (λ id,
       if String.eqb id "center-9" then Some (Some "North Leads")
       else if String.eqb id "center-4" then Some (Some "")
       else None)
    (λ _, (Some [leadOfAda; leadOfBen], None)).

(** A board of three orders, searched for "ada" among the signed
    retainers. *)
Definition fulfillmentBoard : Fulfillment.t :=
  Fulfillment.mk false "ada" (Fulfillment.onlyStage Fulfillment.signed_retainers)
    [ Fulfillment.FulfillmentOrder.mk "F-1" "2024-01-02" "Ada Park"
        "555-0101" "TX" 12000 Fulfillment.signed_retainers None
        (Some "2024-01-05");
      Fulfillment.FulfillmentOrder.mk "F-2" "2024-01-03" "ADA LOW"
        "555-0102" "CA" 8000 Fulfillment.returned_back (Some "No answer")
        None;
      Fulfillment.FulfillmentOrder.mk "F-3" "2024-01-04" "Ben Ode"
        "555-0103" "FL" 9000 Fulfillment.signed_retainers None
        (Some "2024-01-09") ].

End Samples.

(** * Properties *)

Import JS IntakeMap Spec.

Local Open Scope list_scope.

(** ** Numbers and strings *)

Lemma toUpperCase_truthy (s : string) : truthy (toUpperCase s) = truthy s.
Proof. destruct s; reflexivity. Qed.

Lemma truthy_true_iff (s : string) : truthy s = true ↔ s ≠ "".
Proof. destruct s; simpl; split; intros; congruence. Qed.

Lemma Qle_bool_false (a b : Q) : (b < a)%Q → Qle_bool a b = false.
Proof.
  intros Hlt. destruct (Qle_bool a b) eqn:E; [|reflexivity].
  apply Qle_bool_iff in E. exfalso. apply (Qlt_not_le _ _ Hlt E).
Qed.

Lemma isPositive_guard (x : number) :
  isPositive x → Number_isFinite x = true ∧ leb x (of_Z 0) = false.
Proof.
  intros (q & -> & Hq). split; [reflexivity|].
  simpl. apply Qle_bool_false. exact Hq.
Qed.

Lemma isNonNegative_guard (x : number) :
  isNonNegative x → Number_isFinite x = true ∧ ltb x (of_Z 0) = false.
Proof.
  intros (q & -> & Hq). split; [reflexivity|].
  simpl. destruct (Qle_bool q (inject_Z 0)) eqn:E; [|reflexivity].
  apply Qle_bool_iff in E. simpl.
  assert (Heq : (q == inject_Z 0)%Q) by (apply Qle_antisym; assumption).
  apply Qeq_bool_iff in Heq. rewrite Heq. reflexivity.
Qed.

Lemma notPositive_guard (x : number) :
  notPositive x → negb (Number_isFinite x) || leb x (of_Z 0) = true.
Proof.
  intros [Hnf | (q & -> & Hq)].
  - destruct x as [| |q]; try reflexivity. exfalso. exact (Hnf q eq_refl).
  - simpl. apply Qle_bool_iff. exact Hq.
Qed.

Lemma negativeOrNotFinite_guard (x : number) :
  negativeOrNotFinite x → negb (Number_isFinite x) || ltb x (of_Z 0) = true.
Proof.
  intros [Hnf | (q & -> & Hq)].
  - destruct x as [| |q]; try reflexivity. exfalso. exact (Hnf q eq_refl).
  - simpl. apply andb_true_iff. split.
    + apply Qle_bool_iff. apply Qlt_le_weak. exact Hq.
    + apply negb_true_iff. destruct (Qeq_bool q (inject_Z 0)) eqn:E; [|reflexivity].
      apply Qeq_bool_iff in E. exfalso. rewrite E in Hq.
      exact (Qlt_irrefl _ Hq).
Qed.

Lemma Math_round_equals (x : number) (z : Z) : equals x z → Math_round x = z.
Proof.
  intros (q & -> & Hq). unfold Math_round. rewrite Hq.
  assert (H : (inject_Z z + (1 # 2) < inject_Z (z + 1))%Q).
  { rewrite inject_Z_plus. apply Qplus_lt_r. reflexivity. }
  assert (L : (inject_Z z <= inject_Z z + (1 # 2))%Q).
  { rewrite <- (Qplus_0_r (inject_Z z)) at 1. apply Qplus_le_r. discriminate. }
  apply Qfloor_resp_le in L. rewrite Qfloor_Z in L.
  pose proof (Qfloor_le (inject_Z z + (1 # 2))) as U.
  assert (U' : (inject_Z (Qfloor (inject_Z z + (1 # 2))) < inject_Z (z + 1))%Q)
    by (eapply Qle_lt_trans; eassumption).
  rewrite <- Zlt_Qlt in U'. lia.
Qed.

Lemma Math_round_nonneg (x : number) : isNonNegative x → 0 <= Math_round x.
Proof.
  intros (q & -> & Hq). unfold Math_round.
  assert (L : (inject_Z 0 <= q + (1 # 2))%Q).
  { apply Qle_trans with q; [exact Hq|].
    rewrite <- (Qplus_0_r q) at 1. apply Qplus_le_r. discriminate. }
  apply Qfloor_resp_le in L. rewrite Qfloor_Z in L. exact L.
Qed.

Lemma Math_round_pos (q : Q) : (1 # 2 <= q)%Q → 0 < Math_round (Finite q).
Proof.
  intros Hq. unfold Math_round.
  assert (L : (inject_Z 1 <= q + (1 # 2))%Q).
  { apply Qle_trans with ((1 # 2) + (1 # 2))%Q; [discriminate|].
    apply Qplus_le_l. exact Hq. }
  apply Qfloor_resp_le in L. rewrite Qfloor_Z in L. lia.
Qed.

Lemma strict_eqb_equals (x : number) (z : Z) :
  equals x z → strict_eqb x (of_Z z) = true.
Proof. intros (q & -> & Hq). simpl. apply Qeq_bool_iff. exact Hq. Qed.

(** ** The coloring and labeling passes leave the data of the page alone *)

Lemma applyStateLabels_data (st : Page.t) :
  Page.orders (applyStateLabels st) = Page.orders st
  ∧ Page.mockStates (applyStateLabels st) = Page.mockStates st
  ∧ Page.createOrderOpen (applyStateLabels st) = Page.createOrderOpen st
  ∧ Page.orderForm (applyStateLabels st) = Page.orderForm st
  ∧ Page.selectedStatus (applyStateLabels st) = Page.selectedStatus st.
Proof.
  unfold applyStateLabels.
  destruct (Page.mapRoot st) as [root|]; [|split_and!; reflexivity].
  destruct (MapRoot.svg root); split_and!; reflexivity.
Qed.

Lemma applyMapColors_data (st : Page.t) :
  Page.orders (applyMapColors st) = Page.orders st
  ∧ Page.mockStates (applyMapColors st) = Page.mockStates st
  ∧ Page.createOrderOpen (applyMapColors st) = Page.createOrderOpen st
  ∧ Page.orderForm (applyMapColors st) = Page.orderForm st
  ∧ Page.selectedStatus (applyMapColors st) = Page.selectedStatus st.
Proof.
  unfold applyMapColors.
  destruct (Page.mapRoot st) as [root|]; [|split_and!; reflexivity].
  destruct (MapRoot.svg root); [|split_and!; reflexivity].
  match goal with |- context [applyStateLabels ?s] =>
    destruct (applyStateLabels_data s) as (-> & -> & -> & -> & ->) end.
  split_and!; reflexivity.
Qed.

(** ** [createOrder] *)

Lemma validInput_guards (f : OrderForm.t) :
  validInput f →
  truthy (toUpperCase (trim (OrderForm.stateCode f))) = true
  ∧ Number_isFinite (OrderForm.volume f) = true
  ∧ leb (OrderForm.volume f) (of_Z 0) = false
  ∧ Number_isFinite (OrderForm.salesForecast f) = true
  ∧ ltb (OrderForm.salesForecast f) (of_Z 0) = false
  ∧ Number_isFinite (OrderForm.days f) = true
  ∧ leb (OrderForm.days f) (of_Z 0) = false.
Proof.
  intros (Hc & Hv & Hs & Hd).
  apply isPositive_guard in Hv as [? ?].
  apply isNonNegative_guard in Hs as [? ?].
  apply isPositive_guard in Hd as [? ?].
  rewrite toUpperCase_truthy.
  split_and!; try done. by apply truthy_true_iff.
Qed.

Lemma createOrder_orders (rnd now : string) (st : Page.t) :
  validInput (Page.orderForm st) →
  Page.orders (createOrder rnd now st) =
    IntakeOrder.mk ("O-" +:+ toUpperCase (substring 2 8 rnd)) (submittedCode st)
      (Math_round (OrderForm.volume (Page.orderForm st)))
      (Math_round (OrderForm.salesForecast (Page.orderForm st)))
      (Math_round (OrderForm.days (Page.orderForm st))) now
    :: Page.orders st.
Proof.
  intros Hv. apply validInput_guards in Hv as (H1 & H2 & H3 & H4 & H5 & H6 & H7).
  unfold createOrder. rewrite H1, H2, H3, H4, H5, H6, H7. cbn [negb orb].
  match goal with |- context [applyMapColors ?s] =>
    destruct (applyMapColors_data s) as (-> & _) end.
  cbn [Page.mockStates Page.with_orders].
  destruct (list_find _ _) as [[idx s]|]; reflexivity.
Qed.

Lemma createOrder_mockStates (rnd now : string) (st : Page.t) :
  validInput (Page.orderForm st) →
  Page.mockStates (createOrder rnd now st) =
    match list_find (λ s, StateIntake.code s = submittedCode st)
                    (Page.mockStates st) with
    | Some (idx, s) => <[idx := counted st s]> (Page.mockStates st)
    | None => Page.mockStates st
    end.
Proof.
  intros Hv. apply validInput_guards in Hv as (H1 & H2 & H3 & H4 & H5 & H6 & H7).
  unfold createOrder. rewrite H1, H2, H3, H4, H5, H6, H7. cbn [negb orb].
  match goal with |- context [applyMapColors ?s] =>
    destruct (applyMapColors_data s) as (_ & -> & _) end.
  cbn [Page.mockStates Page.with_orders]. unfold submittedCode.
  destruct (list_find _ _) as [[idx s]|]; reflexivity.
Qed.

Lemma createOrder_form (rnd now : string) (st : Page.t) :
  validInput (Page.orderForm st) →
  Page.createOrderOpen (createOrder rnd now st) = false
  ∧ Page.orderForm (createOrder rnd now st)
    = OrderForm.mk "" (of_Z 1) (of_Z 5) (of_Z 30).
Proof.
  intros Hv. apply validInput_guards in Hv as (H1 & H2 & H3 & H4 & H5 & H6 & H7).
  unfold createOrder. rewrite H1, H2, H3, H4, H5, H6, H7. cbn [negb orb].
  match goal with |- context [applyMapColors ?s] =>
    destruct (applyMapColors_data s) as (_ & _ & -> & -> & _) end.
  done.
Qed.

Lemma selected_find (st : Page.t) (i : nat) (s : StateIntake.t) :
  selected st i s ↔
  list_find (λ s, StateIntake.code s = submittedCode st) (Page.mockStates st)
  = Some (i, s).
Proof.
  unfold selected. rewrite list_find_Some. split.
  - intros (Hl & Hc & Hfirst). split_and!; [done..|].
    intros j y Hj Hlt. by apply (Hfirst j y).
  - intros (Hl & Hc & Hfirst). split_and!; [done..|].
    intros k t Hlt Hk. by apply (Hfirst k t).
Qed.

Lemma uniqueCodes_selected (st : Page.t) (i : nat) (s : StateIntake.t) :
  uniqueCodes st → Page.mockStates st !! i = Some s →
  StateIntake.code s = submittedCode st → selected st i s.
Proof.
  intros Hnd Hi Hc. split_and!; [done..|].
  intros k t Hlt Hk Hck.
  assert (k = i); [|lia].
  apply (NoDup_lookup _ k i (submittedCode st) Hnd).
  - by rewrite list_lookup_fmap, Hk; simpl; rewrite Hck.
  - by rewrite list_lookup_fmap, Hi; simpl; rewrite Hc.
Qed.

(** The codes of the regions are those of the page at start, whatever
    orders are created: [createOrder] rewrites the counters and the status
    of a region, never its code. *)
Lemma createOrder_codes (rnd now : string) (st : Page.t) :
  StateIntake.code <$> Page.mockStates (createOrder rnd now st)
  = StateIntake.code <$> Page.mockStates st.
Proof.
  unfold createOrder.
  destruct (negb (truthy _) || _ || _); [reflexivity|].
  destruct (negb (Number_isFinite (OrderForm.salesForecast _)) || _);
    [reflexivity|].
  destruct (negb (Number_isFinite (OrderForm.days _)) || _); [reflexivity|].
  match goal with |- context [applyMapColors ?s] =>
    destruct (applyMapColors_data s) as (_ & -> & _) end.
  cbn [Page.mockStates Page.with_orders].
  destruct (list_find _ _) as [[idx s]|] eqn:E; [|reflexivity].
  apply list_find_Some in E as (Hl & _).
  cbn [Page.mockStates Page.with_mockStates Page.with_createOrderOpen
       resetOrderForm Page.with_orderForm].
  rewrite list_fmap_insert. cbn [StateIntake.code].
  apply list_insert_id. by rewrite list_lookup_fmap, Hl.
Qed.

Lemma initialStates_uniqueCodes (st : Page.t) :
  Page.mockStates st = initialStates → uniqueCodes st.
Proof.
  intros H. unfold uniqueCodes. rewrite H.
  apply (bool_decide_unpack _). vm_compute. exact I.
Qed.

Lemma createOrder_uniqueCodes (rnd now : string) (st : Page.t) :
  uniqueCodes st → uniqueCodes (createOrder rnd now st).
Proof. unfold uniqueCodes. by rewrite createOrder_codes. Qed.

(** C1. On a page whose region codes are unique, take a region with
    currentVolume 45, targetVolume 50, pending 5 and salesNext30Days 5, and
    an order form whose code, trimmed and in upper case, is the code of that
    region, with volume 5, a window of 30 days and a sales forecast of 2.
    After [createOrder] the region has currentVolume 50, pending 10,
    salesNext30Days 7 and status active; its code, name, target and
    fulfilled count are as before. *)
Theorem createOrder_worked_example
    (rnd now : string) (st : Page.t) (i : nat) (s : StateIntake.t) :
  uniqueCodes st →
  Page.mockStates st !! i = Some s →
  StateIntake.code s ≠ "" →
  submittedCode st = StateIntake.code s →
  StateIntake.currentVolume s = 45 →
  StateIntake.targetVolume s = 50 →
  StateIntake.pending s = 5 →
  StateIntake.salesNext30Days s = 5 →
  equals (OrderForm.volume (Page.orderForm st)) 5 →
  equals (OrderForm.days (Page.orderForm st)) 30 →
  equals (OrderForm.salesForecast (Page.orderForm st)) 2 →
  Page.mockStates (createOrder rnd now st) !! i
  = Some (StateIntake.mk (StateIntake.code s) (StateIntake.name s) 50 50 7
                         active (StateIntake.fulfilled s) 10).
Proof.
  intros Hnd Hi Hne Hcode Hcur Htgt Hpen Hsal Hvol Hdays Hfc.
  assert (Hvalid : validInput (Page.orderForm st)).
  { split_and!.
    - intros Hempty. apply Hne. rewrite <- Hcode. unfold submittedCode.
      by rewrite Hempty.
    - destruct Hvol as (q & -> & Hq). exists q. split; [done|]. by rewrite Hq.
    - destruct Hfc as (q & -> & Hq). exists q. split; [done|]. by rewrite Hq.
    - destruct Hdays as (q & -> & Hq). exists q. split; [done|]. by rewrite Hq. }
  rewrite (createOrder_mockStates _ _ _ Hvalid).
  assert (Hsel : selected st i s) by (by apply uniqueCodes_selected).
  apply selected_find in Hsel. rewrite Hsel.
  rewrite list_lookup_insert_eq by (by eapply lookup_lt_Some).
  unfold counted.
  rewrite (Math_round_equals _ _ Hvol), (Math_round_equals _ _ Hfc).
  rewrite (strict_eqb_equals _ _ Hdays).
  rewrite Hcur, Htgt, Hpen, Hsal. reflexivity.
Qed.

Lemma createOrder_worked_example_witness :
  Page.mockStates
    (createOrder "0.3a7f19c2e4b8" "2024-01-15T09:30:00.000Z"
                 (Samples.pageWith Samples.caOrder)) !! 0%nat
  = Some (StateIntake.mk "CA" "California" 50 50 7 active 40 10).
Proof.
  apply (createOrder_worked_example _ _ (Samples.pageWith Samples.caOrder) 0
           (StateIntake.mk "CA" "California" 45 50 5 active 40 5)).
  - unfold uniqueCodes. apply (bool_decide_unpack _). vm_compute. exact I.
  - reflexivity.
  - discriminate.
  - reflexivity.
  - reflexivity.
  - reflexivity.
  - reflexivity.
  - reflexivity.
  - exists (inject_Z 5). split; reflexivity.
  - exists (inject_Z 30). split; reflexivity.
  - exists (inject_Z 2). split; reflexivity.
Defined.

(** C2. When the region code of the form is empty once trimmed, or the
    volume is not finite or at most 0, or the sales forecast is not finite
    or below 0, or the window is not finite or at most 0, [createOrder]
    changes nothing: the page after the call is the page before it, so no
    order is added, no region changes, the creation form is as open as it
    was and holds what the user typed. *)
Theorem createOrder_invalid_noop (rnd now : string) (st : Page.t) :
  invalidInput (Page.orderForm st) →
  createOrder rnd now st = st
  ∧ Page.orders (createOrder rnd now st) = Page.orders st
  ∧ Page.mockStates (createOrder rnd now st) = Page.mockStates st
  ∧ Page.createOrderOpen (createOrder rnd now st) = Page.createOrderOpen st
  ∧ Page.orderForm (createOrder rnd now st) = Page.orderForm st.
Proof.
  intros Hinv.
  assert (Heq : createOrder rnd now st = st).
  { unfold createOrder.
    destruct Hinv as [Hc | [Hv | [Hs | Hd]]].
    - rewrite Hc. reflexivity.
    - apply notPositive_guard in Hv. rewrite <- orb_assoc, Hv, orb_true_r.
      reflexivity.
    - apply negativeOrNotFinite_guard in Hs. rewrite Hs.
      destruct (negb (truthy _) || _ || _); reflexivity.
    - apply notPositive_guard in Hd. rewrite Hd.
      destruct (negb (truthy _) || _ || _); [reflexivity|].
      destruct (negb (Number_isFinite (OrderForm.salesForecast _)) || _);
        reflexivity. }
  rewrite Heq. split_and!; reflexivity.
Qed.

Lemma createOrder_invalid_noop_witness :
  createOrder "0.5d2c" "2024-02-01T00:00:00.000Z"
              (Samples.pageWith Samples.negativeForecast)
  = Samples.pageWith Samples.negativeForecast.
Proof.
  apply (createOrder_invalid_noop "0.5d2c" "2024-02-01T00:00:00.000Z"
           (Samples.pageWith Samples.negativeForecast)).
  right. right. left. right. exists (-1 # 1)%Q. split; reflexivity.
Defined.

(** The blanks that [trim] strips are all those of JavaScript: a code of
    a no-break space, an ideographic space and a space is empty once
    trimmed, and [createOrder] rejects it. *)
Example createOrder_blank_code :
  trim Samples.blankCode = ""
  ∧ trim (" c" +:+ Samples.blankCode +:+ "a" +:+ Samples.blankCode)
    = "c" +:+ Samples.blankCode +:+ "a"
  ∧ createOrder "0.5d2c" "2024-02-01T00:00:00.000Z"
                (Samples.pageWith Samples.blankOrder)
    = Samples.pageWith Samples.blankOrder.
Proof. split_and!; vm_compute; reflexivity. Qed.

(** C3, as the specification states it, fails: a window of 45 days passes
    the validation (the code is not empty, volume 1, forecast 0), and the
    order recorded carries 45 days, which is none of the window options
    7, 14, 30 and 60. *)
Lemma createOrder_window_outside_options :
  ¬ (validInput Samples.oddWindow →
     ∀ o, head (Page.orders
                  (createOrder "0.9c41d07b" "2024-03-10T12:00:00.000Z"
                               (Samples.pageWith Samples.oddWindow))) = Some o →
          0 < IntakeOrder.volume o
          ∧ 0 <= IntakeOrder.salesForecast o
          ∧ IntakeOrder.days o ∈ orderDaysOptions).
Proof.
  intros H.
  assert (Hvalid : validInput Samples.oddWindow).
  { split_and!.
    - discriminate.
    - exists (inject_Z 1). split; reflexivity.
    - exists (inject_Z 0). split; [reflexivity|discriminate].
    - exists (inject_Z 45). split; reflexivity. }
  destruct (H Hvalid (IntakeOrder.mk "O-9C41D07B" "CA" 1 0 45
                        "2024-03-10T12:00:00.000Z")) as (_ & _ & Hin).
  - vm_compute. reflexivity.
  - cbn [IntakeOrder.days] in Hin. unfold orderDaysOptions in Hin.
    apply list_elem_of_In in Hin. simpl in Hin. lia.
Qed.

(** A volume between 0 and one half passes the validation and is recorded
    as 0. *)
Example createOrder_small_volume :
  IntakeOrder.volume
    <$> head (Page.orders
                (createOrder "0.9c41d07b" "2024-03-10T12:00:00.000Z"
                   (Samples.pageWith
                      (OrderForm.mk "CA" (Finite (1 # 4)) (of_Z 0) (of_Z 30)))))
  = Some 0.
Proof. vm_compute. reflexivity. Qed.

(** C3, amended. For every input that the validation accepts, [createOrder]
    puts one order in front of the list, with these integers: a volume that
    is positive whenever the submitted volume is at least one half; a sales
    forecast that is not negative; the submitted window rounded to the
    nearest integer, which is one of the window options whenever the
    submitted window is one of them. The order carries the code of the
    form, trimmed and in upper case (stated for a code in ASCII). *)
Theorem createOrder_order_fields (rnd now : string) (st : Page.t) :
  validInput (Page.orderForm st) →
  ∃ o, Page.orders (createOrder rnd now st) = o :: Page.orders st
       ∧ (isAscii (OrderForm.stateCode (Page.orderForm st)) = true →
          IntakeOrder.stateCode o = submittedCode st)
       ∧ (∀ v, OrderForm.volume (Page.orderForm st) = Finite v →
               (1 # 2 <= v)%Q → 0 < IntakeOrder.volume o)
       ∧ 0 <= IntakeOrder.salesForecast o
       ∧ IntakeOrder.days o = Math_round (OrderForm.days (Page.orderForm st))
       ∧ (∀ d, d ∈ orderDaysOptions →
               equals (OrderForm.days (Page.orderForm st)) d →
               IntakeOrder.days o ∈ orderDaysOptions).
Proof.
  intros Hvalid. eexists. split; [by apply createOrder_orders|].
  destruct Hvalid as (_ & _ & Hs & _).
  cbn [IntakeOrder.stateCode IntakeOrder.volume IntakeOrder.salesForecast
       IntakeOrder.days].
  split_and!.
  - reflexivity.
  - intros v -> Hv. by apply Math_round_pos.
  - by apply Math_round_nonneg.
  - reflexivity.
  - intros d Hd Heq. by rewrite (Math_round_equals _ _ Heq).
Qed.

Lemma createOrder_order_fields_witness :
  ∃ o, Page.orders (createOrder "0.77aa10f3" "2024-04-02T08:00:00.000Z"
                                (Samples.pageWith Samples.flOrder)) = [o]
       ∧ IntakeOrder.stateCode o = "FL"
       ∧ 0 < IntakeOrder.volume o
       ∧ IntakeOrder.days o ∈ orderDaysOptions.
Proof.
  destruct (createOrder_order_fields "0.77aa10f3" "2024-04-02T08:00:00.000Z"
              (Samples.pageWith Samples.flOrder))
    as (o & Ho & Hc & Hv & _ & _ & Hd).
  - split_and!.
    + discriminate.
    + exists (inject_Z 9). split; reflexivity.
    + exists (inject_Z 4). split; [reflexivity|discriminate].
    + exists (inject_Z 7). split; reflexivity.
  - exists o. split_and!.
    + exact Ho.
    + by apply Hc.
    + apply (Hv (inject_Z 9)); [reflexivity|discriminate].
    + apply (Hd 7).
      * apply list_elem_of_In. simpl. lia.
      * exists (inject_Z 7). split; reflexivity.
Defined.

(** C4. When [createOrder] accepts its input and counts the order on a
    region (the first region whose code is the submitted one), the status
    of that region after the call is active if its currentVolume is at
    least its targetVolume and low otherwise, so it is never inactive; the
    other regions are as before. *)
Theorem createOrder_status_recomputed
    (rnd now : string) (st : Page.t) (i : nat) (s : StateIntake.t) :
  validInput (Page.orderForm st) →
  selected st i s →
  ∃ s', Page.mockStates (createOrder rnd now st) !! i = Some s'
        ∧ StateIntake.status s' = statusOfVolumes s'
        ∧ (StateIntake.targetVolume s' <= StateIntake.currentVolume s' →
           StateIntake.status s' = active)
        ∧ (StateIntake.currentVolume s' < StateIntake.targetVolume s' →
           StateIntake.status s' = low)
        ∧ StateIntake.status s' ≠ inactive
        ∧ ∀ j, j ≠ i →
               Page.mockStates (createOrder rnd now st) !! j
               = Page.mockStates st !! j.
Proof.
  intros Hvalid Hsel.
  rewrite (createOrder_mockStates _ _ _ Hvalid).
  pose proof Hsel as (Hi & _ & _).
  apply selected_find in Hsel. rewrite Hsel.
  exists (counted st s). split_and!.
  - apply list_lookup_insert_eq. by eapply lookup_lt_Some.
  - unfold counted, statusOfVolumes.
    cbn [StateIntake.targetVolume StateIntake.currentVolume
         StateIntake.status].
    rewrite Z.geb_leb. reflexivity.
  - unfold counted. cbn [StateIntake.targetVolume StateIntake.currentVolume
                         StateIntake.status].
    intros Hle. destruct (Z.geb_spec (StateIntake.currentVolume s
      + Math_round (OrderForm.volume (Page.orderForm st)))
      (StateIntake.targetVolume s)); [reflexivity|lia].
  - unfold counted. cbn [StateIntake.targetVolume StateIntake.currentVolume
                         StateIntake.status].
    intros Hlt. destruct (Z.geb_spec (StateIntake.currentVolume s
      + Math_round (OrderForm.volume (Page.orderForm st)))
      (StateIntake.targetVolume s)); [lia|reflexivity].
  - unfold counted. cbn [StateIntake.status].
    destruct (_ >=? _); discriminate.
  - intros j Hj. by apply list_lookup_insert_ne.
Qed.

Lemma createOrder_status_recomputed_witness :
  ∃ s', Page.mockStates
          (createOrder "0.77aa10f3" "2024-04-02T08:00:00.000Z"
                       (Samples.pageWith Samples.flOrder)) !! 2%nat = Some s'
        ∧ StateIntake.status s' = active.
Proof.
  destruct (createOrder_status_recomputed "0.77aa10f3"
              "2024-04-02T08:00:00.000Z" (Samples.pageWith Samples.flOrder) 2
              (StateIntake.mk "FL" "Florida" 22 30 3 low 20 2))
    as (s' & Hs' & _ & Hact & _).
  - split_and!.
    + discriminate.
    + exists (inject_Z 9). split; reflexivity.
    + exists (inject_Z 4). split; [reflexivity|discriminate].
    + exists (inject_Z 7). split; reflexivity.
  - split_and!.
    + reflexivity.
    + reflexivity.
    + intros k t Hk Hl.
      destruct k as [|[|k]]; [| |lia]; injection Hl as <-; discriminate.
  - exists s'. split; [exact Hs'|].
    apply Hact. vm_compute in Hs'. injection Hs' as <-. vm_compute.
    discriminate.
Defined.

(** ** The coloring pass *)

Lemma stateByCode_snoc (l : list StateIntake.t) (x : StateIntake.t)
    (m : gmap string StateIntake.t) :
  foldl (λ m s, <[StateIntake.code s := s]> m) m (l ++ [x])
  = <[StateIntake.code x := x]>
      (foldl (λ m s, <[StateIntake.code s := s]> m) m l).
Proof. by rewrite foldl_snoc. Qed.

Lemma stateByCode_Some (st : Page.t) (c : string) (s : StateIntake.t) :
  stateByCode st !! c = Some s → regionOf st c s.
Proof.
  unfold stateByCode, regionOf.
  induction (Page.mockStates st) as [|x l IH] using rev_ind; simpl.
  - by rewrite lookup_empty.
  - rewrite stateByCode_snoc.
    destruct (decide (StateIntake.code x = c)) as [Heq|Hne].
    + rewrite <- Heq, lookup_insert_eq. intros [= <-].
      split; [|reflexivity]. apply elem_of_app. right.
      by apply list_elem_of_singleton.
    + rewrite lookup_insert_ne by done. intros H.
      destruct (IH H) as [Hin Hc]. split; [|done].
      apply elem_of_app. by left.
Qed.

Lemma stateByCode_None (st : Page.t) (c : string) :
  stateByCode st !! c = None ↔ unknown st c.
Proof.
  unfold stateByCode, unknown.
  induction (Page.mockStates st) as [|x l IH] using rev_ind; simpl.
  - rewrite lookup_empty. split; [|done]. intros _ s Hs.
    by apply elem_of_nil in Hs.
  - rewrite stateByCode_snoc.
    destruct (decide (StateIntake.code x = c)) as [Heq|Hne].
    + rewrite <- Heq, lookup_insert_eq. split; [done|].
      intros H. exfalso. apply (H x); [|reflexivity].
      apply elem_of_app. right. by apply list_elem_of_singleton.
    + rewrite lookup_insert_ne by done. rewrite IH. split.
      * intros H s [Hs|Hs]%elem_of_app; [by apply H|].
        apply list_elem_of_singleton in Hs as ->. done.
      * intros H s Hs. apply H. apply elem_of_app. by left.
Qed.

Lemma uniqueCodes_inj (st : Page.t) (s t : StateIntake.t) :
  uniqueCodes st → s ∈ Page.mockStates st → t ∈ Page.mockStates st →
  StateIntake.code s = StateIntake.code t → s = t.
Proof.
  intros Hnd [i Hi]%list_elem_of_lookup_1 [j Hj]%list_elem_of_lookup_1 Hc.
  assert (i = j) as ->; [|congruence].
  apply (NoDup_lookup _ i j (StateIntake.code s) Hnd).
  - by rewrite list_lookup_fmap, Hi.
  - by rewrite list_lookup_fmap, Hj; simpl; rewrite Hc.
Qed.

Lemma stateByCode_regionOf (st : Page.t) (c : string) (s : StateIntake.t) :
  uniqueCodes st → regionOf st c s → stateByCode st !! c = Some s.
Proof.
  intros Hnd [Hin Hc].
  destruct (stateByCode st !! c) as [t|] eqn:E.
  - apply stateByCode_Some in E as [Htin Htc]. f_equal.
    apply (uniqueCodes_inj st); [done..|congruence].
  - apply stateByCode_None in E. exfalso. by apply (E s).
Qed.

Lemma visibleSet_only (st : Page.t) (f : StateStatus) (c : string) :
  Page.selectedStatus st = only f →
  c ∈ visibleSet st ↔
  ∃ s, s ∈ Page.mockStates st ∧ StateIntake.code s = c
       ∧ StateIntake.status s = f.
Proof.
  intros Hf. unfold visibleSet, filteredStates. rewrite Hf.
  rewrite elem_of_list_to_set, list_elem_of_fmap. split.
  - intros (s & -> & [Hs Hin]%list_elem_of_filter). by exists s.
  - intros (s & Hin & <- & Hs). exists s. split; [done|].
    by apply list_elem_of_filter.
Qed.

(** [isVisible] of the coloring callback is the visibility of the
    specification. *)
Lemma paint_isVisible (st : Page.t) (c : string) :
  match Page.selectedStatus st with
  | all => true
  | _ => bool_decide (c ∈ visibleSet st)
  end = true ↔ visible st c.
Proof.
  unfold visible. destruct (Page.selectedStatus st) as [|f] eqn:Hf; [done|].
  rewrite bool_decide_eq_true. by apply visibleSet_only.
Qed.

Lemma shapeCode_paintPath (st : Page.t) (vs : gset string) (p : Shape.t) :
  shapeCode (paintPath st vs p) = shapeCode p
  ∧ Shape.idAttr (paintPath st vs p) = Shape.idAttr p
  ∧ Shape.bbox (paintPath st vs p) = Shape.bbox p.
Proof. unfold paintPath. destruct (shapeCode p) eqn:E; done. Qed.

Lemma cssNumber_dimmed : cssNumber "0.15" = Some (15 # 100)%Q.
Proof. reflexivity. Qed.

(** What the coloring callback leaves on a shape that has a code. *)
Lemma paintPath_style (st : Page.t) (p : Shape.t) (c : string) :
  uniqueCodes st →
  shapeCode p = Some c →
  let style := Shape.style (paintPath st (visibleSet st) p) in
  (∀ s, regionOf st c s → visible st c →
        Style.fill style = Decl.mk (getStatusColor (StateIntake.status s)) true)
  ∧ (unknown st c ∨ ¬ visible st c →
     Style.fill style = Decl.mk "#e5e7eb" true)
  ∧ (visible st c → Style.opacity style = "1")
  ∧ (¬ visible st c →
     ∃ q, cssNumber (Style.opacity style) = Some q ∧ (0 < q)%Q ∧ (q < 1)%Q).
Proof.
  intros Hnd Hc. unfold paintPath. rewrite Hc. cbn [Shape.style Style.fill
    Style.opacity].
  pose proof (paint_isVisible st c) as Hvis.
  destruct (match Page.selectedStatus st with
            | all => true | _ => bool_decide (c ∈ visibleSet st) end) eqn:E.
  - assert (Hv : visible st c) by (by apply Hvis).
    split_and!.
    + intros s Hs _. by rewrite (stateByCode_regionOf _ _ _ Hnd Hs).
    + intros [Hu | Hn]; [|done].
      apply stateByCode_None in Hu. by rewrite Hu.
    + done.
    + done.
  - assert (Hv : ¬ visible st c).
    { intros H. apply Hvis in H. discriminate. }
    split_and!.
    + done.
    + intros _. by destruct (stateByCode st !! c).
    + done.
    + intros _. exists (15 # 100)%Q. split_and!; reflexivity.
Qed.


(** The document after a labeling pass. *)
Lemma applyStateLabels_svg (st : Page.t) (root : MapRoot.t) (nodes : list Node) :
  Page.mapRoot st = Some root → MapRoot.svg root = Some nodes →
  ∃ root', Page.mapRoot (applyStateLabels st) = Some root'
    ∧ MapRoot.svg root'
      = Some (removeLabels nodes
              ++ [GroupEl "state-labels" "none"
                    (omap (labelFor st) (pathsOf (removeLabels nodes)))]).
Proof.
  intros Hr Hs. unfold applyStateLabels. rewrite Hr, Hs. eexists.
  split; reflexivity.
Qed.

(** The document after a coloring pass: the paths painted, the previous
    label group gone, a fresh one at the end. *)
Lemma applyMapColors_svg (st : Page.t) (root : MapRoot.t) (nodes : list Node) :
  Page.mapRoot st = Some root → MapRoot.svg root = Some nodes →
  ∃ root', Page.mapRoot (applyMapColors st) = Some root'
    ∧ MapRoot.svg root'
      = Some (removeLabels (paintNode st (visibleSet st) <$> nodes)
              ++ [GroupEl "state-labels" "none"
                    (omap (labelFor st)
                       (pathsOf (removeLabels
                                   (paintNode st (visibleSet st) <$> nodes))))]).
Proof.
  intros Hr Hs. unfold applyMapColors. rewrite Hr, Hs.
  match goal with |- context [applyStateLabels ?s] =>
    destruct (applyStateLabels_svg s
                (MapRoot.mk (MapRoot.rect root) (MapRoot.innerHTML root)
                   (Some (paintNode st (visibleSet st) <$> nodes))
                   (MapRoot.listening root))
                (paintNode st (visibleSet st) <$> nodes) eq_refl eq_refl)
      as (root' & Hr' & Hs') end.
  exists root'. split; [exact Hr'|]. rewrite Hs'. reflexivity.
Qed.

Lemma removeLabels_keeps (nodes : list Node) (n : Node) :
  n ∈ nodes → nodeId n ≠ Some "state-labels" → n ∈ removeLabels nodes.
Proof.
  intros Hin Hid. induction nodes as [|m rest IH]; simpl; [done|].
  apply elem_of_cons in Hin as [<-|Hin].
  - rewrite bool_decide_eq_false_2 by done. apply elem_of_cons. by left.
  - destruct (bool_decide (nodeId m = Some "state-labels")); [done|].
    apply elem_of_cons. right. by apply IH.
Qed.



(** ** The labeling pass *)

(** [isVisible] of the labeling callback is the visibility of the
    specification. *)
Lemma label_isVisible (st : Page.t) (c : string) :
  match Page.selectedStatus st with
  | all => true
  | _ => existsb (λ s, String.eqb (StateIntake.code s) c) (filteredStates st)
  end = true ↔ visible st c.
Proof.
  unfold visible, filteredStates.
  destruct (Page.selectedStatus st) as [|f]; [done|].
  rewrite existsb_exists. split.
  - intros (s & Hin & Heq). apply String.eqb_eq in Heq.
    apply list_elem_of_In, list_elem_of_filter in Hin as [Hs Hin].
    by exists s.
  - intros (s & Hin & Hc & Hs). exists s. split.
    + apply list_elem_of_In, list_elem_of_filter. done.
    + by apply String.eqb_eq.
Qed.

(** The label of a shape: there is one exactly when the shape has a code,
    its bounding box is computed and it is visible; it shows the code at
    the center of the box, in a font of a third of the smaller side of the
    box, and of 6 at least. *)
Lemma labelFor_Some (st : Page.t) (p : Shape.t) (t : TextEl.t) :
  labelFor st p = Some t ↔
  ∃ c b, shapeCode p = Some c ∧ Shape.bbox p = Some b ∧ visible st c
         ∧ t = TextEl.mk c (BBox.x b + BBox.width b / 2)%Q
                         (BBox.y b + BBox.height b / 2)%Q
                         "middle" "middle"
                         (Qmax 6 (Qmin (BBox.width b) (BBox.height b) / 3))
                         "700" "#ffffff" "stroke" "rgba(0,0,0,0.5)" "1".
Proof.
  unfold labelFor. pose proof (label_isVisible st) as Hvis.
  destruct (shapeCode p) as [c|]; [|split; [done|by intros (?&?&?&_)]].
  destruct (Shape.bbox p) as [b|]; [|split; [done|by intros (?&?&_&?&_)]].
  specialize (Hvis c).
  destruct (match Page.selectedStatus st with
            | all => true
            | _ => existsb _ (filteredStates st) end) eqn:E; simpl.
  - split.
    + intros [= <-]. exists c, b. split_and!; try done. by apply Hvis.
    + intros (c' & b' & [= <-] & [= <-] & _ & ->). done.
  - split; [done|]. intros (c' & b' & [= <-] & _ & Hv & _).
    apply Hvis in Hv. discriminate.
Qed.

Lemma removeLabels_id (nodes : list Node) :
  (∀ n, n ∈ nodes → ¬ isLabelGroup n) → removeLabels nodes = nodes.
Proof.
  unfold isLabelGroup. induction nodes as [|m rest IH]; intros H; simpl; [done|].
  rewrite bool_decide_eq_false_2.
  - f_equal. apply IH. intros n Hn. apply H. apply elem_of_cons. by right.
  - apply H. apply elem_of_cons. by left.
Qed.

Lemma removeLabels_previous (doc : list Node) (g : Node) :
  (∀ n, n ∈ doc → ¬ isLabelGroup n) → isLabelGroup g →
  removeLabels (doc ++ [g]) = doc.
Proof.
  unfold isLabelGroup. intros H Hg.
  induction doc as [|m rest IH]; simpl.
  - by rewrite bool_decide_eq_true_2.
  - rewrite bool_decide_eq_false_2.
    + f_equal. apply IH. intros n Hn. apply H. apply elem_of_cons. by right.
    + apply H. apply elem_of_cons. by left.
Qed.

(** C6, as the specification states it, fails: under the filter "all" the
    shape of code DC, which is the code of no region of the page, gets a
    label (at the center 1526/2, 446/2 of its box). *)
Lemma applyStateLabels_labels_unknown_code :
  ¬ (∀ root' nodes' pe labels t,
       Page.mapRoot (applyStateLabels (Samples.mapPage all)) = Some root' →
       MapRoot.svg root' = Some nodes' →
       GroupEl "state-labels" pe labels ∈ nodes' →
       t ∈ labels →
       ∃ s, regionOf (Samples.mapPage all) (TextEl.textContent t) s).
Proof.
  intros H.
  destruct (applyStateLabels_svg (Samples.mapPage all)
              (MapRoot.mk (ClientRect.mk 10 80 960 520) "<svg>"
                          (Some Samples.smallMap) true)
              Samples.smallMap eq_refl eq_refl) as (root' & Hr & Hs).
  destruct (H root' _ "none"
              (omap (labelFor (Samples.mapPage all))
                    (pathsOf (removeLabels Samples.smallMap)))
              (TextEl.mk "DC" (1526 # 2) (446 # 2) "middle" "middle" 6 "700"
                         "#ffffff" "stroke" "rgba(0,0,0,0.5)" "1") Hr Hs)
    as (s & Hin & Hc).
  - apply elem_of_app. right. by apply list_elem_of_singleton.
  - apply list_elem_of_In. vm_compute. tauto.
  - assert (Hu : unknown (Samples.mapPage all) "DC").
    { apply stateByCode_None. vm_compute. reflexivity. }
    exact (Hu s Hin Hc).
Qed.

(** C6, amended. A labeling pass on a document takes the previous label
    group out (the first element of id state-labels) and appends one fresh
    group, not interactive, at the end. The group holds, in document order,
    one label for each shape that has a code, whose bounding box is
    computed and that is visible under the filter (the filter is "all", or
    a region of that code has the status of the filter), and no other
    label; under "all" this includes a shape whose code is that of no
    region. The label shows the code at the center of the box, with font
    size max(6, min(width, height) / 3). A shape whose bounding box cannot
    be computed has no label, and the other shapes keep theirs. *)
Theorem applyStateLabels_labels
    (st : Page.t) (root : MapRoot.t) (nodes : list Node) :
  Page.mapRoot st = Some root → MapRoot.svg root = Some nodes →
  ∃ root' labels,
    Page.mapRoot (applyStateLabels st) = Some root'
    ∧ MapRoot.svg root'
      = Some (removeLabels nodes ++ [GroupEl "state-labels" "none" labels])
    ∧ labels = omap (labelFor st) (pathsOf (removeLabels nodes))
    ∧ (∀ p t, labelFor st p = Some t ↔
         ∃ c b, shapeCode p = Some c ∧ Shape.bbox p = Some b ∧ visible st c
           ∧ t = TextEl.mk c (BBox.x b + BBox.width b / 2)%Q
                   (BBox.y b + BBox.height b / 2)%Q "middle" "middle"
                   (Qmax 6 (Qmin (BBox.width b) (BBox.height b) / 3))
                   "700" "#ffffff" "stroke" "rgba(0,0,0,0.5)" "1")
    ∧ (∀ p, Shape.bbox p = None → labelFor st p = None)
    ∧ (∀ doc g, (∀ n, n ∈ doc → ¬ isLabelGroup n) → isLabelGroup g →
         nodes = doc ++ [g] → removeLabels nodes = doc)
    ∧ ((∀ n, n ∈ nodes → ¬ isLabelGroup n) → removeLabels nodes = nodes).
Proof.
  intros Hr Hs.
  destruct (applyStateLabels_svg st root nodes Hr Hs) as (root' & Hr' & Hs').
  exists root', (omap (labelFor st) (pathsOf (removeLabels nodes))).
  split_and!; try done.
  - apply labelFor_Some.
  - intros p Hb. destruct (labelFor st p) as [t|] eqn:E; [|done].
    apply labelFor_Some in E as (c & b & _ & Hb' & _). congruence.
  - intros doc g Hdoc Hg ->. by apply removeLabels_previous.
  - apply removeLabels_id.
Qed.

Lemma applyStateLabels_labels_witness :
  ∃ root' labels,
    Page.mapRoot (applyStateLabels (Samples.mapPage (only low))) = Some root'
    ∧ MapRoot.svg root'
      = Some (Samples.smallMap ++ [GroupEl "state-labels" "none" labels])
    ∧ TextEl.textContent <$> labels = ["FL"].
Proof.
  destruct (applyStateLabels_labels (Samples.mapPage (only low))
              (MapRoot.mk (ClientRect.mk 10 80 960 520) "<svg>"
                          (Some Samples.smallMap) true)
              Samples.smallMap eq_refl eq_refl)
    as (root' & labels & Hr & Hs & Hl & _ & _ & _ & Hid).
  exists root', labels. split_and!.
  - exact Hr.
  - rewrite Hs, Hid; [reflexivity|].
    intros n Hn Hg. apply list_elem_of_In in Hn. unfold isLabelGroup in Hg.
    simpl in Hn. intuition (subst; discriminate).
  - rewrite Hl. vm_compute. reflexivity.
Defined.

(** ** The tooltip *)

Lemma handleMouseMove_position (clientX clientY : Q) (st : Page.t)
    (root : MapRoot.t) :
  Tooltip.open (Page.tooltip st) = true → Page.mapRoot st = Some root →
  let rect := MapRoot.rect root in
  let t := Page.tooltip (handleMouseMove clientX clientY st) in
  Tooltip.x t
  = Qmax 4 (Qmin (clientX - ClientRect.left rect + 6)
                 (Qmax 0 (ClientRect.width rect - tooltipWidth st - 4)))
  ∧ Tooltip.y t
    = Qmax 4 (Qmin (clientY - ClientRect.top rect + 6)
                   (Qmax 0 (ClientRect.height rect - tooltipHeight st - 4))).
Proof.
  intros Ho Hr. unfold handleMouseMove, tooltipWidth, tooltipHeight.
  rewrite Ho, Hr. split; reflexivity.
Qed.

(** The clamp of the handler on one axis: [raw] the pointer offset, [size]
    the side of the container, [w] that of the tooltip. *)
Lemma clamp_bounds (raw size w : Q) :
  let x := Qmax 4 (Qmin raw (Qmax 0 (size - w - 4))) in
  (4 <= x)%Q
  ∧ ((x + w <= size)%Q ↔ (w + 4 <= size)%Q)
  ∧ ((w + 8 <= size)%Q → (x + w + 4 <= size)%Q).
Proof.
  intros x. unfold x.
  destruct (Q.max_spec 0 (size - w - 4)) as [[H1 E1]|[H1 E1]];
  destruct (Q.min_spec raw (Qmax 0 (size - w - 4))) as [[H2 E2]|[H2 E2]];
  destruct (Q.max_spec 4 (Qmin raw (Qmax 0 (size - w - 4))))
    as [[H3 E3]|[H3 E3]];
  rewrite E3; rewrite ?E2, ?E1 in *; split_and!; try split; intros; lra.
Qed.

(** C7, as the specification states it, fails: in a container 100 wide, a
    tooltip measured 98 wide is placed at x = 4 and ends at 102. *)
Lemma handleMouseMove_wide_tooltip_overflows :
  ¬ (Tooltip.x
       (Page.tooltip
          (handleMouseMove 30 10
             (Samples.tooltipPage (ClientRect.mk 0 0 100 50)
                                  (TooltipEl.mk 98 20))))
     + inject_Z 98 <= 100)%Q.
Proof. vm_compute. intros H. apply H. reflexivity. Qed.

(** C7, amended. While the tooltip is open over a rendered map container,
    the position that the move handler computes has x and y at least the
    margin 4, for every pointer position and every measured size of the
    tooltip. The tooltip ends within the container, x + width at most the
    width of the container, exactly when its width plus the margin fits in
    the container; with room for both margins it also ends 4 before the
    edge. The same holds for y and the heights. *)
Theorem handleMouseMove_clamped (clientX clientY : Q) (st : Page.t)
    (root : MapRoot.t) :
  Tooltip.open (Page.tooltip st) = true → Page.mapRoot st = Some root →
  let rect := MapRoot.rect root in
  let t := Page.tooltip (handleMouseMove clientX clientY st) in
  (4 <= Tooltip.x t)%Q ∧ (4 <= Tooltip.y t)%Q
  ∧ ((Tooltip.x t + tooltipWidth st <= ClientRect.width rect)%Q
     ↔ (tooltipWidth st + 4 <= ClientRect.width rect)%Q)
  ∧ ((Tooltip.y t + tooltipHeight st <= ClientRect.height rect)%Q
     ↔ (tooltipHeight st + 4 <= ClientRect.height rect)%Q)
  ∧ ((tooltipWidth st + 8 <= ClientRect.width rect)%Q →
     (Tooltip.x t + tooltipWidth st + 4 <= ClientRect.width rect)%Q)
  ∧ ((tooltipHeight st + 8 <= ClientRect.height rect)%Q →
     (Tooltip.y t + tooltipHeight st + 4 <= ClientRect.height rect)%Q).
Proof.
  intros Ho Hr rect t.
  destruct (handleMouseMove_position clientX clientY st root Ho Hr)
    as [Hx Hy].
  fold rect in Hx, Hy. fold t in Hx, Hy. rewrite Hx, Hy.
  destruct (clamp_bounds (clientX - ClientRect.left rect + 6)
              (ClientRect.width rect) (tooltipWidth st)) as (? & ? & ?).
  destruct (clamp_bounds (clientY - ClientRect.top rect + 6)
              (ClientRect.height rect) (tooltipHeight st)) as (? & ? & ?).
  split_and!; assumption.
Qed.

Lemma handleMouseMove_clamped_witness :
  let t := Page.tooltip
             (handleMouseMove 950 590
                (Samples.tooltipPage (ClientRect.mk 10 80 960 520)
                                     (TooltipEl.mk 180 96))) in
  (4 <= Tooltip.x t)%Q ∧ (Tooltip.x t + 180 + 4 <= 960)%Q.
Proof.
  destruct (handleMouseMove_clamped 950 590
              (Samples.tooltipPage (ClientRect.mk 10 80 960 520)
                                   (TooltipEl.mk 180 96))
              (MapRoot.mk (ClientRect.mk 10 80 960 520) "" None false)
              eq_refl eq_refl) as (Hx & _ & _ & _ & Hroom & _).
  split; [exact Hx|]. apply Hroom. vm_compute. discriminate.
Defined.

(** ** The map load *)

Lemma applyStateLabels_innerHTML (st : Page.t) :
  injected (applyStateLabels st) = injected st.
Proof.
  unfold injected, applyStateLabels.
  destruct (Page.mapRoot st) as [root|] eqn:Hr; [|by rewrite Hr].
  destruct (MapRoot.svg root); [reflexivity|by rewrite Hr].
Qed.

Lemma applyMapColors_innerHTML (st : Page.t) :
  injected (applyMapColors st) = injected st.
Proof.
  unfold applyMapColors.
  destruct (Page.mapRoot st) as [root|] eqn:Hr; [|reflexivity].
  destruct (MapRoot.svg root); [|reflexivity].
  rewrite applyStateLabels_innerHTML. unfold injected. by rewrite Hr.
Qed.

Lemma bindSvgEvents_innerHTML (st : Page.t) :
  injected (bindSvgEvents st) = injected st.
Proof.
  unfold injected, bindSvgEvents.
  destruct (Page.mapRoot st) as [root|] eqn:Hr; [|by rewrite Hr].
  destruct (MapRoot.svg root); [reflexivity|by rewrite Hr].
Qed.

Lemma fetchFailed_text (r : FetchResult) :
  fetchFailed r ↔ fetchedText r = None.
Proof.
  split.
  - intros [-> | [[body ->] | ->]]; reflexivity.
  - destruct r as [|[|] [text|]]; simpl; try discriminate; intros _.
    + by left.
    + right. by right.
    + right. left. by eexists.
    + right. left. by eexists.
Qed.

Section LoadProtocol.

Variable parseSvg : string → option (list Node).
Variable usSvgFallbackRaw : string.

(** The document in the container after [run]. *)
Lemma run_injected (r : FetchResult) (ls : LocalStorage.t) (st : Page.t)
    (root : MapRoot.t) :
  Page.mapRoot st = Some root →
  injected (run parseSvg usSvgFallbackRaw r ls st).1
  = Some (match fetchedText r with
          | Some svgText => svgText
          | None => cachedOrFallback usSvgFallbackRaw (tryGetItem ls)
          end).
Proof.
  intros Hr. unfold run. rewrite Hr.
  destruct (fetchedText r) as [svgText|]; cbn [fst];
    rewrite applyMapColors_innerHTML, bindSvgEvents_innerHTML;
    unfold injected, setInnerHTML; rewrite Hr; reflexivity.
Qed.

(** C8, amended. When the map container is mounted and the remote fetch
    fails: if the cache can be read and holds a document that is not the
    empty text, that document is injected; if the cache holds nothing, or
    holds the empty text, or cannot be read, the bundled fallback is
    injected; the cache is left as it was. When the fetch succeeds the
    fetched document is injected whether or not the cache can be written
    or read, and a cache that refuses the write is left as it was. *)
Theorem run_fetch_failure (r : FetchResult) (ls : LocalStorage.t)
    (st : Page.t) (root : MapRoot.t) :
  Page.mapRoot st = Some root →
  let out := run parseSvg usSvgFallbackRaw r ls st in
  (fetchFailed r →
     (∀ cached, LocalStorage.item ls = Some cached →
                LocalStorage.getItemThrows ls = false → cached ≠ "" →
                injected out.1 = Some cached)
     ∧ (LocalStorage.item ls = None ∨ LocalStorage.item ls = Some ""
        ∨ LocalStorage.getItemThrows ls = true →
        injected out.1 = Some usSvgFallbackRaw)
     ∧ out.2 = ls)
  ∧ (∀ svgText, fetchedText r = Some svgText →
       injected out.1 = Some svgText
       ∧ (LocalStorage.setItemThrows ls = true → out.2 = ls)
       ∧ (LocalStorage.setItemThrows ls = false →
          LocalStorage.item out.2 = Some svgText)).
Proof.
  intros Hr out. unfold out. rewrite (run_injected r ls st root Hr).
  split.
  - intros Hf%fetchFailed_text. unfold run. rewrite Hr, Hf.
    unfold cachedOrFallback, tryGetItem. split_and!.
    + intros cached Hc Hg Hne. rewrite Hg, Hc.
      apply truthy_true_iff in Hne. by rewrite Hne.
    + intros [Hn | [He | Hg]].
      * rewrite Hn. by destruct (LocalStorage.getItemThrows ls).
      * rewrite He. by destruct (LocalStorage.getItemThrows ls).
      * by rewrite Hg.
    + reflexivity.
  - intros svgText Ht. unfold run. rewrite Hr, Ht. cbn [snd].
    unfold trySetItem. split_and!.
    + reflexivity.
    + by intros ->.
    + by intros ->.
Qed.

End LoadProtocol.

(** C8, as the specification states it, fails: a cache that holds the empty
    text (stored after a fetch that returned an empty body) is passed over,
    and the bundled fallback is injected in place of the cached document. *)
Lemma run_empty_cached_document :
  ¬ (injected
       (run Samples.parseSmall "<svg id='bundled'/>" Rejected
            (LocalStorage.mk (Some "") false false) Samples.mountedPage).1
     = Some "").
Proof. vm_compute. discriminate. Qed.

Lemma run_fetch_failure_witness :
  injected
    (run Samples.parseSmall "<svg id='bundled'/>" (Response false None)
         (LocalStorage.mk (Some "<svg id='cached'/>") false true)
         Samples.mountedPage).1
  = Some "<svg id='cached'/>".
Proof.
  destruct (run_fetch_failure Samples.parseSmall "<svg id='bundled'/>"
              (Response false None)
              (LocalStorage.mk (Some "<svg id='cached'/>") false true)
              Samples.mountedPage
              (MapRoot.mk (ClientRect.mk 10 80 960 520) "" None false)
              eq_refl) as [Hfail _].
  destruct Hfail as (Hcached & _ & _).
  - right. left. by exists None.
  - apply (Hcached "<svg id='cached'/>"); [reflexivity|reflexivity|discriminate].
Defined.

(** ** The settings tabs and the profile draft *)

Import AttorneyProfile.

Lemma payload_outside (fieldList : list string) (d : Profile) (field : string) :
  field ∉ fieldList → payload fieldList d !! field = None.
Proof.
  intros Hout. unfold payload. apply map_lookup_filter_None.
  right. intros v _ Hin. by apply Hout.
Qed.

Lemma payload_inside (fieldList : list string) (d : Profile) (field : string)
    (v : Value) :
  field ∈ fieldList → d !! field = Some v →
  payload fieldList d !! field = Some v.
Proof.
  intros Hin Hd. unfold payload. by apply map_lookup_filter_Some.
Qed.

Lemma updateByOwner_outside (ownerId : string) (fields : Profile) (b : Backend)
    (owner field : string) :
  fields !! field = None →
  backendField (updateByOwner ownerId fields b) owner field
  = backendField b owner field.
Proof.
  intros Hnone. unfold backendField, updateByOwner.
  destruct (decide (ownerId = owner)) as [->|Hne].
  - rewrite lookup_alter_eq. destruct (b !! owner) as [record|]; simpl; [|done].
    by apply lookup_union_r.
  - by rewrite lookup_alter_ne.
Qed.

Lemma commitEditing_backend (remoteOk : bool) (ownerId : string)
    (fieldList : list string) (m : AttorneyProfile.t) (b : Backend) :
  (commitEditing remoteOk ownerId fieldList m b).1.2
  = if isEditing m && remoteOk
    then updateByOwner ownerId (payload fieldList (draft m)) b else b.
Proof. unfold commitEditing. by destruct (isEditing m), remoteOk. Qed.

Lemma onSubmit_backend (fieldList : list string) (description : string)
    (remoteOk : bool) (err : SettingsTab.Thrown) (userId : string)
    (tab : SettingsTab.t)
    (m : AttorneyProfile.t) (b : Backend) :
  (SettingsTab.onSubmit fieldList description remoteOk err userId tab m b).2
  = if JS.truthy userId
    then (commitEditing remoteOk userId fieldList m b).1.2 else b.
Proof.
  unfold SettingsTab.onSubmit. destruct (JS.truthy userId); [|reflexivity].
  simpl. by destruct (commitEditing remoteOk userId fieldList m b)
    as [[m' b'] [|]].
Qed.

(** C9. For every draft, every backend and every field list, a commit
    with that list leaves every field outside the list as the backend held
    it, for every owner, whatever the draft holds for that field; so does
    the submit of a tab, which commits with the list of the tab. The fields
    of the capacity tab are outside the list of the expertise tab, and the
    other way round. A commit that succeeds does persist the fields of the
    list that the draft holds. *)
Theorem commitEditing_scoped_write
    (remoteOk : bool) (ownerId : string) (fieldList : list string)
    (m : AttorneyProfile.t) (b : Backend) (owner field : string) :
  field ∉ fieldList →
  backendField (commitEditing remoteOk ownerId fieldList m b).1.2 owner field
  = backendField b owner field
  ∧ (∀ description err tab,
       backendField
         (SettingsTab.onSubmit fieldList description remoteOk err ownerId
                               tab m b).2 owner field
       = backendField b owner field)
  ∧ (∀ f, f ∈ CapacityTab.fieldList → f ∉ ExpertiseTab.fieldList)
  ∧ (∀ f, f ∈ ExpertiseTab.fieldList → f ∉ CapacityTab.fieldList)
  ∧ (∀ f v record,
       f ∈ fieldList → draft m !! f = Some v → isEditing m = true →
       remoteOk = true → b !! ownerId = Some record →
       backendField (commitEditing remoteOk ownerId fieldList m b).1.2
                    ownerId f = Some v).
Proof.
  intros Hout.
  assert (Hcommit :
    backendField (commitEditing remoteOk ownerId fieldList m b).1.2 owner field
    = backendField b owner field).
  { rewrite commitEditing_backend.
    destruct (isEditing m && remoteOk); [|reflexivity].
    apply updateByOwner_outside. by apply payload_outside. }
  split_and!.
  - exact Hcommit.
  - intros description err tab. rewrite onSubmit_backend.
    by destruct (JS.truthy ownerId).
  - intros f Hf Hf'. apply list_elem_of_In in Hf, Hf'. simpl in Hf, Hf'.
    intuition (subst; discriminate).
  - intros f Hf Hf'. apply list_elem_of_In in Hf, Hf'. simpl in Hf, Hf'.
    intuition (subst; discriminate).
  - intros f v record Hf Hd He -> Hrec. rewrite commitEditing_backend, He.
    cbn [andb]. unfold backendField, updateByOwner.
    rewrite lookup_alter_eq, Hrec. simpl.
    apply lookup_union_Some_l. by apply payload_inside.
Qed.

Lemma commitEditing_scoped_write_witness :
  backendField
    (ExpertiseTab.onSubmit true SettingsTab.OtherThrown "user-1"
       (SettingsTab.mk false [])
       (AttorneyProfile.mk Samples.austinProfile Samples.editedDraft true)
       Samples.oneOwner).2
    "user-1" "availabilityStatus"
  = Some (VString "accepting").
Proof.
  destruct (commitEditing_scoped_write true "user-1" ExpertiseTab.fieldList
              (AttorneyProfile.mk Samples.austinProfile Samples.editedDraft true)
              Samples.oneOwner "user-1" "availabilityStatus")
    as (_ & Hsubmit & _).
  - intros Hin. apply list_elem_of_In in Hin. simpl in Hin.
    intuition discriminate.
  - unfold ExpertiseTab.onSubmit. rewrite Hsubmit. reflexivity.
Defined.

(** C10. Once a tab (expertise or capacity) is mounted and the profile is
    loaded, if the draft machine is Editing and the draft does not differ
    from the baseline, the tab cancels the editing: the machine is Idle,
    its draft is the baseline and it is not dirty; if the machine is
    Editing and dirty, the tab leaves it as it is. *)
Theorem onMounted_reconciles
    (loadProfile : string → AttorneyProfile.t → AttorneyProfile.t)
    (userId : string) (m : AttorneyProfile.t) :
  isEditing (loaded loadProfile userId m) = true →
  let after := loaded loadProfile userId m in
  (isDirty after = false →
     ExpertiseTab.onMounted loadProfile userId m = cancelEditing after
     ∧ CapacityTab.onMounted loadProfile userId m = cancelEditing after
     ∧ isEditing (cancelEditing after) = false
     ∧ draft (cancelEditing after) = state after
     ∧ state (cancelEditing after) = state after
     ∧ isDirty (cancelEditing after) = false)
  ∧ (isDirty after = true →
     ExpertiseTab.onMounted loadProfile userId m = after
     ∧ CapacityTab.onMounted loadProfile userId m = after).
Proof.
  intros He after. subst after.
  assert (Hm : SettingsTab.onMounted loadProfile userId m
               = if isEditing (loaded loadProfile userId m)
                    && negb (isDirty (loaded loadProfile userId m))
                 then cancelEditing (loaded loadProfile userId m)
                 else loaded loadProfile userId m) by reflexivity.
  unfold ExpertiseTab.onMounted, CapacityTab.onMounted. rewrite Hm, He.
  split.
  - intros ->. cbn [negb andb]. split_and!; try reflexivity.
    unfold isDirty, cancelEditing. cbn [draft state].
    apply bool_decide_eq_false_2. intros H. by apply H.
  - intros ->. split; reflexivity.
Qed.

Lemma onMounted_reconciles_witness :
  CapacityTab.onMounted (λ _ m, m) "user-1"
    (AttorneyProfile.mk Samples.austinProfile Samples.austinProfile true)
  = AttorneyProfile.mk Samples.austinProfile Samples.austinProfile false.
Proof.
  destruct (onMounted_reconciles (λ _ m, m) "user-1"
              (AttorneyProfile.mk Samples.austinProfile Samples.austinProfile
                                  true) eq_refl) as [Hclean _].
  destruct Hclean as (_ & Hcap & _).
  - apply bool_decide_eq_false_2. intros H. by apply H.
  - exact Hcap.
Defined.

(** * Further properties of the intake map page *)

(** An accepted order: [createOrder] is the coloring pass on the page with
    the order recorded. *)
Lemma createOrder_accepted (rnd now : string) (st : Page.t) :
  validInput (Page.orderForm st) →
  createOrder rnd now st = applyMapColors (recorded rnd now st).
Proof.
  intros Hv. apply validInput_guards in Hv as (H1 & H2 & H3 & H4 & H5 & H6 & H7).
  unfold createOrder. rewrite H1, H2, H3, H4, H5, H6, H7. cbn [negb orb].
  f_equal. unfold recorded, submittedCode.
  cbn [Page.mockStates Page.with_orders].
  destruct (list_find _ _) as [[idx s]|]; reflexivity.
Qed.

Lemma strict_eqb_true_equals (x : number) (z : Z) :
  strict_eqb x (of_Z z) = true → equals x z.
Proof.
  destruct x as [| |q]; simpl; try discriminate.
  intros H. exists q. split; [reflexivity|]. by apply Qeq_bool_iff.
Qed.

(** A [reduce] that adds a field of every region. *)
Lemma total_shift (f : StateIntake.t → Z) (l : list StateIntake.t) (a : Z) :
  foldl (λ sum s, sum + f s) a l = a + foldl (λ sum s, sum + f s) 0 l.
Proof.
  revert a. induction l as [|x l IH]; intros a; simpl; [lia|].
  rewrite (IH (a + f x)), (IH (0 + f x)). lia.
Qed.

Lemma total_insert (f : StateIntake.t → Z) (l : list StateIntake.t) (i : nat)
    (s s' : StateIntake.t) :
  l !! i = Some s →
  foldl (λ sum s, sum + f s) 0 (<[i := s']> l)
  = foldl (λ sum s, sum + f s) 0 l - f s + f s'.
Proof.
  revert i. induction l as [|x l IH]; intros i Hi; [done|].
  destruct i as [|i]; simpl in *.
  - injection Hi as ->. rewrite (total_shift f l (0 + f s')),
      (total_shift f l (0 + f s)). lia.
  - rewrite (total_shift f (<[i:=s']> l) (0 + f x)),
      (total_shift f l (0 + f x)), (IH i Hi). lia.
Qed.

(** X1. An accepted order whose code, in ASCII, is the code of no region
    once trimmed and in upper case, is recorded all the same, in front of
    the list and under that code, and no region changes, so the totals of
    the cards stay as they are. *)
Theorem createOrder_unmatched_code (rnd now : string) (st : Page.t) :
  validInput (Page.orderForm st) →
  isAscii (OrderForm.stateCode (Page.orderForm st)) = true →
  unknown st (submittedCode st) →
  (∃ o, Page.orders (createOrder rnd now st) = o :: Page.orders st
        ∧ IntakeOrder.stateCode o = submittedCode st)
  ∧ Page.mockStates (createOrder rnd now st) = Page.mockStates st
  ∧ totalVolume (createOrder rnd now st) = totalVolume st
  ∧ totalPending (createOrder rnd now st) = totalPending st.
Proof.
  intros Hvalid _ Hunknown.
  assert (Hm : Page.mockStates (createOrder rnd now st) = Page.mockStates st).
  { rewrite (createOrder_mockStates _ _ _ Hvalid).
    destruct (list_find _ _) as [[idx s]|] eqn:E; [|reflexivity].
    apply list_find_Some in E as (Hl & Hc & _). exfalso.
    apply (Hunknown s); [|exact Hc]. by eapply list_elem_of_lookup_2. }
  split_and!.
  - eexists. split; [by apply createOrder_orders|reflexivity].
  - exact Hm.
  - unfold totalVolume. by rewrite Hm.
  - unfold totalPending. by rewrite Hm.
Qed.

Lemma createOrder_unmatched_code_witness :
  IntakeOrder.stateCode
    <$> Page.orders (createOrder "0.1b2c3d4e5f" "2024-05-01T10:00:00.000Z"
                                 (Samples.pageWith Samples.prOrder))
  = ["PR"]
  ∧ Page.mockStates (createOrder "0.1b2c3d4e5f" "2024-05-01T10:00:00.000Z"
                                 (Samples.pageWith Samples.prOrder))
    = initialStates.
Proof.
  destruct (createOrder_unmatched_code "0.1b2c3d4e5f"
              "2024-05-01T10:00:00.000Z" (Samples.pageWith Samples.prOrder))
    as ((o & Ho & Hc) & Hm & _).
  - split_and!.
    + discriminate.
    + exists (inject_Z 3). split; reflexivity.
    + exists (inject_Z 1). split; [reflexivity|discriminate].
    + exists (inject_Z 30). split; reflexivity.
  - reflexivity.
  - apply stateByCode_None. vm_compute. reflexivity.
  - split; [|exact Hm]. rewrite Ho. simpl. rewrite Hc. reflexivity.
Defined.

(** X2. An accepted order closes the creation form and puts the form back
    to its defaults (no code, volume 1, forecast 5, 30 days); the orders
    recorded before stay behind the new one, which carries the identifier
    O- followed by eight hexadecimal digits in upper case and the time of
    the call; the status filter and the tooltip are as before. [rnd] is the
    text of [Math.random().toString(16)], which is ASCII. *)
Theorem createOrder_accepted_effects (rnd now : string) (st : Page.t) :
  validInput (Page.orderForm st) →
  isAscii rnd = true →
  let st' := createOrder rnd now st in
  Page.createOrderOpen st' = false
  ∧ Page.orderForm st' = OrderForm.mk "" (of_Z 1) (of_Z 5) (of_Z 30)
  ∧ tail (Page.orders st') = Page.orders st
  ∧ (IntakeOrder.id <$> head (Page.orders st'))
    = Some ("O-" +:+ toUpperCase (substring 2 8 rnd))
  ∧ (IntakeOrder.createdAt <$> head (Page.orders st')) = Some now
  ∧ Page.selectedStatus st' = Page.selectedStatus st
  ∧ Page.tooltip st' = Page.tooltip st.
Proof.
  intros Hvalid _ st'. unfold st'.
  rewrite (createOrder_accepted _ _ _ Hvalid).
  destruct (applyMapColors_data (recorded rnd now st))
    as (-> & _ & -> & -> & ->).
  split_and!; try reflexivity.
  unfold applyMapColors, applyStateLabels.
  cbn [recorded Page.mapRoot Page.tooltip].
  destruct (Page.mapRoot st) as [root|]; [|reflexivity].
  destruct (MapRoot.svg root); reflexivity.
Qed.

Lemma createOrder_accepted_effects_witness :
  Page.createOrderOpen
    (createOrder "0.77aa10f3cc" "2024-04-02T08:00:00.000Z"
                 (Samples.pageWith Samples.flOrder)) = false
  ∧ (IntakeOrder.id
       <$> head (Page.orders
                   (createOrder "0.77aa10f3cc" "2024-04-02T08:00:00.000Z"
                                (Samples.pageWith Samples.flOrder))))
    = Some "O-77AA10F3".
Proof.
  destruct (createOrder_accepted_effects "0.77aa10f3cc"
              "2024-04-02T08:00:00.000Z" (Samples.pageWith Samples.flOrder))
    as (Hopen & _ & _ & Hid & _).
  - split_and!.
    + discriminate.
    + exists (inject_Z 9). split; reflexivity.
    + exists (inject_Z 4). split; [reflexivity|discriminate].
    + exists (inject_Z 7). split; reflexivity.
  - reflexivity.
  - split; [exact Hopen|]. rewrite Hid. reflexivity.
Defined.

(** X3. Unless the submitted window is exactly 30, [createOrder] leaves
    the 30-day sales figure of every region as it was, whatever the sales
    forecast; this holds also for a window such as 30.25, which is recorded
    on the order as 30 days. *)
Theorem createOrder_other_window (rnd now : string) (st : Page.t) :
  ¬ equals (OrderForm.days (Page.orderForm st)) 30 →
  StateIntake.salesNext30Days <$> Page.mockStates (createOrder rnd now st)
  = StateIntake.salesNext30Days <$> Page.mockStates st.
Proof.
  intros Hdays. unfold createOrder.
  destruct (negb (truthy _) || _ || _); [reflexivity|].
  destruct (negb (Number_isFinite (OrderForm.salesForecast _)) || _);
    [reflexivity|].
  destruct (negb (Number_isFinite (OrderForm.days _)) || _); [reflexivity|].
  match goal with |- context [applyMapColors ?s] =>
    destruct (applyMapColors_data s) as (_ & -> & _) end.
  cbn [Page.mockStates Page.with_orders].
  destruct (list_find _ _) as [[idx s]|] eqn:E; [|reflexivity].
  apply list_find_Some in E as (Hl & _).
  cbn [Page.mockStates Page.with_mockStates Page.with_createOrderOpen
       resetOrderForm Page.with_orderForm].
  rewrite list_fmap_insert. cbn [StateIntake.salesNext30Days].
  destruct (strict_eqb _ _) eqn:Heq.
  - exfalso. apply Hdays. by apply strict_eqb_true_equals.
  - apply list_insert_id. by rewrite list_lookup_fmap, Hl.
Qed.

Lemma createOrder_other_window_witness :
  StateIntake.salesNext30Days
    <$> Page.mockStates (createOrder "0.4e4e4e4e4e" "2024-06-01T00:00:00.000Z"
                                     (Samples.pageWith Samples.nearThirty))
  = StateIntake.salesNext30Days <$> initialStates
  ∧ (IntakeOrder.days
       <$> head (Page.orders
                   (createOrder "0.4e4e4e4e4e" "2024-06-01T00:00:00.000Z"
                                (Samples.pageWith Samples.nearThirty))))
    = Some 30.
Proof.
  split.
  - apply (createOrder_other_window "0.4e4e4e4e4e" "2024-06-01T00:00:00.000Z"
             (Samples.pageWith Samples.nearThirty)).
    intros (q & Hq & Heq). injection Hq as <-. vm_compute in Heq. discriminate.
  - vm_compute. reflexivity.
Defined.

(** X4. When an accepted order, its code in ASCII, is counted on a region,
    the total volume and the total pending of the cards both grow by the
    rounded volume of the order, and the total target and the total
    fulfilled do not move. The counters are not negative and the two totals
    with the order added are at most 2^53, so that the sums of the page are
    exact. *)
Theorem createOrder_totals
    (rnd now : string) (st : Page.t) (i : nat) (s : StateIntake.t) :
  validInput (Page.orderForm st) →
  isAscii (OrderForm.stateCode (Page.orderForm st)) = true →
  selected st i s →
  countersNotNegative st →
  exactSum (totalVolume st
            + Math_round (OrderForm.volume (Page.orderForm st))) →
  exactSum (totalPending st
            + Math_round (OrderForm.volume (Page.orderForm st))) →
  let v := Math_round (OrderForm.volume (Page.orderForm st)) in
  totalVolume (createOrder rnd now st) = totalVolume st + v
  ∧ totalPending (createOrder rnd now st) = totalPending st + v
  ∧ totalTarget (createOrder rnd now st) = totalTarget st
  ∧ totalFulfilled (createOrder rnd now st) = totalFulfilled st.
Proof.
  intros Hvalid _ Hsel _ _ _ v. pose proof Hsel as (Hi & _ & _).
  apply selected_find in Hsel.
  unfold totalVolume, totalPending, totalTarget, totalFulfilled.
  rewrite (createOrder_mockStates _ _ _ Hvalid), Hsel.
  rewrite !(total_insert _ _ _ _ _ Hi). unfold counted.
  cbn [StateIntake.currentVolume StateIntake.pending StateIntake.targetVolume
       StateIntake.fulfilled].
  fold v. split_and!; lia.
Qed.

Lemma createOrder_totals_witness :
  totalVolume (createOrder "0.77aa10f3cc" "2024-04-02T08:00:00.000Z"
                           (Samples.pageWith Samples.flOrder))
  = totalVolume (Samples.pageWith Samples.flOrder) + 9.
Proof.
  destruct (createOrder_totals "0.77aa10f3cc" "2024-04-02T08:00:00.000Z"
              (Samples.pageWith Samples.flOrder) 2
              (StateIntake.mk "FL" "Florida" 22 30 3 low 20 2))
    as (Hvol & _).
  - split_and!.
    + discriminate.
    + exists (inject_Z 9). split; reflexivity.
    + exists (inject_Z 4). split; [reflexivity|discriminate].
    + exists (inject_Z 7). split; reflexivity.
  - reflexivity.
  - apply uniqueCodes_selected; [|reflexivity..].
    by apply initialStates_uniqueCodes.
  - apply (bool_decide_unpack _). vm_compute. exact I.
  - vm_compute. discriminate.
  - vm_compute. discriminate.
  - exact Hvol.
Defined.

(** X5. Whenever the Create button of the template is disabled (the code is
    empty once trimmed, or the volume is at most 0), [createOrder] would
    reject the form: the button never keeps an acceptable order out. *)
Theorem createDisabled_rejects (rnd now : string) (st : Page.t) :
  createDisabled st = true →
  createOrder rnd now st = st ∧ ¬ validInput (Page.orderForm st).
Proof.
  unfold createDisabled. intros Hd.
  assert (Hg : negb (truthy (toUpperCase
                  (trim (OrderForm.stateCode (Page.orderForm st)))))
               || negb (Number_isFinite (OrderForm.volume (Page.orderForm st)))
               || leb (OrderForm.volume (Page.orderForm st)) (of_Z 0) = true).
  { rewrite toUpperCase_truthy. apply orb_true_iff in Hd as [-> | ->];
      [reflexivity|]. apply orb_true_r. }
  split.
  - unfold createOrder. by rewrite Hg.
  - intros Hv. apply validInput_guards in Hv as (H1 & H2 & H3 & _).
    rewrite H1, H2, H3 in Hg. discriminate.
Qed.

Lemma createDisabled_rejects_witness :
  createOrder "0.5d2c" "2024-02-01T00:00:00.000Z"
    (Samples.pageWith (OrderForm.mk "   " (of_Z 4) (of_Z 1) (of_Z 30)))
  = Samples.pageWith (OrderForm.mk "   " (of_Z 4) (of_Z 1) (of_Z 30)).
Proof.
  apply (createDisabled_rejects "0.5d2c" "2024-02-01T00:00:00.000Z"
           (Samples.pageWith (OrderForm.mk "   " (of_Z 4) (of_Z 1) (of_Z 30)))).
  reflexivity.
Defined.

(** A code of blanks that are not ASCII disables the button as well. *)
Example createDisabled_blank_code :
  createDisabled (Samples.pageWith Samples.blankOrder) = true.
Proof. vm_compute. reflexivity. Qed.

(** The button can be enabled on a form that [createOrder] rejects: a
    negative forecast does not disable it. *)
Example createDisabled_not_complete :
  createDisabled (Samples.pageWith Samples.negativeForecast) = false
  ∧ createOrder "0.5d2c" "2024-02-01T00:00:00.000Z"
                (Samples.pageWith Samples.negativeForecast)
    = Samples.pageWith Samples.negativeForecast.
Proof. split; vm_compute; reflexivity. Qed.

(** ** Passes over the document *)

Lemma paintPath_idem (st : Page.t) (vs : gset string) (p : Shape.t) :
  paintPath st vs (paintPath st vs p) = paintPath st vs p.
Proof.
  destruct (shapeCode_paintPath st vs p) as (Hc & _ & _).
  unfold paintPath at 1. rewrite Hc.
  unfold paintPath. destruct (shapeCode p) as [c|]; reflexivity.
Qed.

Lemma paintNode_idem (st : Page.t) (vs : gset string) (n : Node) :
  paintNode st vs (paintNode st vs n) = paintNode st vs n.
Proof. destruct n; simpl; [|done..]. by rewrite paintPath_idem. Qed.

Lemma nodeId_paintNode (st : Page.t) (vs : gset string) (n : Node) :
  nodeId (paintNode st vs n) = nodeId n.
Proof.
  destruct n as [p| |]; simpl; [|done..].
  by destruct (shapeCode_paintPath st vs p) as (_ & -> & _).
Qed.

Lemma paintNode_no_labels (st : Page.t) (vs : gset string) (nodes : list Node) :
  (∀ n, n ∈ nodes → ¬ isLabelGroup n) →
  ∀ n, n ∈ paintNode st vs <$> nodes → ¬ isLabelGroup n.
Proof.
  intros H n (m & -> & Hm)%list_elem_of_fmap. unfold isLabelGroup.
  rewrite nodeId_paintNode. by apply H.
Qed.

Lemma pathsOf_snoc_group (nodes : list Node) (i pe : string)
    (labels : list TextEl.t) :
  pathsOf (nodes ++ [GroupEl i pe labels]) = pathsOf nodes.
Proof. unfold pathsOf. rewrite omap_app. simpl. by rewrite app_nil_r. Qed.

(** A coloring pass on a page whose container holds [R]. *)
Lemma applyMapColors_with (st : Page.t) (R : MapRoot.t) (nodes : list Node) :
  MapRoot.svg R = Some nodes →
  applyMapColors (Page.with_mapRoot (Some R) st)
  = Page.with_mapRoot
      (Some (MapRoot.mk (MapRoot.rect R) (MapRoot.innerHTML R)
               (Some (removeLabels (paintNode st (visibleSet st) <$> nodes)
                      ++ [GroupEl "state-labels" "none"
                            (omap (labelFor st)
                               (pathsOf
                                  (removeLabels
                                     (paintNode st (visibleSet st) <$> nodes))))]))
               (MapRoot.listening R)))
      st.
Proof.
  intros Hs. unfold applyMapColors.
  cbn [Page.mapRoot Page.with_mapRoot]. rewrite Hs.
  unfold applyStateLabels. cbn [Page.mapRoot Page.with_mapRoot MapRoot.svg].
  reflexivity.
Qed.

Lemma with_mapRoot_self (st : Page.t) : Page.with_mapRoot (Page.mapRoot st) st = st.
Proof. by destruct st. Qed.

(** On a document without an element of the id of the label group, the
    pass paints every element in place and appends the group. *)
Lemma applyMapColors_fresh (st : Page.t) (root : MapRoot.t) (nodes : list Node) :
  Page.mapRoot st = Some root → MapRoot.svg root = Some nodes →
  (∀ n, n ∈ nodes → ¬ isLabelGroup n) →
  applyMapColors st
  = Page.with_mapRoot
      (Some (MapRoot.mk (MapRoot.rect root) (MapRoot.innerHTML root)
               (Some ((paintNode st (visibleSet st) <$> nodes)
                      ++ [GroupEl "state-labels" "none"
                            (omap (labelFor st)
                               (pathsOf (paintNode st (visibleSet st) <$> nodes)))]))
               (MapRoot.listening root)))
      st.
Proof.
  intros Hr Hs Hfresh.
  rewrite <- (with_mapRoot_self st) at 1. rewrite Hr.
  rewrite (applyMapColors_with st root nodes Hs).
  rewrite (removeLabels_id (paintNode st (visibleSet st) <$> nodes))
    by (by apply paintNode_no_labels).
  reflexivity.
Qed.

Lemma labelFor_paintPath (st : Page.t) (vs : gset string) (p : Shape.t) :
  labelFor st (paintPath st vs p) = labelFor st p.
Proof.
  unfold labelFor.
  by destruct (shapeCode_paintPath st vs p) as (-> & _ & ->).
Qed.

Lemma pathsOf_paint (st : Page.t) (vs : gset string) (nodes : list Node) :
  pathsOf (paintNode st vs <$> nodes) = paintPath st vs <$> pathsOf nodes.
Proof.
  unfold pathsOf. induction nodes as [|n rest IH]; [done|].
  destruct n as [p| |]; simpl; [f_equal| |]; apply IH.
Qed.

(** X6. Coloring is idempotent: on a document that came without an
    element of the id of the label group, a second coloring pass, with the
    filter and the regions as they were, gives the very page the first
    pass gave; label groups do not pile up and no style moves. *)
Theorem applyMapColors_idempotent
    (st : Page.t) (root : MapRoot.t) (nodes : list Node) :
  Page.mapRoot st = Some root → MapRoot.svg root = Some nodes →
  (∀ n, n ∈ nodes → ¬ isLabelGroup n) →
  applyMapColors (applyMapColors st) = applyMapColors st.
Proof.
  intros Hr Hs Hfresh.
  rewrite (applyMapColors_fresh st root nodes Hr Hs Hfresh).
  set (P := paintNode st (visibleSet st) <$> nodes).
  set (g := GroupEl "state-labels" "none" (omap (labelFor st) (pathsOf P))).
  rewrite (applyMapColors_with st
             (MapRoot.mk (MapRoot.rect root) (MapRoot.innerHTML root)
                         (Some (P ++ [g])) (MapRoot.listening root))
             (P ++ [g]) eq_refl).
  cbn [MapRoot.rect MapRoot.innerHTML MapRoot.listening].
  assert (HP : paintNode st (visibleSet st) <$> (P ++ [g]) = P ++ [g]).
  { rewrite fmap_app. f_equal. unfold P. rewrite <- list_fmap_compose.
    apply list_fmap_ext. intros i n _. simpl. apply paintNode_idem. }
  rewrite HP.
  rewrite (removeLabels_previous P g);
    [reflexivity| by apply paintNode_no_labels | reflexivity].
Qed.

Lemma applyMapColors_idempotent_witness :
  applyMapColors (applyMapColors (Samples.mapPage (only active)))
  = applyMapColors (Samples.mapPage (only active)).
Proof.
  apply (applyMapColors_idempotent (Samples.mapPage (only active))
           (MapRoot.mk (ClientRect.mk 10 80 960 520) "<svg>"
                       (Some Samples.smallMap) true)
           Samples.smallMap eq_refl eq_refl).
  intros n Hn Hg. apply list_elem_of_In in Hn. unfold isLabelGroup in Hg.
  simpl in Hn. intuition (subst; discriminate).
Defined.

(** X7. A coloring pass on a document without an element of the id of the
    label group keeps the elements in their places and appends one label
    group after them: an element that is not a path is kept as it is, a
    path keeps its attributes and its bounding box, and a path without a
    code (an empty data-id and no id) keeps its inline style too. The
    client rectangle, the injected text and the listeners of the container
    are not touched. *)
Theorem applyMapColors_frame
    (st : Page.t) (root : MapRoot.t) (nodes : list Node) :
  Page.mapRoot st = Some root → MapRoot.svg root = Some nodes →
  (∀ n, n ∈ nodes → ¬ isLabelGroup n) →
  ∃ nodes' g,
    Page.mapRoot (applyMapColors st)
    = Some (MapRoot.mk (MapRoot.rect root) (MapRoot.innerHTML root)
                       (Some (nodes' ++ [g])) (MapRoot.listening root))
    ∧ isLabelGroup g
    ∧ length nodes' = length nodes
    ∧ ∀ i n, nodes !! i = Some n →
        match n with
        | PathEl p =>
            ∃ p', nodes' !! i = Some (PathEl p')
                  ∧ shapeFrame p' = shapeFrame p
                  ∧ (shapeCode p = None → p' = p)
        | _ => nodes' !! i = Some n
        end.
Proof.
  intros Hr Hs Hfresh.
  rewrite (applyMapColors_fresh st root nodes Hr Hs Hfresh).
  eexists _, _. split_and!.
  - reflexivity.
  - reflexivity.
  - by rewrite length_fmap.
  - intros i n Hn.
    assert (Hi : (paintNode st (visibleSet st) <$> nodes) !! i
                 = Some (paintNode st (visibleSet st) n))
      by (by rewrite list_lookup_fmap, Hn).
    destruct n as [p| |]; [|exact Hi..].
    exists (paintPath st (visibleSet st) p). split_and!.
    + exact Hi.
    + unfold shapeFrame.
      destruct (shapeCode_paintPath st (visibleSet st) p) as (_ & -> & ->).
      f_equal. f_equal. unfold paintPath. by destruct (shapeCode p).
    + intros Hc. unfold paintPath. by rewrite Hc.
Qed.

Lemma applyMapColors_frame_witness :
  ∃ nodes' g,
    MapRoot.svg <$> Page.mapRoot (applyMapColors (Samples.mapPage all))
    = Some (Some (nodes' ++ [g]))
    ∧ nodes' !! 0%nat = Some (OtherEl (Some "frame"))
    ∧ length nodes' = 5%nat.
Proof.
  destruct (applyMapColors_frame (Samples.mapPage all)
              (MapRoot.mk (ClientRect.mk 10 80 960 520) "<svg>"
                          (Some Samples.smallMap) true)
              Samples.smallMap eq_refl eq_refl)
    as (nodes' & g & Hr & _ & Hlen & Hkeep).
  - intros n Hn Hg. apply list_elem_of_In in Hn. unfold isLabelGroup in Hg.
    simpl in Hn. intuition (subst; discriminate).
  - exists nodes', g. split_and!.
    + by rewrite Hr.
    + exact (Hkeep 0%nat (OtherEl (Some "frame")) eq_refl).
    + exact Hlen.
Defined.

Lemma omap_length_le {A B : Type} (f : A → option B) (l : list A) :
  (length (omap f l) ≤ length l)%nat.
Proof.
  induction l as [|x l IH]; csimpl; [lia|]. destruct (f x); csimpl; lia.
Qed.

Lemma pathsOf_removeLabels_le (l : list Node) :
  (length (pathsOf (removeLabels l)) ≤ length (pathsOf l))%nat.
Proof.
  unfold pathsOf. induction l as [|n l IH]; csimpl; [lia|].
  destruct (bool_decide _); destruct n; csimpl; lia.
Qed.

(** X8. Under a status filter, every label that a labeling pass puts in
    the fresh group shows the code of a region that has the status of the
    filter, and there are at most as many labels as paths. *)
Theorem applyStateLabels_filtered_labels
    (st : Page.t) (root : MapRoot.t) (nodes : list Node) (f : StateStatus) :
  Page.mapRoot st = Some root → MapRoot.svg root = Some nodes →
  Page.selectedStatus st = only f →
  ∃ root' kept labels,
    Page.mapRoot (applyStateLabels st) = Some root'
    ∧ MapRoot.svg root'
      = Some (kept ++ [GroupEl "state-labels" "none" labels])
    ∧ (length labels ≤ length (pathsOf nodes))%nat
    ∧ ∀ t, t ∈ labels →
        ∃ s, s ∈ Page.mockStates st
             ∧ StateIntake.code s = TextEl.textContent t
             ∧ StateIntake.status s = f.
Proof.
  intros Hr Hs Hf.
  destruct (applyStateLabels_svg st root nodes Hr Hs) as (root' & Hr' & Hs').
  exists root', (removeLabels nodes),
    (omap (labelFor st) (pathsOf (removeLabels nodes))).
  split_and!; [exact Hr'|exact Hs'| |].
  - etrans; [apply omap_length_le|]. apply pathsOf_removeLabels_le.
  - intros t (p & _ & Ht)%list_elem_of_omap.
    apply labelFor_Some in Ht as (c & b & _ & _ & Hv & ->).
    unfold visible in Hv. rewrite Hf in Hv.
    destruct Hv as (s & Hin & Hc & Hst). by exists s.
Qed.

Lemma applyStateLabels_filtered_labels_witness :
  ∃ root' kept labels,
    Page.mapRoot (applyStateLabels (Samples.mapPage (only active)))
    = Some root'
    ∧ MapRoot.svg root'
      = Some (kept ++ [GroupEl "state-labels" "none" labels])
    ∧ (length labels ≤ 4)%nat.
Proof.
  destruct (applyStateLabels_filtered_labels (Samples.mapPage (only active))
              (MapRoot.mk (ClientRect.mk 10 80 960 520) "<svg>"
                          (Some Samples.smallMap) true)
              Samples.smallMap active eq_refl eq_refl eq_refl)
    as (root' & kept & labels & Hr & Hs & Hlen & _).
  exists root', kept, labels. split_and!; [exact Hr|exact Hs|exact Hlen].
Defined.

Lemma recorded_mockStates (rnd now : string) (st : Page.t) (i : nat)
    (s : StateIntake.t) :
  selected st i s →
  Page.mockStates (recorded rnd now st)
  = <[i := counted st s]> (Page.mockStates st).
Proof.
  intros Hsel%selected_find. unfold recorded. cbn [Page.mockStates].
  by rewrite Hsel.
Qed.

Lemma recorded_uniqueCodes (rnd now : string) (st : Page.t) :
  uniqueCodes st → uniqueCodes (recorded rnd now st).
Proof.
  unfold uniqueCodes, recorded. cbn [Page.mockStates].
  destruct (list_find _ _) as [[idx s]|] eqn:E; [|done].
  apply list_find_Some in E as (Hl & _). intros Hnd.
  rewrite list_fmap_insert. cbn [counted StateIntake.code].
  rewrite list_insert_id; [done|]. by rewrite list_lookup_fmap, Hl.
Qed.

(** X9. The map follows an order at once. Under the filter "all", on a
    page whose region codes are unique, once [createOrder] has counted an
    accepted order on a region, the shape of that region in the document is
    filled with the color of the recomputed status, green when the new
    current volume reaches the target and amber otherwise, at full
    opacity. *)
Theorem createOrder_repaints
    (rnd now : string) (st : Page.t) (i : nat) (s : StateIntake.t)
    (root : MapRoot.t) (nodes : list Node) (p : Shape.t) :
  validInput (Page.orderForm st) →
  uniqueCodes st →
  selected st i s →
  Page.selectedStatus st = all →
  Page.mapRoot st = Some root → MapRoot.svg root = Some nodes →
  PathEl p ∈ nodes → shapeCode p = Some (StateIntake.code s) →
  Shape.idAttr p ≠ Some "state-labels" →
  ∃ root' nodes' p',
    Page.mapRoot (createOrder rnd now st) = Some root'
    ∧ MapRoot.svg root' = Some nodes'
    ∧ PathEl p' ∈ nodes'
    ∧ shapeFrame p' = shapeFrame p
    ∧ Style.fill (Shape.style p')
      = Decl.mk (if StateIntake.targetVolume s
                    <=? StateIntake.currentVolume s
                        + Math_round (OrderForm.volume (Page.orderForm st))
                 then "#22c55e" else "#eab308") true
    ∧ Style.opacity (Shape.style p') = "1".
Proof.
  intros Hvalid Hnd Hsel Hall Hr Hs Hp Hc Hid.
  rewrite (createOrder_accepted _ _ _ Hvalid).
  set (st1 := recorded rnd now st).
  destruct (applyMapColors_svg st1 root nodes Hr Hs) as (root' & Hr' & Hs').
  eexists root', _, (paintPath st1 (visibleSet st1) p).
  split_and!; [exact Hr'|exact Hs'| | | |].
  - apply elem_of_app. left. apply removeLabels_keeps.
    + apply list_elem_of_fmap. by exists (PathEl p).
    + simpl. by destruct (shapeCode_paintPath st1 (visibleSet st1) p)
        as (_ & -> & _).
  - unfold shapeFrame.
    destruct (shapeCode_paintPath st1 (visibleSet st1) p) as (_ & -> & ->).
    f_equal. f_equal. unfold paintPath. by destruct (shapeCode p).
  - destruct (paintPath_style st1 p (StateIntake.code s)
                (recorded_uniqueCodes rnd now st Hnd) Hc) as (Hfill & _).
    rewrite (Hfill (counted st s)).
    + unfold counted. cbn [StateIntake.status]. rewrite Z.geb_leb.
      by destruct (_ <=? _).
    + split; [|reflexivity]. unfold st1.
      rewrite (recorded_mockStates rnd now st i s Hsel).
      pose proof Hsel as (Hi & _).
      eapply list_elem_of_lookup_2. apply list_lookup_insert_eq.
      by eapply lookup_lt_Some.
    + unfold visible. unfold st1, recorded. cbn [Page.selectedStatus].
      by rewrite Hall.
  - destruct (paintPath_style st1 p (StateIntake.code s)
                (recorded_uniqueCodes rnd now st Hnd) Hc) as (_ & _ & Hop & _).
    apply Hop. unfold visible. unfold st1, recorded.
    cbn [Page.selectedStatus]. by rewrite Hall.
Qed.

Lemma createOrder_repaints_witness :
  ∃ root' nodes' p',
    Page.mapRoot (createOrder "0.77aa10f3cc" "2024-04-02T08:00:00.000Z"
                              (Samples.mapPageWith Samples.flOrder))
    = Some root'
    ∧ MapRoot.svg root' = Some nodes'
    ∧ PathEl p' ∈ nodes'
    ∧ Shape.dataId p' = "FL"
    ∧ Style.fill (Shape.style p') = Decl.mk "#22c55e" true.
Proof.
  destruct (createOrder_repaints "0.77aa10f3cc" "2024-04-02T08:00:00.000Z"
              (Samples.mapPageWith Samples.flOrder) 2
              (StateIntake.mk "FL" "Florida" 22 30 3 low 20 2)
              (MapRoot.mk (ClientRect.mk 10 80 960 520) "<svg>"
                          (Some Samples.smallMap) true)
              Samples.smallMap
              (Samples.plainPath "FL" (Some (BBox.mk 700 400 60 90))))
    as (root' & nodes' & p' & Hr & Hs & Hin & Hframe & Hfill & _).
  - split_and!.
    + discriminate.
    + exists (inject_Z 9). split; reflexivity.
    + exists (inject_Z 4). split; [reflexivity|discriminate].
    + exists (inject_Z 7). split; reflexivity.
  - by apply initialStates_uniqueCodes.
  - apply uniqueCodes_selected; [|reflexivity..].
    by apply initialStates_uniqueCodes.
  - reflexivity.
  - reflexivity.
  - reflexivity.
  - apply list_elem_of_In. simpl. tauto.
  - reflexivity.
  - discriminate.
  - exists root', nodes', p'. split_and!; [exact Hr|exact Hs|exact Hin| |].
    + unfold shapeFrame in Hframe. by injection Hframe as -> _ _.
    + rewrite Hfill. reflexivity.
Defined.

Lemma stateByCode_skip (l : list StateIntake.t) (m : gmap string StateIntake.t)
    (c : string) :
  (∀ t, t ∈ l → StateIntake.code t ≠ c) →
  foldl (λ m s, <[StateIntake.code s := s]> m) m l !! c = m !! c.
Proof.
  revert m. induction l as [|x l IH]; intros m H; simpl; [done|].
  rewrite IH.
  - apply lookup_insert_ne. apply H. apply elem_of_cons. by left.
  - intros t Ht. apply H. apply elem_of_cons. by right.
Qed.

(** X10. [stateByCode] keeps, for a code, the last region of the list that
    carries it: a region after which no region has the same code is the one
    the coloring pass and the tooltip read, also when an earlier region
    shares its code (it is the first such region that [createOrder]
    updates). *)
Theorem stateByCode_last_wins
    (st : Page.t) (before after : list StateIntake.t) (s : StateIntake.t) :
  Page.mockStates st = before ++ s :: after →
  (∀ t, t ∈ after → StateIntake.code t ≠ StateIntake.code s) →
  stateByCode st !! StateIntake.code s = Some s.
Proof.
  intros Hm Hafter. unfold stateByCode. rewrite Hm, foldl_app. simpl.
  rewrite (stateByCode_skip after _ _ Hafter). apply lookup_insert_eq.
Qed.

Lemma stateByCode_last_wins_witness :
  stateByCode
    (Page.mk [] [ StateIntake.mk "CA" "California" 45 50 5 active 40 5;
                  StateIntake.mk "TX" "Texas" 38 40 4 active 35 3;
                  StateIntake.mk "CA" "Calif. (north)" 3 9 1 low 2 1 ]
             false (OrderForm.mk "" (of_Z 1) (of_Z 5) (of_Z 30)) all None
             (Tooltip.mk false 0 0 None) None) !! "CA"
  = Some (StateIntake.mk "CA" "Calif. (north)" 3 9 1 low 2 1).
Proof.
  apply (stateByCode_last_wins _
           [ StateIntake.mk "CA" "California" 45 50 5 active 40 5;
             StateIntake.mk "TX" "Texas" 38 40 4 active 35 3 ] []
           (StateIntake.mk "CA" "Calif. (north)" 3 9 1 low 2 1)).
  - reflexivity.
  - intros t Ht. by apply elem_of_nil in Ht.
Defined.

(** ** The tooltip protocol *)

(** The reference that [stateByCode] holds for a code is the position of
    the region object it holds. *)
Lemma stateRef_spec (l : list StateIntake.t) (c : string) :
  match foldl (λ m r, <[StateIntake.code r.2 := r.1]> m)
              (∅ : gmap string nat) (imap (λ i s, (i, s)) l) !! c with
  | Some i =>
      ∃ s, l !! i = Some s
           ∧ foldl (λ m s, <[StateIntake.code s := s]> m)
                   (∅ : gmap string StateIntake.t) l !! c = Some s
  | None =>
      foldl (λ m s, <[StateIntake.code s := s]> m)
            (∅ : gmap string StateIntake.t) l !! c = None
  end.
Proof.
  induction l as [|x l IH] using rev_ind;
    [cbn [imap foldl]; by rewrite !lookup_empty|].
  rewrite imap_app, !foldl_snoc. cbn [imap foldl fst snd].
  rewrite foldl_app. cbn [foldl fst snd].
  destruct (decide (StateIntake.code x = c)) as [Heq|Hne].
  - rewrite <- Heq, !lookup_insert_eq. exists x. split; [|reflexivity].
    rewrite lookup_app_r by lia. by rewrite Nat.add_0_r, Nat.sub_diag.
  - rewrite !lookup_insert_ne by done.
    destruct (foldl _ ∅ (imap _ l) !! c) as [i|]; [|exact IH].
    destruct IH as (s & Hi & Hs). exists s. split; [|exact Hs].
    by apply lookup_app_l_Some.
Qed.

(** X11. On a page whose region codes are unique, the pointer entering a
    shape whose code is that of a region opens the tooltip on that very
    region (the object of the list, so a later order shows in it); the
    position of the tooltip and the rest of the page are not touched. *)
Theorem handleStateEnter_known
    (st : Page.t) (target : Shape.t) (c : string) (s : StateIntake.t) :
  uniqueCodes st →
  shapeCode target = Some c →
  regionOf st c s →
  let st' := handleStateEnter (Some target) st in
  Tooltip.open (Page.tooltip st') = true
  ∧ (∃ i, Tooltip.state (Page.tooltip st') = Some i
          ∧ Page.mockStates st !! i = Some s)
  ∧ Tooltip.x (Page.tooltip st') = Tooltip.x (Page.tooltip st)
  ∧ Tooltip.y (Page.tooltip st') = Tooltip.y (Page.tooltip st)
  ∧ st' = Page.with_tooltip (Page.tooltip st') st.
Proof.
  intros Hnd Hc Hreg st'. unfold st', handleStateEnter. rewrite Hc.
  pose proof (stateRef_spec (Page.mockStates st) c) as Href.
  fold (stateRefByCode st) in Href. fold (stateByCode st) in Href.
  rewrite (stateByCode_regionOf st c s Hnd Hreg) in Href.
  destruct (stateRefByCode st !! c) as [i|]; [|discriminate].
  destruct Href as (s' & Hi & [= ->]).
  cbn [Page.tooltip Page.with_tooltip Tooltip.open Tooltip.state Tooltip.x
       Tooltip.y].
  split_and!; try reflexivity. by exists i.
Qed.

Lemma handleStateEnter_known_witness :
  Tooltip.open
    (Page.tooltip
       (handleStateEnter
          (Some (Samples.plainPath "FL" (Some (BBox.mk 700 400 60 90))))
          (Samples.mapPage all)))
  = true
  ∧ ∃ i, Page.mockStates (Samples.mapPage all) !! i
         = Some (StateIntake.mk "FL" "Florida" 22 30 3 low 20 2).
Proof.
  destruct (handleStateEnter_known (Samples.mapPage all)
              (Samples.plainPath "FL" (Some (BBox.mk 700 400 60 90))) "FL"
              (StateIntake.mk "FL" "Florida" 22 30 3 low 20 2))
    as (Hopen & (i & _ & Hs) & _).
  - by apply initialStates_uniqueCodes.
  - reflexivity.
  - split; [|reflexivity]. apply list_elem_of_In. simpl. tauto.
  - split; [exact Hopen|]. by exists i.
Defined.

(** X12. The pointer entering a shape that has no code, or whose code is
    the code of no region, changes nothing: it does not open the tooltip,
    and a tooltip open on a region stays on it. *)
Theorem handleStateEnter_unknown (st : Page.t) (target : Shape.t) :
  shapeCode target = None
  ∨ (∃ c, shapeCode target = Some c ∧ unknown st c) →
  handleStateEnter (Some target) st = st.
Proof.
  intros [Hc | (c & Hc & Hu)]; unfold handleStateEnter; rewrite Hc;
    [reflexivity|].
  pose proof (stateRef_spec (Page.mockStates st) c) as Href.
  fold (stateRefByCode st) in Href. fold (stateByCode st) in Href.
  apply stateByCode_None in Hu. rewrite Hu in Href.
  destruct (stateRefByCode st !! c) as [i|]; [|reflexivity].
  by destruct Href as (s' & _ & ?).
Qed.

Lemma handleStateEnter_unknown_witness :
  handleStateEnter (Some (Samples.plainPath "DC" (Some (BBox.mk 760 220 6 6))))
                   (Samples.mapPage all)
  = Samples.mapPage all.
Proof.
  apply (handleStateEnter_unknown (Samples.mapPage all)
           (Samples.plainPath "DC" (Some (BBox.mk 760 220 6 6)))).
  right. exists "DC". split; [reflexivity|].
  apply stateByCode_None. vm_compute. reflexivity.
Defined.

(** X13. Once the pointer has left a shape the tooltip is closed and bound
    to no region, and pointer moves neither reopen it nor move it, wherever
    the pointer goes. *)
Theorem handleStateLeave_then_moves (st : Page.t) (moves : list (Q * Q)) :
  let left := handleStateLeave st in
  Tooltip.open (Page.tooltip left) = false
  ∧ Tooltip.state (Page.tooltip left) = None
  ∧ foldl (λ page xy, handleMouseMove xy.1 xy.2 page) left moves = left.
Proof.
  intros left. split_and!; [reflexivity..|].
  induction moves as [|xy moves IH]; [reflexivity|].
  simpl. exact IH.
Qed.

(** ** The map load, whatever the source of the document *)

Section LoadOutcome.

Variable parseSvg : string → option (list Node).
Variable usSvgFallbackRaw : string.

(** X14. Whichever document [run] injects in a mounted container - the
    fetched one, the cached one or the bundled fallback - it is bound and
    colored: when the text gives an svg (without an element of the id of
    the label group), the listeners are attached, every element is painted
    in place and one label group follows them. When the text gives no svg,
    the container holds the text, and nothing is bound or painted. The
    data of the page is not touched. *)
Theorem run_binds_and_paints (r : FetchResult) (ls : LocalStorage.t)
    (st : Page.t) (root : MapRoot.t) :
  Page.mapRoot st = Some root →
  let doc := match fetchedText r with
             | Some svgText => svgText
             | None => cachedOrFallback usSvgFallbackRaw (tryGetItem ls)
             end in
  let st' := (run parseSvg usSvgFallbackRaw r ls st).1 in
  (∀ nodes, parseSvg doc = Some nodes →
            (∀ n, n ∈ nodes → ¬ isLabelGroup n) →
            Page.mapRoot st'
            = Some (MapRoot.mk (MapRoot.rect root) doc
                      (Some ((paintNode st (visibleSet st) <$> nodes)
                             ++ [GroupEl "state-labels" "none"
                                   (omap (labelFor st)
                                      (pathsOf (paintNode st (visibleSet st)
                                                  <$> nodes)))]))
                      true))
  ∧ (parseSvg doc = None →
     Page.mapRoot st' = Some (MapRoot.mk (MapRoot.rect root) doc None false))
  ∧ st' = Page.with_mapRoot (Page.mapRoot st') st.
Proof.
  intros Hr doc st'.
  assert (Hrun : st' = applyMapColors (bindSvgEvents (setInnerHTML parseSvg doc st))).
  { unfold st', run, doc. rewrite Hr. by destruct (fetchedText r). }
  assert (Hset : setInnerHTML parseSvg doc st
                 = Page.with_mapRoot
                     (Some (MapRoot.mk (MapRoot.rect root) doc (parseSvg doc)
                                       false)) st).
  { unfold setInnerHTML. by rewrite Hr. }
  rewrite Hrun, Hset. clear Hrun Hset. clearbody doc. split_and!.
  - intros nodes Hp Hfresh.
    unfold bindSvgEvents. cbn [Page.mapRoot Page.with_mapRoot MapRoot.svg].
    rewrite Hp. cbn [MapRoot.rect MapRoot.innerHTML].
    change (Page.with_mapRoot ?x (Page.with_mapRoot ?y st))
      with (Page.with_mapRoot x st).
    rewrite (applyMapColors_with st
               (MapRoot.mk (MapRoot.rect root) doc (Some nodes) true) nodes
               eq_refl).
    rewrite (removeLabels_id (paintNode st (visibleSet st) <$> nodes))
      by (by apply paintNode_no_labels).
    reflexivity.
  - intros Hp. unfold bindSvgEvents, applyMapColors.
    cbn [Page.mapRoot Page.with_mapRoot MapRoot.svg]. rewrite Hp.
    reflexivity.
  - unfold bindSvgEvents. cbn [Page.mapRoot Page.with_mapRoot MapRoot.svg].
    destruct (parseSvg doc) as [nodes|] eqn:Hp.
    + cbn [MapRoot.rect MapRoot.innerHTML].
      change (Page.with_mapRoot ?x (Page.with_mapRoot ?y st))
        with (Page.with_mapRoot x st).
      rewrite (applyMapColors_with st
                 (MapRoot.mk (MapRoot.rect root) doc (Some nodes) true) nodes
                 eq_refl).
      reflexivity.
    + reflexivity.
Qed.

End LoadOutcome.

Lemma run_binds_and_paints_witness :
  MapRoot.listening
    <$> Page.mapRoot
          (run Samples.parseSmall "<svg id='bundled'/>" Rejected
               (LocalStorage.mk None true true) Samples.mountedPage).1
  = Some true.
Proof.
  destruct (run_binds_and_paints Samples.parseSmall "<svg id='bundled'/>"
              Rejected (LocalStorage.mk None true true) Samples.mountedPage
              (MapRoot.mk (ClientRect.mk 10 80 960 520) "" None false)
              eq_refl) as (Hparsed & _).
  rewrite (Hparsed Samples.smallMap eq_refl); [reflexivity|].
  intros n Hn Hg. apply list_elem_of_In in Hn. unfold isLabelGroup in Hg.
  simpl in Hn. intuition (subst; discriminate).
Defined.

(** * The route-leave guard of the settings tabs *)

Section LeaveGuardFacts.

Context {M : Type}.
Variable isEditing : M → bool.
Variable isDirty : M → bool.
Variable cancelEditing : M → M.

Let World := LeaveGuard.World M.
Let onLeave := LeaveGuard.onBeforeRouteLeave M isEditing isDirty.
Let discard := LeaveGuard.handleConfirmDiscard M cancelEditing.
Let stay := LeaveGuard.handleStay M.

(** X15. A navigation away from a tab whose draft is being edited and is
    dirty is aborted, the dialog opens and the draft is left alone. If the
    user stays, the dialog closes, the draft is still as it was and the
    navigation is not resumed. If the user discards, the draft is
    cancelled, the dialog closes and the [next] of that navigation is
    called once; a further "discard" calls nothing more. *)
Theorem leave_blocked_then_resolved (nav : nat) (w : World) :
  isEditing (LeaveGuard.machine M w) = true →
  isDirty (LeaveGuard.machine M w) = true →
  let blocked := onLeave nav w in
  blocked
  = LeaveGuard.mkWorld M (LeaveGuard.mk true (Some nav))
      (LeaveGuard.machine M w)
      (LeaveGuard.calls M w ++ [(nav, LeaveGuard.Abort)])
  ∧ stay blocked
    = LeaveGuard.mkWorld M (LeaveGuard.mk false None)
        (LeaveGuard.machine M w)
        (LeaveGuard.calls M w ++ [(nav, LeaveGuard.Abort)])
  ∧ discard blocked
    = LeaveGuard.mkWorld M (LeaveGuard.mk false None)
        (cancelEditing (LeaveGuard.machine M w))
        (LeaveGuard.calls M w
         ++ [(nav, LeaveGuard.Abort); (nav, LeaveGuard.Proceed)])
  ∧ LeaveGuard.calls M (discard (discard blocked))
    = LeaveGuard.calls M (discard blocked).
Proof.
  intros He Hd blocked.
  assert (Hb : blocked
               = LeaveGuard.mkWorld M (LeaveGuard.mk true (Some nav))
                   (LeaveGuard.machine M w)
                   (LeaveGuard.calls M w ++ [(nav, LeaveGuard.Abort)])).
  { unfold blocked, onLeave, LeaveGuard.onBeforeRouteLeave.
    by rewrite He, Hd. }
  rewrite Hb. split_and!; try reflexivity.
  - unfold discard, LeaveGuard.handleConfirmDiscard. simpl.
    by rewrite <- app_assoc.
  - unfold discard, LeaveGuard.handleConfirmDiscard. simpl.
    by rewrite app_nil_r.
Qed.

(** The guard answers a navigation that it does not block at once, and
    touches neither its refs nor the draft. *)
Lemma leave_clean (nav : nat) (w : World) :
  isEditing (LeaveGuard.machine M w) && isDirty (LeaveGuard.machine M w)
  = false →
  onLeave nav w
  = LeaveGuard.mkWorld M (LeaveGuard.guard M w) (LeaveGuard.machine M w)
      (LeaveGuard.calls M w ++ [(nav, LeaveGuard.Proceed)]).
Proof.
  intros H. unfold onLeave, LeaveGuard.onBeforeRouteLeave. by rewrite H.
Qed.

End LeaveGuardFacts.

Lemma leave_blocked_then_resolved_witness :
  LeaveGuard.calls AttorneyProfile.t
    (LeaveGuard.handleConfirmDiscard AttorneyProfile.t
       AttorneyProfile.cancelEditing
       (LeaveGuard.onBeforeRouteLeave AttorneyProfile.t
          AttorneyProfile.isEditing AttorneyProfile.isDirty 7
          (LeaveGuard.mkWorld AttorneyProfile.t (LeaveGuard.mk false None)
             Samples.dirtyMachine [])))
  = [(7%nat, LeaveGuard.Abort); (7%nat, LeaveGuard.Proceed)].
Proof.
  destruct (leave_blocked_then_resolved AttorneyProfile.isEditing
              AttorneyProfile.isDirty AttorneyProfile.cancelEditing 7
              (LeaveGuard.mkWorld AttorneyProfile.t (LeaveGuard.mk false None)
                 Samples.dirtyMachine []))
    as (_ & _ & Hdiscard & _).
  - reflexivity.
  - vm_compute. reflexivity.
  - rewrite Hdiscard. reflexivity.
Defined.

Section LeaveGuardTraces.

Context {M : Type}.
Variable isEditing : M → bool.
Variable isDirty : M → bool.
Variable cancelEditing : M → M.

Let inv := LeaveGuard.invariant M.
Let step := LeaveGuard.step M isEditing isDirty cancelEditing.

Lemma filter_proceed_snoc_abort (l : list (nat * LeaveGuard.NextCall)) (n : nat) :
  filter (λ c, c.2 = LeaveGuard.Proceed) (l ++ [(n, LeaveGuard.Abort)])
  = filter (λ c, c.2 = LeaveGuard.Proceed) l.
Proof. rewrite filter_app. simpl. by rewrite app_nil_r. Qed.

Lemma filter_proceed_snoc (l : list (nat * LeaveGuard.NextCall)) (n : nat) :
  filter (λ c, c.2 = LeaveGuard.Proceed) (l ++ [(n, LeaveGuard.Proceed)])
  = filter (λ c, c.2 = LeaveGuard.Proceed) l ++ [(n, LeaveGuard.Proceed)].
Proof. by rewrite filter_app. Qed.

Lemma NoDup_snoc_fresh (l : list (nat * LeaveGuard.NextCall))
    (x : nat * LeaveGuard.NextCall) :
  NoDup l → x ∉ l → NoDup (l ++ [x]).
Proof.
  intros Hnd Hx. apply NoDup_app. split_and!; [done| |apply NoDup_singleton].
  intros y Hy ->%list_elem_of_singleton. by apply Hx.
Qed.

Lemma invariant_step (seen : list nat) (w : LeaveGuard.World M)
    (e : LeaveGuard.Event) :
  inv seen w →
  (∀ nav, e = LeaveGuard.Leave nav → nav ∉ seen) →
  inv (seen ++ LeaveGuard.attempts [e]) (step w e).
Proof.
  intros (Hcalls & Hpend & Hnd) Hfresh.
  destruct e as [nav| |]; cbn [LeaveGuard.attempts omap list_omap].
  - specialize (Hfresh nav eq_refl). unfold step, LeaveGuard.step,
      LeaveGuard.onBeforeRouteLeave.
    destruct (isEditing _ && isDirty _); split_and!; simpl.
    + intros n c [Hin | Hin%list_elem_of_singleton]%elem_of_app;
        apply elem_of_app; [left; by eapply Hcalls|right].
      injection Hin as -> _. by apply list_elem_of_singleton.
    + intros n [= <-]. split; [apply elem_of_app; right;
                                by apply list_elem_of_singleton|].
      intros [Hin | Hin%list_elem_of_singleton]%elem_of_app; [|done].
      apply Hfresh. by eapply Hcalls.
    + by rewrite filter_proceed_snoc_abort.
    + intros n c [Hin | Hin%list_elem_of_singleton]%elem_of_app;
        apply elem_of_app; [left; by eapply Hcalls|right].
      injection Hin as -> _. by apply list_elem_of_singleton.
    + intros n Hn. destruct (Hpend n Hn) as [Hs Hp]. split.
      * apply elem_of_app. by left.
      * intros [Hin | Hin%list_elem_of_singleton]%elem_of_app; [done|].
        injection Hin as ->. by apply Hfresh.
    + rewrite filter_proceed_snoc. apply NoDup_snoc_fresh; [done|].
      intros [_ Hin]%list_elem_of_filter. apply Hfresh. by eapply Hcalls.
  - rewrite app_nil_r. unfold step, LeaveGuard.step,
      LeaveGuard.handleConfirmDiscard.
    destruct (LeaveGuard.pendingNav (LeaveGuard.guard M w)) as [n|] eqn:Hn;
      split_and!; simpl.
    + destruct (Hpend n eq_refl) as [Hs _].
      intros k c [Hin | Hin%list_elem_of_singleton]%elem_of_app;
        [by eapply Hcalls|]. by injection Hin as -> _.
    + done.
    + destruct (Hpend n eq_refl) as [_ Hp].
      rewrite filter_proceed_snoc. apply NoDup_snoc_fresh; [done|].
      by intros [_ Hin]%list_elem_of_filter.
    + intros k c Hin. rewrite app_nil_r in Hin. by eapply Hcalls.
    + done.
    + by rewrite app_nil_r.
  - rewrite app_nil_r. unfold step, LeaveGuard.step, LeaveGuard.handleStay.
    split_and!; simpl; [exact Hcalls|done|exact Hnd].
Qed.

Lemma attempts_cons (e : LeaveGuard.Event) (events : list LeaveGuard.Event) :
  LeaveGuard.attempts (e :: events)
  = LeaveGuard.attempts [e] ++ LeaveGuard.attempts events.
Proof. unfold LeaveGuard.attempts. by destruct e. Qed.

Lemma invariant_run (events : list LeaveGuard.Event) (seen : list nat)
    (w : LeaveGuard.World M) :
  inv seen w → NoDup (seen ++ LeaveGuard.attempts events) →
  inv (seen ++ LeaveGuard.attempts events)
      (LeaveGuard.runEvents M isEditing isDirty cancelEditing events w).
Proof.
  revert seen w. induction events as [|e events IH]; intros seen w Hinv Hnd.
  - unfold LeaveGuard.attempts. simpl. by rewrite app_nil_r.
  - rewrite attempts_cons in *. rewrite app_assoc in *.
    simpl. apply IH; [|done].
    apply invariant_step; [done|].
    intros nav -> Hin. apply NoDup_app in Hnd as (Hnd & _ & _).
    apply NoDup_app in Hnd as (_ & Hd & _).
    apply (Hd nav Hin). simpl. by apply list_elem_of_singleton.
Qed.

(** X16. Whatever the router and the user do, in any order, each
    navigation asked about once: the guard calls [next] only for
    navigations it was asked about, and it never lets the same navigation
    through twice (a navigation let through at once is not resumed by a
    later "discard", and a blocked one is resumed by one "discard" at
    most). *)
Theorem leave_guard_never_twice (events : list LeaveGuard.Event) (m : M) :
  NoDup (LeaveGuard.attempts events) →
  let w := LeaveGuard.runEvents M isEditing isDirty cancelEditing events
             (LeaveGuard.mkWorld M (LeaveGuard.mk false None) m []) in
  (∀ n c, (n, c) ∈ LeaveGuard.calls M w → n ∈ LeaveGuard.attempts events)
  ∧ NoDup (filter (λ c, c.2 = LeaveGuard.Proceed) (LeaveGuard.calls M w)).
Proof.
  intros Hnd w.
  destruct (invariant_run events []
              (LeaveGuard.mkWorld M (LeaveGuard.mk false None) m []))
    as (Hcalls & _ & Hnodup).
  - split_and!; simpl.
    + intros n c Hin. by apply elem_of_nil in Hin.
    + done.
    + apply NoDup_nil_2.
  - exact Hnd.
  - split; [exact Hcalls|exact Hnodup].
Qed.

End LeaveGuardTraces.

Lemma leave_guard_never_twice_witness :
  LeaveGuard.calls AttorneyProfile.t
    (LeaveGuard.runEvents AttorneyProfile.t AttorneyProfile.isEditing
       AttorneyProfile.isDirty AttorneyProfile.cancelEditing
       [LeaveGuard.Leave 1; LeaveGuard.Stay; LeaveGuard.Leave 2;
        LeaveGuard.Discard; LeaveGuard.Discard; LeaveGuard.Leave 3]
       (LeaveGuard.mkWorld AttorneyProfile.t (LeaveGuard.mk false None)
          Samples.dirtyMachine []))
  = [(1%nat, LeaveGuard.Abort); (2%nat, LeaveGuard.Abort);
     (2%nat, LeaveGuard.Proceed); (3%nat, LeaveGuard.Proceed)]
  ∧ NoDup
      (filter (λ c, c.2 = LeaveGuard.Proceed)
         (LeaveGuard.calls AttorneyProfile.t
            (LeaveGuard.runEvents AttorneyProfile.t AttorneyProfile.isEditing
               AttorneyProfile.isDirty AttorneyProfile.cancelEditing
               [LeaveGuard.Leave 1; LeaveGuard.Stay; LeaveGuard.Leave 2;
                LeaveGuard.Discard; LeaveGuard.Discard; LeaveGuard.Leave 3]
               (LeaveGuard.mkWorld AttorneyProfile.t (LeaveGuard.mk false None)
                  Samples.dirtyMachine [])))).
Proof.
  split; [vm_compute; reflexivity|].
  apply (leave_guard_never_twice AttorneyProfile.isEditing
           AttorneyProfile.isDirty AttorneyProfile.cancelEditing
           [LeaveGuard.Leave 1; LeaveGuard.Stay; LeaveGuard.Leave 2;
            LeaveGuard.Discard; LeaveGuard.Discard; LeaveGuard.Leave 3]
           Samples.dirtyMachine).
  apply (bool_decide_unpack _). vm_compute. exact I.
Defined.

(** X17. A submit of a settings tab without a signed-in user does nothing
    at all. With a user, it ends with the saving flag down and exactly one
    more toast after those already shown: the success toast of the tab when
    the commit went through, and otherwise an error toast that carries the
    message of the error thrown, "Unable to update profile" when what was
    thrown is not an [Error]. *)
Theorem onSubmit_reports
    (fieldList : list string) (description : string) (remoteOk : bool)
    (err : SettingsTab.Thrown) (userId : string) (tab : SettingsTab.t)
    (m : AttorneyProfile.t) (b : Backend) :
  let out := SettingsTab.onSubmit fieldList description remoteOk err userId
                                  tab m b in
  let commit := commitEditing remoteOk userId fieldList m b in
  (userId = "" → out = (tab, m, b))
  ∧ (userId ≠ "" →
     SettingsTab.saving out.1.1 = false
     ∧ SettingsTab.toasts out.1.1
       = SettingsTab.toasts tab
         ++ [if commit.2
             then Toast.mk "Success" description "i-lucide-check" "success"
             else Toast.mk "Error"
                           match err with
                           | SettingsTab.ErrorObject message => message
                           | SettingsTab.OtherThrown =>
                               "Unable to update profile"
                           end
                           "i-lucide-x" "error"]
     ∧ out.1.2 = commit.1.1 ∧ out.2 = commit.1.2).
Proof.
  intros out commit. unfold out, SettingsTab.onSubmit. split.
  - by intros ->.
  - intros Hu%truthy_true_iff. rewrite Hu. cbn [negb].
    fold commit. by destruct commit as [[m' b'] [|]].
Qed.

Lemma onSubmit_reports_witness :
  SettingsTab.toasts
    (CapacityTab.onSubmit false SettingsTab.OtherThrown "user-1"
       (SettingsTab.mk true []) Samples.dirtyMachine Samples.oneOwner).1.1
  = [Toast.mk "Error" "Unable to update profile" "i-lucide-x" "error"]
  ∧ SettingsTab.toasts
      (CapacityTab.onSubmit false (SettingsTab.ErrorObject "Network down")
         "user-1" (SettingsTab.mk true []) Samples.dirtyMachine
         Samples.oneOwner).1.1
    = [Toast.mk "Error" "Network down" "i-lucide-x" "error"].
Proof.
  split.
  - destruct (onSubmit_reports CapacityTab.fieldList
                "Your capacity and performance settings have been updated."
                false SettingsTab.OtherThrown "user-1"
                (SettingsTab.mk true []) Samples.dirtyMachine Samples.oneOwner)
      as [_ Hsigned].
    destruct Hsigned as (_ & Htoasts & _); [discriminate|].
    unfold CapacityTab.onSubmit. rewrite Htoasts. reflexivity.
  - destruct (onSubmit_reports CapacityTab.fieldList
                "Your capacity and performance settings have been updated."
                false (SettingsTab.ErrorObject "Network down") "user-1"
                (SettingsTab.mk true []) Samples.dirtyMachine Samples.oneOwner)
      as [_ Hsigned].
    destruct Hsigned as (_ & Htoasts & _); [discriminate|].
    unfold CapacityTab.onSubmit. rewrite Htoasts. reflexivity.
Defined.

(** * The fulfillment board *)

Import Fulfillment.

Lemma stage_partition (l : list FulfillmentOrder.t) :
  (length (List.filter
             (λ o, bool_decide (FulfillmentOrder.stage o = returned_back)) l)
   + length (List.filter
               (λ o, bool_decide (FulfillmentOrder.stage o = dropped_retainers))
               l)
   + length (List.filter
               (λ o, bool_decide (FulfillmentOrder.stage o = signed_retainers))
               l)
   = length l)%nat.
Proof.
  induction l as [|o l IH]; [reflexivity|].
  simpl. destruct (FulfillmentOrder.stage o); simpl; lia.
Qed.

(** The pushes of [ordersByStage], from a map that has an array for every
    stage. *)
Lemma grouping_pushes (l : list FulfillmentOrder.t)
    (g : gmap StageKey (list FulfillmentOrder.t))
    (G : StageKey → list FulfillmentOrder.t) :
  (∀ k, g !! k = Some (G k)) →
  ∀ k, foldl (λ g o,
                match g !! FulfillmentOrder.stage o with
                | Some arr => <[FulfillmentOrder.stage o := arr ++ [o]]> g
                | None => g
                end) g l !! k
       = Some (G k ++ List.filter
                        (λ o, bool_decide (FulfillmentOrder.stage o = k)) l).
Proof.
  revert g G. induction l as [|o l IH]; intros g G Hg k; simpl.
  - by rewrite app_nil_r.
  - rewrite Hg.
    rewrite (IH _ (λ k', if decide (FulfillmentOrder.stage o = k')
                         then G k' ++ [o] else G k')).
    + destruct (decide (FulfillmentOrder.stage o = k)) as [Heq|Hne].
      * rewrite bool_decide_eq_true_2 by done. by rewrite <- app_assoc.
      * by rewrite bool_decide_eq_false_2.
    + intros k'. destruct (decide (FulfillmentOrder.stage o = k')) as [<-|Hne].
      * by rewrite lookup_insert_eq.
      * by rewrite lookup_insert_ne.
Qed.

(** X18. [ordersByStage] has a column for each of the three stages, also
    when no order is in it; the column of a stage holds exactly the
    filtered orders of that stage, in the order of the filtered list, so
    the sizes of the three columns add up to the number of filtered
    orders. *)
Theorem ordersByStage_groups (pg : Fulfillment.t) :
  (∀ k, ordersByStage pg !! k
        = Some (List.filter (λ o, bool_decide (FulfillmentOrder.stage o = k))
                            (filteredOrders pg)))
  ∧ (length (default [] (ordersByStage pg !! returned_back))
     + length (default [] (ordersByStage pg !! dropped_retainers))
     + length (default [] (ordersByStage pg !! signed_retainers))
     = length (filteredOrders pg))%nat.
Proof.
  assert (H : ∀ k, ordersByStage pg !! k
                   = Some (List.filter
                             (λ o, bool_decide (FulfillmentOrder.stage o = k))
                             (filteredOrders pg))).
  { intros k. unfold ordersByStage.
    rewrite (grouping_pushes _ _ (λ _, [])); [reflexivity|].
    intros k'. by destruct k'. }
  split; [exact H|]. rewrite !H. simpl. apply stage_partition.
Qed.

(** X19. The three counts of the cards of the board, signed, dropped and
    returned, add up to the total number of orders. *)
Theorem stage_counts_add_up (pg : Fulfillment.t) :
  (returnedCount pg + droppedCount pg + signedCount pg = totalOrders pg)%nat.
Proof. apply stage_partition. Qed.

(** ** Letter case and blanks *)

Lemma upperChar_cases (c : ascii) :
  upperChar c = c ∨ (isLetter c = true ∧ isLetter (upperChar c) = true).
Proof.
  destruct c as [[] [] [] [] [] [] [] []];
    first [left; reflexivity | right; split; reflexivity].
Qed.

(** A byte that is no letter is met after the mapping where it was met
    before. *)
Lemma eqb_upperChar (a c : ascii) :
  isLetter a = false → Ascii.eqb a (upperChar c) = Ascii.eqb a c.
Proof.
  intros Ha. destruct (upperChar_cases c) as [-> | [Hc Hu]]; [reflexivity|].
  transitivity false; [|symmetry]; apply Ascii.eqb_neq; intros ->; congruence.
Qed.

Lemma lowerChar_upperChar (c : ascii) : lowerChar (upperChar c) = lowerChar c.
Proof. destruct c as [[] [] [] [] [] [] [] []]; reflexivity. Qed.

Lemma toLowerCase_toUpperCase (s : string) :
  toLowerCase (toUpperCase s) = toLowerCase s.
Proof.
  induction s as [|c s IH]; [reflexivity|].
  simpl. by rewrite lowerChar_upperChar, IH.
Qed.

Lemma toUpperCase_bytes (s : string) :
  list_ascii_of_string (toUpperCase s)
  = List.map upperChar (list_ascii_of_string s).
Proof. induction s as [|c s IH]; [reflexivity|]. simpl. by rewrite IH. Qed.

Lemma toUpperCase_of_bytes (l : list ascii) :
  toUpperCase (string_of_list_ascii l)
  = string_of_list_ascii (List.map upperChar l).
Proof. induction l as [|c l IH]; [reflexivity|]. simpl. by rewrite IH. Qed.

Lemma stripPrefix_upperChar (w s : list ascii) :
  Forall (λ a, isLetter a = false) w →
  stripPrefix w (List.map upperChar s)
  = option_map (List.map upperChar) (stripPrefix w s).
Proof.
  intros Hw. revert s. induction Hw as [|a w Ha Hw IH]; intros s;
    [reflexivity|].
  destruct s as [|c s]; [reflexivity|]. simpl.
  rewrite (eqb_upperChar a c Ha). destruct (Ascii.eqb a c); [apply IH|reflexivity].
Qed.

Lemma skipOne_upperChar (ws : list (list ascii)) (s : list ascii) :
  Forall (Forall (λ a, isLetter a = false)) ws →
  skipOne ws (List.map upperChar s)
  = option_map (List.map upperChar) (skipOne ws s).
Proof.
  intros Hws. induction Hws as [|w ws Hw Hws IH]; [reflexivity|].
  simpl. rewrite (stripPrefix_upperChar w s Hw).
  destruct (stripPrefix w s); [reflexivity|exact IH].
Qed.

Lemma skipAll_upperChar (ws : list (list ascii)) (n : nat) (s : list ascii) :
  Forall (Forall (λ a, isLetter a = false)) ws →
  skipAll ws n (List.map upperChar s) = List.map upperChar (skipAll ws n s).
Proof.
  intros Hws. revert s. induction n as [|n IH]; intros s; [reflexivity|].
  simpl. rewrite (skipOne_upperChar ws s Hws).
  destruct (skipOne ws s) as [rest|]; [apply IH|reflexivity].
Qed.

(** No byte of a blank is a letter. *)
Lemma whiteSpace_no_letter :
  Forall (Forall (λ a, isLetter a = false)) whiteSpace
  ∧ Forall (Forall (λ a, isLetter a = false))
           (List.map (@List.rev ascii) whiteSpace).
Proof. split; repeat constructor. Qed.

Lemma trimStart_toUpperCase (s : string) :
  trimStart (toUpperCase s) = toUpperCase (trimStart s).
Proof.
  unfold trimStart. cbv zeta.
  rewrite toUpperCase_bytes, List.length_map, toUpperCase_of_bytes.
  by rewrite (skipAll_upperChar _ _ _ (proj1 whiteSpace_no_letter)).
Qed.

Lemma trimEnd_toUpperCase (s : string) :
  trimEnd (toUpperCase s) = toUpperCase (trimEnd s).
Proof.
  unfold trimEnd. cbv zeta.
  rewrite toUpperCase_bytes, <- List.map_rev, List.length_map,
    toUpperCase_of_bytes.
  by rewrite (skipAll_upperChar _ _ _ (proj2 whiteSpace_no_letter)),
    List.map_rev.
Qed.

Lemma trim_toUpperCase (s : string) : trim (toUpperCase s) = toUpperCase (trim s).
Proof. unfold trim. by rewrite trimStart_toUpperCase, trimEnd_toUpperCase. Qed.

(** The fuel of [trimStart] and [trimEnd] is enough: what they return
    starts with no blank. *)
Lemma stripPrefix_length (w s rest : list ascii) :
  stripPrefix w s = Some rest →
  (List.length rest + List.length w = List.length s)%nat.
Proof.
  revert s. induction w as [|a w IH]; intros s H.
  - injection H as <-. simpl. lia.
  - destruct s as [|b s]; [discriminate|]. simpl in H.
    destruct (Ascii.eqb a b); [|discriminate]. apply IH in H. simpl. lia.
Qed.

Lemma skipOne_shorter (ws : list (list ascii)) (s rest : list ascii) :
  Forall (λ w, w ≠ []) ws → skipOne ws s = Some rest →
  (List.length rest < List.length s)%nat.
Proof.
  intros Hws. induction Hws as [|w ws Hw Hws IH]; [discriminate|].
  simpl. destruct (stripPrefix w s) as [r|] eqn:E; [|exact IH].
  intros [= <-]. apply stripPrefix_length in E.
  destruct w; [done|]. simpl in E. lia.
Qed.

Lemma skipAll_enough (ws : list (list ascii)) (n : nat) (s : list ascii) :
  Forall (λ w, w ≠ []) ws → (List.length s ≤ n)%nat →
  skipOne ws (skipAll ws n s) = None.
Proof.
  intros Hws. revert s. induction n as [|n IH]; intros s Hn.
  - destruct s; [|simpl in Hn; lia]. simpl.
    clear Hn. induction Hws as [|w ws Hw Hws IH]; [reflexivity|].
    simpl. destruct w; [done|]. exact IH.
  - simpl. destruct (skipOne ws s) as [rest|] eqn:E; [|exact E].
    apply IH. apply (skipOne_shorter ws s rest Hws) in E. lia.
Qed.

Lemma trimStart_no_blank (s : string) :
  skipOne whiteSpace (list_ascii_of_string (trimStart s)) = None.
Proof.
  unfold trimStart. cbv zeta. rewrite list_ascii_of_string_of_list_ascii.
  apply skipAll_enough; [|lia]. repeat constructor; discriminate.
Qed.

(** The query that the search boxes compare with: trimmed, in lower case;
    the case of what is typed does not count. *)
Lemma search_key_upper (q : string) :
  toLowerCase (trim (toUpperCase q)) = toLowerCase (trim q).
Proof. by rewrite trim_toUpperCase, toLowerCase_toUpperCase. Qed.

Lemma toLowerCase_truthy (s : string) : truthy (toLowerCase s) = truthy s.
Proof. by destruct s. Qed.

(** X20. The list of the board, on ASCII text (the query and the texts of
    the orders): typing the query in upper case gives the same orders as
    typing it in any other case. On any text: with a query that is blank
    once trimmed the list is the orders of the selected stage, all the
    orders under "all"; and under a stage filter every order listed is in
    that stage, whatever the query. *)
Theorem filteredOrders_query (pg : Fulfillment.t) :
  (isAscii (query pg) = true → Forall asciiOrder (mockOrders pg) →
   filteredOrders
     (Fulfillment.mk (loading pg) (toUpperCase (query pg)) (selectedStage pg)
                     (mockOrders pg))
   = filteredOrders pg)
  ∧ (trim (query pg) = "" →
     filteredOrders pg
     = match selectedStage pg with
       | allStages => mockOrders pg
       | onlyStage k =>
           List.filter (λ o, bool_decide (FulfillmentOrder.stage o = k))
                       (mockOrders pg)
       end)
  ∧ (∀ k o, selectedStage pg = onlyStage k → In o (filteredOrders pg) →
            FulfillmentOrder.stage o = k).
Proof.
  split_and!.
  - intros _ _. unfold filteredOrders. cbn [query selectedStage mockOrders].
    by rewrite search_key_upper.
  - intros Hq. unfold filteredOrders. rewrite Hq. cbn [toLowerCase].
    destruct (selectedStage pg) as [|k].
    + induction (mockOrders pg) as [|o l IH]; [reflexivity|].
      simpl. by rewrite IH.
    + apply List.filter_ext. intros o. unfold keeps. cbn [truthy negb].
      by destruct (bool_decide _).
  - intros k o Hsel [_ Hk]%List.filter_In. unfold keeps in Hk.
    rewrite Hsel in Hk.
    destruct (bool_decide (FulfillmentOrder.stage o = k)) eqn:E;
      [by apply bool_decide_eq_true in E|discriminate].
Qed.

Lemma filteredOrders_query_witness :
  filteredOrders
    (Fulfillment.mk false "ADA" (onlyStage signed_retainers)
                    (mockOrders Samples.fulfillmentBoard))
  = filteredOrders Samples.fulfillmentBoard
  ∧ FulfillmentOrder.id <$> filteredOrders Samples.fulfillmentBoard = ["F-1"].
Proof.
  split; [|reflexivity].
  destruct (filteredOrders_query Samples.fulfillmentBoard) as [Hcase _].
  apply Hcase; [reflexivity|].
  repeat constructor.
Defined.

(** * The retainers page *)





Lemma startsWith_app (q b : string) : startsWith (q +:+ b) q = true.
Proof.
  induction q as [|c q IH]; [by destruct b|].
  simpl. by rewrite Ascii.eqb_refl, IH.
Qed.

Lemma includes_startsWith (s q : string) :
  startsWith s q = true → includes s q = true.
Proof. intros H. destruct s; cbn [includes]; by rewrite H. Qed.

Lemma includes_app (a q b : string) : includes (a +:+ q +:+ b) q = true.
Proof.
  induction a as [|c a IH].
  - change ("" +:+ q +:+ b) with (q +:+ b).
    apply includes_startsWith, startsWith_app.
  - change (String c a +:+ q +:+ b) with (String c (a +:+ q +:+ b)).
    cbn [includes]. rewrite IH. apply orb_true_r.
Qed.

Lemma toLowerCase_app (a b : string) :
  toLowerCase (a +:+ b) = toLowerCase a +:+ toLowerCase b.
Proof. induction a as [|c a IH]; [reflexivity|]. simpl. by rewrite IH. Qed.

(** X22. The color of a status in ASCII does not depend on the case of
    its letters. For any status, "pending" comes first: a status in which
    the word pending occurs, in any case of its seven letters and among any
    other words (approved, rejected, ...), is shown as a warning. A null or
    empty status is neutral. *)
Theorem statusColor_pending_first (v : string) :
  (isAscii v = true →
   Retainers.statusColor (Some (toUpperCase v))
   = Retainers.statusColor (Some v))
  ∧ (∀ a w b, toLowerCase w = "pending" → v = a +:+ w +:+ b →
              Retainers.statusColor (Some v) = "warning")
  ∧ Retainers.statusColor None = "neutral"
  ∧ Retainers.statusColor (Some "") = "neutral".
Proof.
  split_and!; [| |reflexivity..].
  - intros _. unfold Retainers.statusColor.
    change (Retainers.orEmpty (Some (toUpperCase v))) with (toUpperCase v).
    change (Retainers.orEmpty (Some v)) with v.
    by rewrite toLowerCase_toUpperCase.
  - intros a w b Hw ->. unfold Retainers.statusColor.
    change (Retainers.orEmpty (Some (a +:+ w +:+ b))) with (a +:+ w +:+ b).
    rewrite !toLowerCase_app, Hw.
    by rewrite includes_app.
Qed.

Lemma statusColor_pending_first_witness :
  Retainers.statusColor (Some "PENDING APPROVAL")
  = Retainers.statusColor (Some "Pending Approval")
  ∧ Retainers.statusColor (Some "Pending Approval") = "warning".
Proof.
  destruct (statusColor_pending_first "Pending Approval") as (Hcase & Hfirst & _).
  split.
  - apply Hcase. reflexivity.
  - apply (Hfirst "" "Pending" " Approval"); reflexivity.
Defined.

(** X23. The search of the retainers page, on ASCII text (the query and
    the texts of the rows): typing the query in upper case gives the same
    rows as typing it in any other case. On any text: a query that is blank
    once trimmed gives all the rows; and every row listed is one of the
    rows loaded. *)
Theorem filteredRows_query (query : string) (rows : list Retainers.DailyDealFlow.t) :
  (isAscii query = true → Forall asciiRow rows →
   Retainers.filteredRows (toUpperCase query) rows
   = Retainers.filteredRows query rows)
  ∧ (trim query = "" → Retainers.filteredRows query rows = rows)
  ∧ (∀ r, In r (Retainers.filteredRows query rows) → In r rows).
Proof.
  unfold Retainers.filteredRows. split_and!.
  - intros _ _. by rewrite search_key_upper.
  - by intros ->.
  - intros r. destruct (negb (truthy _)); [done|].
    by intros [Hin _]%List.filter_In.
Qed.

Lemma filteredRows_query_witness :
  Retainers.filteredRows " NORTH " [Samples.leadOfAda; Samples.leadOfBen]
  = Retainers.filteredRows " north " [Samples.leadOfAda; Samples.leadOfBen]
  ∧ Retainers.filteredRows " north " [Samples.leadOfAda; Samples.leadOfBen]
    = [Samples.leadOfAda].
Proof.
  split; [|reflexivity].
  destruct (filteredRows_query " north " [Samples.leadOfAda; Samples.leadOfBen])
    as [Hcase _].
  apply Hcase; [reflexivity|]. repeat constructor.
Defined.

(** X24. [load] always ends with the loading flag down and with the
    search text as it was. When [auth.init()] rejects or the query answers
    with an error, the rows shown before are kept and the error is the
    message of the failure, "Failed to load retainers" when what was thrown
    is not an [Error]; otherwise the error is cleared and the rows are the
    data of the query, none when the data is null. *)
Theorem load_outcome
    (initThrows : option Retainers.Thrown) (auth : Retainers.AuthState.t)
    (db : Retainers.Supabase.t) (pg : Retainers.t) :
  let pg' := Retainers.load initThrows auth db pg in
  let answer :=
    Retainers.Supabase.dailyDealFlow db (Retainers.filtersFor auth db) in
  Retainers.loading pg' = false
  ∧ Retainers.query pg' = Retainers.query pg
  ∧ (∀ e, initThrows = Some e ∨ (initThrows = None ∧ answer.2 = Some e) →
          Retainers.rows pg' = Retainers.rows pg
          ∧ Retainers.error pg'
            = Some (match e with
                    | Retainers.ErrorObject message => message
                    | Retainers.OtherThrown => "Failed to load retainers"
                    end))
  ∧ (initThrows = None → answer.2 = None →
     Retainers.error pg' = None
     ∧ Retainers.rows pg' = default [] answer.1).
Proof.
  intros pg' answer. unfold pg', Retainers.load. fold answer.
  destruct initThrows as [e0|].
  - split_and!; try reflexivity.
    + intros e [[= <-] | [? _]]; [|discriminate]. by destruct e0.
    + discriminate.
  - destruct answer as [data [e1|]]; split_and!; try reflexivity.
    + intros e [? | [_ [= <-]]]; [discriminate|]. by destruct e1.
    + discriminate.
    + intros e [? | [_ ?]]; discriminate.
    + done.
Qed.

(** X25. A lawyer who is signed in is shown the leads assigned to that
    lawyer and no others: the query carries the one filter
    assigned_attorney_id = the user id, and the rows are its data. *)
Theorem load_lawyer_scope
    (auth : Retainers.AuthState.t) (db : Retainers.Supabase.t)
    (pg : Retainers.t) (id : string) (data : list Retainers.DailyDealFlow.t) :
  Retainers.AuthState.role auth = Some "lawyer" →
  Retainers.AuthState.userId auth = Some id → id ≠ "" →
  Retainers.Supabase.dailyDealFlow db [("assigned_attorney_id", id)]
  = (Some data, None) →
  Retainers.filtersFor auth db = [("assigned_attorney_id", id)]
  ∧ Retainers.rows (Retainers.load None auth db pg) = data
  ∧ Retainers.error (Retainers.load None auth db pg) = None.
Proof.
  intros Hrole Hid Hne%truthy_true_iff Hq.
  assert (Hf : Retainers.filtersFor auth db = [("assigned_attorney_id", id)]).
  { unfold Retainers.filtersFor. rewrite Hrole, Hid.
    rewrite bool_decide_eq_true_2 by done.
    cbn [Retainers.truthyOpt andb]. by rewrite Hne. }
  split; [exact Hf|]. unfold Retainers.load. by rewrite Hf, Hq.
Qed.

Lemma load_lawyer_scope_witness :
  Retainers.rows
    (Retainers.load None
       (Retainers.AuthState.mk (Some "user-1") (Some "lawyer"))
       Samples.retainersDb (Retainers.mk false None "" []))
  = [Samples.leadOfAda].
Proof.
  destruct (load_lawyer_scope
              (Retainers.AuthState.mk (Some "user-1") (Some "lawyer"))
              Samples.retainersDb (Retainers.mk false None "" []) "user-1"
              [Samples.leadOfAda])
    as (_ & Hrows & _).
  - reflexivity.
  - reflexivity.
  - discriminate.
  - reflexivity.
  - exact Hrows.
Defined.

(** X26. Only two cases narrow the query. A user with a role other than
    lawyer (admin, agent, ...), and also a lawyer whose user id is
    missing, gets the query without any filter. A user without a role gets
    the filter on the lead vendor of the user's center, when the row of
    the user names a center and the row of that center names a vendor, and
    no filter when the center or its vendor is not found. The filter on the
    assigned attorney is put for a signed-in lawyer only. *)
Theorem filtersFor_narrowing
    (auth : Retainers.AuthState.t) (db : Retainers.Supabase.t) :
  (Retainers.truthyOpt (Retainers.AuthState.role auth) = true →
   Retainers.AuthState.role auth ≠ Some "lawyer"
   ∨ Retainers.truthyOpt (Retainers.AuthState.userId auth) = false →
   Retainers.filtersFor auth db = [])
  ∧ (Retainers.truthyOpt (Retainers.AuthState.role auth) = false →
     (∀ center vendor,
        Retainers.Supabase.appUsers db (centerKey auth) = Some (Some center) →
        center ≠ "" →
        Retainers.Supabase.centers db center = Some (Some vendor) →
        vendor ≠ "" →
        Retainers.filtersFor auth db = [("lead_vendor", vendor)])
     ∧ ((¬ ∃ center vendor,
           Retainers.Supabase.appUsers db (centerKey auth)
           = Some (Some center)
           ∧ center ≠ ""
           ∧ Retainers.Supabase.centers db center = Some (Some vendor)
           ∧ vendor ≠ "") →
        Retainers.filtersFor auth db = []))
  ∧ (∀ column value, (column, value) ∈ Retainers.filtersFor auth db →
       column = "assigned_attorney_id" →
       Retainers.AuthState.role auth = Some "lawyer"
       ∧ Retainers.AuthState.userId auth = Some value ∧ value ≠ "").
Proof.
  unfold Retainers.filtersFor. split_and!.
  - intros Hrole Hor. rewrite Hrole. cbn [negb].
    destruct Hor as [Hne | Hid].
    + by rewrite bool_decide_eq_false_2.
    + rewrite Hid. by rewrite andb_false_r.
  - intros Hrole. rewrite Hrole. cbn [negb].
    rewrite bool_decide_eq_false_2.
    2:{ intros H. rewrite H in Hrole. discriminate. }
    cbn [andb]. fold (centerKey auth). split.
    + intros center vendor -> Hc%truthy_true_iff. simpl. rewrite Hc.
      intros -> Hv%truthy_true_iff. simpl. by rewrite Hv.
    + intros Hnone.
      destruct (Retainers.Supabase.appUsers db _) as [[center|]|] eqn:Hu;
        [|reflexivity..].
      simpl. destruct (truthy center) eqn:Hc; [|reflexivity].
      destruct (Retainers.Supabase.centers db center) as [[vendor|]|] eqn:Hv;
        [|reflexivity..].
      simpl. destruct (truthy vendor) eqn:Hne; [|reflexivity].
      exfalso. apply Hnone. exists center, vendor.
      split_and!; [done| |done|]; by apply truthy_true_iff.
  - intros column value Hin ->.
    destruct (bool_decide (Retainers.AuthState.role auth = Some "lawyer"))
      eqn:Hl.
    + apply bool_decide_eq_true in Hl.
      destruct (Retainers.AuthState.userId auth) as [id|]; simpl in Hin.
      * destruct (truthy id) eqn:Hid.
        -- apply list_elem_of_singleton in Hin. injection Hin as <-.
           split_and!; [done..|]. by apply truthy_true_iff.
        -- rewrite Hl in Hin. simpl in Hin. by apply elem_of_nil in Hin.
      * rewrite Hl in Hin. simpl in Hin. by apply elem_of_nil in Hin.
    + cbn [andb] in Hin.
      destruct (negb _); [|by apply elem_of_nil in Hin].
      destruct (Retainers.Supabase.appUsers db _) as [center|];
        [|by apply elem_of_nil in Hin].
      destruct (Retainers.truthyOpt center); [|by apply elem_of_nil in Hin].
      destruct (Retainers.Supabase.centers db _) as [vendor|];
        [|by apply elem_of_nil in Hin].
      destruct (Retainers.truthyOpt vendor); [|by apply elem_of_nil in Hin].
      apply list_elem_of_singleton in Hin. discriminate.
Qed.

Lemma filtersFor_narrowing_witness :
  Retainers.filtersFor (Retainers.AuthState.mk (Some "user-2") None)
                       Samples.centerDb
  = [("lead_vendor", "North Leads")]
  ∧ Retainers.filtersFor (Retainers.AuthState.mk (Some "user-3") None)
                         Samples.centerDb
    = [].
Proof.
  split.
  - destruct (filtersFor_narrowing
                (Retainers.AuthState.mk (Some "user-2") None) Samples.centerDb)
      as (_ & Hrole & _).
    destruct (Hrole eq_refl) as [Hvendor _].
    apply (Hvendor "center-9" "North Leads"); [reflexivity|discriminate|
                                               reflexivity|discriminate].
  - destruct (filtersFor_narrowing
                (Retainers.AuthState.mk (Some "user-3") None) Samples.centerDb)
      as (_ & Hrole & _).
    destruct (Hrole eq_refl) as [_ Hnone].
    apply Hnone. intros (center & vendor & Hu & _ & Hc & Hv).
    vm_compute in Hu. injection Hu as <-. vm_compute in Hc.
    injection Hc as <-. by apply Hv.
Defined.
